(** * Crono: the CRON schedule evaluator of [src/app/page.tsx]

    A shallow embedding of the three callbacks that make up the schedule
    evaluator of the page component:

    - [parseCronPart]            (page.tsx, lines 92-121)
    - [calculateNextExecutions]  (page.tsx, lines 82-176)
    - [validateCronExpression]   (page.tsx, lines 179-227)

    together with the JavaScript built-ins they call ([Number],
    [Number.parseInt], [isNaN], [String.prototype.trim/split/includes],
    [Array.from], [Array.prototype.includes/filter/push] and the [Date]
    accessors), written after ECMA-262.

    Modelling conventions.

    - Strings are [string]s of code units below 256.
    - A JavaScript number is [NaN], an infinity or an exact rational
      ([number]).  Finite values are kept exact: binary64 rounding and
      overflow are not modelled, so the model coincides with the engine
      on every value that binary64 represents exactly, in particular on
      all integers of magnitude at most 2^53.  General statements below
      are made for the five field domains or for numerals in that range.
    - A [Date] is its time value in milliseconds (an integer), read as
      local wall-clock time: the host time zone is a fixed offset.
    - The two zeros are identified; nothing in the evaluator tells them
      apart ([includes] uses SameValueZero).
    - A computation either completes normally, throws, or is cut off by
      the fuel that makes the recursion of the step loop structural
      ([completion]); fuel beyond the length limit of an array is always
      enough.  Arrays are lists; their length limit of 2^32 - 1 is kept
      where the source can reach it: in the check [new Array(len)] makes
      before anything is stored, and in [push]. *)

From Stdlib Require Import ZArith QArith Qreduction Qcanon Qround.
From Stdlib Require Import List Bool Ascii String Lia Sorted.
Import ListNotations.

Local Open Scope Z_scope.

(** ** Completions *)

Inductive error := RangeError.

Inductive completion (A : Type) : Type :=
| Normal (a : A)
| Throw (e : error)
| OutOfFuel.

Arguments Normal {A} a.
Arguments Throw {A} e.
Arguments OutOfFuel {A}.

Definition bind {A B : Type} (c : completion A) (k : A -> completion B)
  : completion B :=
  match c with
  | Normal a => k a
  | Throw e => Throw e
  | OutOfFuel => OutOfFuel
  end.

(** [try c catch (e) h] *)
Definition try_catch {A : Type} (c : completion A) (h : error -> completion A)
  : completion A :=
  match c with
  | Throw e => h e
  | _ => c
  end.

Declare Scope js_scope.
Delimit Scope js_scope with js.
Notation "x <- c ;; k" := (bind c (fun x => k))
  (at level 61, c at next level, right associativity) : js_scope.

(** ** JavaScript built-ins *)

Module JS.

(** *** Numbers *)

Inductive number : Type :=
| NaN
| Inf (negative : bool)
| Fin (q : Q).

Definition canon (q : Q) : number := Fin (Qred q).
Definition ofZ (z : Z) : number := Fin (inject_Z z).

Definition isNaN (n : number) : bool :=
  match n with NaN => true | _ => false end.

Definition neg (a : number) : number :=
  match a with
  | NaN => NaN
  | Inf s => Inf (negb s)
  | Fin x => canon (- x)
  end.

Definition add (a b : number) : number :=
  match a, b with
  | NaN, _ | _, NaN => NaN
  | Inf s, Inf s' => if Bool.eqb s s' then Inf s else NaN
  | Inf s, Fin _ | Fin _, Inf s => Inf s
  | Fin x, Fin y => canon (x + y)
  end.

Definition sub (a b : number) : number := add a (neg b).

(** [a <= b]; every comparison with [NaN] is false. *)
Definition le (a b : number) : bool :=
  match a, b with
  | NaN, _ | _, NaN => false
  | Inf true, _ => true
  | _, Inf false => true
  | Inf false, _ => false
  | Fin _, Inf true => false
  | Fin x, Fin y => Qle_bool x y
  end.

Definition ge (a b : number) : bool := le b a.

(** [a < b] and [a > b] *)
Definition lt (a b : number) : bool :=
  match a, b with
  | NaN, _ | _, NaN => false
  | _, _ => negb (le b a)
  end.

Definition gt (a b : number) : bool := lt b a.

(** SameValueZero, the equality of [Array.prototype.includes]. *)
Definition sameValueZero (a b : number) : bool :=
  match a, b with
  | NaN, NaN => true
  | Inf s, Inf s' => Bool.eqb s s'
  | Fin x, Fin y => Qeq_bool x y
  | _, _ => false
  end.

(** ToIntegerOrInfinity followed by the clamp of ToLength. *)
Definition ToLength (n : number) : Z :=
  match n with
  | NaN => 0
  | Inf true => 0
  | Inf false => 2 ^ 53 - 1
  | Fin q => Z.min (Z.max (Qfloor q) 0) (2 ^ 53 - 1)
  end.

(** *** Arrays *)

Fixpoint includes (l : list number) (x : number) : bool :=
  match l with
  | [] => false
  | y :: l' => sameValueZero y x || includes l' x
  end.

(** [Array.from({ length }, (_, i) => mapFn(i))]: the array-like has no
    elements, only a length; [new Array(len)] rejects a length above
    2^32 - 1 before anything is stored. *)
Definition ArrayFrom (length : number) (mapFn : number -> number)
  : completion (list number) :=
  let len := ToLength length in
  if 2 ^ 32 - 1 <? len then Throw RangeError
  else Normal (map (fun i => mapFn (ofZ (Z.of_nat i))) (seq 0 (Z.to_nat len))).

(** The largest length an array can have (ECMA-262, 10.4.2).  An engine
    may refuse to grow an array before that length is reached; it does
    so with the same RangeError. *)
Definition maxArrayLength : Z := 2 ^ 32 - 1.

(** [values.push(x)] on an array: the element is stored and the length
    is set to one more; on an array that already has the largest length
    the new length is not a valid array length and [push] throws a
    RangeError (ArraySetLength). *)
Definition push (values : list number) (x : number) : completion (list number) :=
  if Z.of_nat (List.length values) <? maxArrayLength
  then Normal (values ++ [x])%list
  else Throw RangeError.

(** *** Strings *)

Definition code (c : ascii) : Z := Z.of_N (N_of_ascii c).

(** WhiteSpace and LineTerminator code units below 256: TAB, LF, VT, FF,
    CR, SP, NBSP.  This is both [\s] and StrWhiteSpaceChar. *)
Definition isWhiteSpace (c : ascii) : bool :=
  let n := code c in
  ((9 <=? n) && (n <=? 13)) || (n =? 32) || (n =? 160).

Definition isDigit (c : ascii) : bool :=
  let n := code c in (48 <=? n) && (n <=? 57).

Definition digitValue (c : ascii) : Z := code c - 48.

(** Value of a hexadecimal digit, if it is one. *)
Definition hexValue (c : ascii) : option Z :=
  let n := code c in
  if (48 <=? n) && (n <=? 57) then Some (n - 48)
  else if (97 <=? n) && (n <=? 102) then Some (n - 87)
  else if (65 <=? n) && (n <=? 70) then Some (n - 55)
  else None.

Local Open Scope string_scope.
Local Open Scope Z_scope.

Fixpoint str_includes (s : string) (c : ascii) : bool :=
  match s with
  | "" => false
  | String a s' => Ascii.eqb a c || str_includes s' c
  end.

(** [s.split(sep)] for a one-character separator. *)
Fixpoint split (s : string) (sep : ascii) : list string :=
  match s with
  | "" => [""]
  | String a s' =>
      if Ascii.eqb a sep then "" :: split s' sep
      else match split s' sep with
           | h :: t => String a h :: t
           | [] => [String a ""]
           end
  end.

Fixpoint trimStart (s : string) : string :=
  match s with
  | "" => ""
  | String a s' => if isWhiteSpace a then trimStart s' else s
  end.

Fixpoint trimEnd (s : string) : string :=
  match s with
  | "" => ""
  | String a s' =>
      match trimEnd s' with
      | "" => if isWhiteSpace a then "" else String a ""
      | r => String a r
      end
  end.

Definition trim (s : string) : string := trimEnd (trimStart s).

(** [s.split(/\s+/)]: the separators are the maximal runs of white
    space; [cur] is the token being read and [inSep] tells that the
    previous code unit belonged to a separator. *)
Fixpoint splitWs_from (inSep : bool) (cur : string) (s : string) : list string :=
  match s with
  | "" => [cur]
  | String a s' =>
      if isWhiteSpace a then
        if inSep then splitWs_from true "" s'
        else cur :: splitWs_from true "" s'
      else splitWs_from false (cur ++ String a "") s'
  end.

Definition splitWs (s : string) : list string := splitWs_from false "" s.

(** *** Numeric conversions *)

(** Longest prefix of decimal digits, and the rest. *)
Fixpoint takeDigits (s : string) : string * string :=
  match s with
  | "" => ("", "")
  | String a s' =>
      if isDigit a then let (d, r) := takeDigits s' in (String a d, r)
      else ("", s)
  end.

Fixpoint digitsValue_from (acc : Z) (s : string) : Z :=
  match s with
  | "" => acc
  | String a s' => digitsValue_from (10 * acc + digitValue a) s'
  end.

Definition digitsValue (s : string) : Z := digitsValue_from 0 s.

(** Value of the longest prefix of digits in radix [r] (16, 8 or 2; a
    digit is accepted when its value is below the radix), with the
    number of digits read and the rest. *)
Fixpoint takeRadix (r : Z) (acc : Z) (n : nat) (s : string) : Z * nat * string :=
  match s with
  | "" => (acc, n, "")
  | String a s' =>
      match hexValue a with
      | Some v => if v <? r then takeRadix r (r * acc + v) (S n) s'
                  else (acc, n, s)
      | None => (acc, n, s)
      end
  end.

(** An optional sign: whether it is [-], and the rest. *)
Definition stripSign (s : string) : bool * string :=
  match s with
  | String a r =>
      if Ascii.eqb a "-" then (true, r)
      else if Ascii.eqb a "+" then (false, r)
      else (false, s)
  | "" => (false, s)
  end.

(** The text after a prefix [0x] or [0X], when there is one. *)
Definition hexPrefix (s : string) : option string :=
  match s with
  | String a (String x r) =>
      if Ascii.eqb a "0" && (Ascii.eqb x "x" || Ascii.eqb x "X") then Some r
      else None
  | _ => None
  end.

(** The radix announced by a prefix [0x], [0o], [0b] or its capital,
    and the text after the prefix. *)
Definition radixPrefix (s : string) : option (Z * string) :=
  match s with
  | String a (String x r) =>
      if Ascii.eqb a "0" then
        if Ascii.eqb x "x" || Ascii.eqb x "X" then Some (16, r)
        else if Ascii.eqb x "o" || Ascii.eqb x "O" then Some (8, r)
        else if Ascii.eqb x "b" || Ascii.eqb x "B" then Some (2, r)
        else None
      else None
  | _ => None
  end.

(** [Number.parseInt(string)] with no radix argument (ECMA-262 19.2.5):
    leading white space is skipped, a sign is read, a [0x]/[0X] prefix
    selects radix 16, and the longest prefix of digits is converted;
    whatever follows is ignored. *)
Definition parseInt (string : string) : number :=
  let inputString := trimStart string in
  let (negative, S) := stripSign inputString in
  let sign := if negative then -1 else 1 in
  match hexPrefix S with
  | Some r =>
      match takeRadix 16 0 0 r with
      | (_, O, _) => NaN
      | (v, _, _) => ofZ (sign * v)
      end
  | None =>
      let (Z, _) := takeDigits S in
      if (Z =? "")%string then NaN else ofZ (sign * digitsValue Z)
  end.

(** NonDecimalIntegerLiteral: a radix prefix, at least one digit and
    nothing after the digits; it takes no sign. *)
Definition nonDecimalLiteral (s : string) : option Z :=
  match radixPrefix s with
  | Some (R, r) =>
      match takeRadix R 0 0 r with
      | (v, S _, "") => Some v
      | _ => None
      end
  | None => None
  end.

(** ExponentPart, optional: [e] or [E], an optional sign, digits, and
    then the end of the text. *)
Definition exponentPart (s : string) : option Z :=
  match s with
  | "" => Some 0
  | String e r =>
      if Ascii.eqb e "e" || Ascii.eqb e "E" then
        let (negative, r') := stripSign r in
        let (d, rest) := takeDigits r' in
        if (d =? "")%string || negb (rest =? "")%string then None
        else Some ((if negative then -1 else 1) * digitsValue d)
      else None
  end.

(** Mathematical value [m * 10^e]. *)
Definition scale10 (m e : Z) : Q :=
  if 0 <=? e then inject_Z (m * 10 ^ e)
  else Qmake m (Z.to_pos (10 ^ (- e))).

(** Digits with no decimal point, then an optional exponent. *)
Definition integerLiteral (I rest : string) : option Q :=
  if (I =? "")%string then None
  else match exponentPart rest with
       | Some e => Some (scale10 (digitsValue I) e)
       | None => None
       end.

(** StrUnsignedDecimalLiteral other than [Infinity]. *)
Definition unsignedDecimal (s : string) : option Q :=
  let (I, r1) := takeDigits s in
  match r1 with
  | String a r2 =>
      if Ascii.eqb a "." then
        let (F, r3) := takeDigits r2 in
        if (I =? "")%string && (F =? "")%string then None
        else match exponentPart r3 with
             | Some e =>
                 Some (scale10 (digitsValue (I ++ F))
                               (e - Z.of_nat (String.length F)))
             | None => None
             end
      else integerLiteral I r1
  | "" => integerLiteral I r1
  end.

(** [Number(s)], that is StringToNumber (ECMA-262 7.1.4.1.1): white
    space is trimmed on both sides, the empty literal is 0, and any
    text that is not a StrNumericLiteral as a whole gives [NaN]. *)
Definition Number (s : string) : number :=
  let t := trim s in
  if (t =? "")%string then ofZ 0
  else
    match nonDecimalLiteral t with
    | Some v => ofZ v
    | None =>
        let (negative, u) := stripSign t in
        if (u =? "Infinity")%string then Inf negative
        else
          match unsignedDecimal u with
          | Some q => if negative then canon (- q) else canon q
          | None => NaN
          end
    end.

End JS.

Import JS.
Coercion JS.ofZ : Z >-> JS.number.
Local Open Scope string_scope.
Local Open Scope Z_scope.

(** ** Dates (ECMA-262, 21.4.1), time values in local milliseconds *)

Module Date.

Definition msPerSecond : Z := 1000.
Definition msPerMinute : Z := 60000.
Definition msPerHour : Z := 3600000.
Definition msPerDay : Z := 86400000.

Definition Day (t : Z) : Z := t / msPerDay.
Definition TimeWithinDay (t : Z) : Z := t mod msPerDay.

Definition DaysInYear (y : Z) : Z :=
  if negb (y mod 4 =? 0) then 365
  else if negb (y mod 100 =? 0) then 366
  else if negb (y mod 400 =? 0) then 365
  else 366.

Definition DayFromYear (y : Z) : Z :=
  365 * (y - 1970) + (y - 1969) / 4 - (y - 1901) / 100 + (y - 1601) / 400.

Definition TimeFromYear (y : Z) : Z := msPerDay * DayFromYear y.

(** The largest year [y] with [TimeFromYear y <= t], searched upwards
    from [y]; the start below never exceeds the year sought. *)
Fixpoint yearSearch (fuel : nat) (y t : Z) : Z :=
  match fuel with
  | O => y
  | S k => if TimeFromYear (y + 1) <=? t then yearSearch k (y + 1) t else y
  end.

Definition YearFromTime (t : Z) : Z :=
  let d := Day t in
  let y0 := 1970 + (if 0 <=? d then d / 366 else d / 365) in
  yearSearch (Z.to_nat (Z.abs d / 100000 + 3)) y0 t.

Definition InLeapYear (t : Z) : bool := DaysInYear (YearFromTime t) =? 366.

Definition DayWithinYear (t : Z) : Z := Day t - DayFromYear (YearFromTime t).

Definition MonthFromTime (t : Z) : Z :=
  let d := DayWithinYear t in
  let l := if InLeapYear t then 1 else 0 in
  if d <? 31 then 0
  else if d <? 59 + l then 1
  else if d <? 90 + l then 2
  else if d <? 120 + l then 3
  else if d <? 151 + l then 4
  else if d <? 181 + l then 5
  else if d <? 212 + l then 6
  else if d <? 243 + l then 7
  else if d <? 273 + l then 8
  else if d <? 304 + l then 9
  else if d <? 334 + l then 10
  else 11.

Definition DateFromTime (t : Z) : Z :=
  let d := DayWithinYear t in
  let l := if InLeapYear t then 1 else 0 in
  match MonthFromTime t with
  | 0 => d + 1
  | 1 => d - 30
  | 2 => d - 58 - l
  | 3 => d - 89 - l
  | 4 => d - 119 - l
  | 5 => d - 150 - l
  | 6 => d - 180 - l
  | 7 => d - 211 - l
  | 8 => d - 242 - l
  | 9 => d - 272 - l
  | 10 => d - 303 - l
  | _ => d - 333 - l
  end.

Definition WeekDay (t : Z) : Z := (Day t + 4) mod 7.
Definition HourFromTime (t : Z) : Z := (t / msPerHour) mod 24.
Definition MinFromTime (t : Z) : Z := (t / msPerMinute) mod 60.
Definition SecFromTime (t : Z) : Z := (t / msPerSecond) mod 60.
Definition msFromTime (t : Z) : Z := t mod msPerSecond.

Definition MakeTime (hour min sec ms : Z) : Z :=
  hour * msPerHour + min * msPerMinute + sec * msPerSecond + ms.

Definition MakeDate (day time : Z) : Z := day * msPerDay + time.

(** The accessors and the two setters the evaluator uses. *)
Definition getMinutes (d : Z) : Z := MinFromTime d.
Definition getHours (d : Z) : Z := HourFromTime d.
Definition getDate (d : Z) : Z := DateFromTime d.
Definition getMonth (d : Z) : Z := MonthFromTime d.
Definition getDay (d : Z) : Z := WeekDay d.

Definition setSeconds (d : Z) (sec ms : Z) : Z :=
  MakeDate (Day d) (MakeTime (HourFromTime d) (MinFromTime d) sec ms).

Definition setMinutes (d : Z) (min : Z) : Z :=
  MakeDate (Day d) (MakeTime (HourFromTime d) min (SecFromTime d) (msFromTime d)).

(** Time value of a civil date and time, for writing reference instants. *)
Definition civil (y m d hh mm ss : Z) : Z :=
  let l := if DaysInYear y =? 366 then 1 else 0 in
  let before :=
    match m with
    | 1 => 0 | 2 => 31 | 3 => 59 + l | 4 => 90 + l | 5 => 120 + l
    | 6 => 151 + l | 7 => 181 + l | 8 => 212 + l | 9 => 243 + l
    | 10 => 273 + l | 11 => 304 + l | _ => 334 + l
    end in
  MakeDate (DayFromYear y + before + d - 1) (MakeTime hh mm ss 0).

End Date.

Import Date.

(** ** The evaluator *)

Declare Scope num_scope.
Delimit Scope num_scope with num.
Bind Scope num_scope with number.
Notation "a + b" := (JS.add a b) : num_scope.
Notation "a - b" := (JS.sub a b) : num_scope.
Notation "a <=? b" := (JS.le a b) : num_scope.
Notation "a >=? b" := (JS.ge a b) : num_scope.
Notation "a <? b" := (JS.lt a b) : num_scope.
Notation "a >? b" := (JS.gt a b) : num_scope.

(** page.tsx, lines 100-104:
    [for (let i = min; i <= max; i += stepNum) values.push(i)];
    [return values].  When the step does not move [i] past [max], the
    only thing that ends the loop is the RangeError of [push] on an
    array of the largest length; [fuel] makes the recursion structural,
    and more fuel than that length is always enough. *)
Fixpoint stepLoop (fuel : nat) (i max stepNum : number) (values : list number)
  : completion (list number) :=
  match fuel with
  | O => OutOfFuel
  | S fuel' =>
      if (i <=? max)%num
      then (values' <- push values i ;;
            stepLoop fuel' (i + stepNum)%num max stepNum values')%js
      else Normal values
  end.

(** page.tsx, lines 92-121.  A destructured element that is missing is
    [undefined]; [Number.parseInt(undefined)] reads the text "undefined"
    and [isNaN(undefined)] is true, hence the defaults of [nth]. *)
Definition parseCronPart (fuel : nat) (part : string) (min max : number)
  : completion (list number) :=
  if (part =? "*")%string then
    ArrayFrom (max - min + 1)%num (fun i => (min + i)%num)
  else
    let range := nth 0 (split part "/") "undefined" in
    let step := nth 1 (split part "/") "undefined" in
    let stepNum := parseInt step in
    if str_includes part "/" && (range =? "*")%string then
      stepLoop fuel min max stepNum []
    else if str_includes part "," then
      Normal (filter (fun n => negb (isNaN n) && (n >=? min)%num && (n <=? max)%num)
                     (map Number (split part ",")))
    else
      let start := nth 0 (map Number (split part "-")) NaN in
      let end_ := nth 1 (map Number (split part "-")) NaN in
      if str_includes part "-" && negb (isNaN start) && negb (isNaN end_) then
        ArrayFrom (end_ - start + 1)%num (fun i => (start + i)%num)
      else
        let num := parseInt part in
        Normal (if negb (isNaN num) && (num >=? min)%num && (num <=? max)%num
                then [num] else []).

(** page.tsx, lines 125 and 127:
    [part === "*" ? null : parseCronPart(part, min, max)]. *)
Definition parseDayPart (fuel : nat) (part : string) (min max : number)
  : completion (option (list number)) :=
  if (part =? "*")%string then Normal None
  else (l <- parseCronPart fuel part min max ;; Normal (Some l))%js.

(** page.tsx, lines 144-152. *)
Definition dayMatch (days weekdays : option (list number)) (day weekday : number)
  : bool :=
  match days, weekdays with
  | Some days, Some weekdays => includes days day || includes weekdays weekday
  | Some days, None => includes days day
  | None, Some weekdays => includes weekdays weekday
  | None, None => true
  end.

(** The parsed fields the search loop closes over. *)
Record Fields := {
  minutes : list number;
  hours : list number;
  days : option (list number);
  months : list number;
  weekdays : option (list number)
}.

(** page.tsx, lines 134-154: the condition of the [if] in the loop body. *)
Definition matches (f : Fields) (now searchDate : Z) : bool :=
  let minute := getMinutes searchDate in
  let hour := getHours searchDate in
  let day := getDate searchDate in
  let month := getMonth searchDate + 1 in
  let weekday := getDay searchDate in
  let minuteMatch := includes (minutes f) minute in
  let hourMatch := includes (hours f) hour in
  let monthMatch := includes (months f) month in
  minuteMatch && hourMatch && dayMatch (days f) (weekdays f) day weekday
  && monthMatch && (now <? searchDate).

(** The iteration ceiling of the search loop. *)
Definition maxAttempts : Z := 10000.

Section Evaluator.

(** [Date.prototype.toLocaleString("en-US", { weekday: "short", month:
    "short", day: "numeric", hour: "numeric", minute: "2-digit", hour12:
    true })]; its text is implementation-defined. *)
Variable toLocaleString : Z -> string.

(** page.tsx, lines 133-169:
    [for (let attempts = 0; attempts < 10000 && executions.length < 5;
    attempts++)].  [fuel] only makes the recursion structural: the loop
    is run with [maxAttempts] of it, one per possible attempt. *)
Fixpoint searchLoop (fuel : nat) (f : Fields) (now : Z)
  (attempts : Z) (searchDate : Z) (executions : list string) : list string :=
  match fuel with
  | O => executions
  | S fuel' =>
      if (attempts <? maxAttempts) && (Z.of_nat (List.length executions) <? 5) then
        let executions' :=
          if matches f now searchDate
          then (executions ++ [toLocaleString searchDate])%list
          else executions in
        searchLoop fuel' f now (attempts + 1)
          (setMinutes searchDate (getMinutes searchDate + 1)) executions'
      else executions
  end.

(** page.tsx, lines 82-176; [now] is the value of [new Date()]. *)
Definition calculateNextExecutions (fuel : nat) (now : Z) (cronExpression : string)
  : completion (list string) :=
  try_catch
    (let parts := splitWs (trim cronExpression) in
     match parts with
     | [minutePart; hourPart; dayPart; monthPart; weekdayPart] =>
         (minutes <- parseCronPart fuel minutePart 0 59 ;;
          hours <- parseCronPart fuel hourPart 0 23 ;;
          days <- parseDayPart fuel dayPart 1 31 ;;
          months <- parseCronPart fuel monthPart 1 12 ;;
          weekdays <- parseDayPart fuel weekdayPart 0 6 ;;
          let searchDate := setSeconds now 0 0 in
          Normal (searchLoop (Z.to_nat maxAttempts)
                    {| minutes := minutes; hours := hours; days := days;
                       months := months; weekdays := weekdays |}
                    now 0 searchDate []))%js
     | _ => Normal []
     end)
    (fun _ => Normal []).

(** *** The validator and the component state it writes *)

Record Validation := { isValid : bool; message : string }.

Record State := {
  cronValidation : option Validation;
  nextExecutions : list string
}.

Definition M (A : Type) : Type := State -> completion A * State.

Definition ret {A : Type} (a : A) : M A := fun st => (Normal a, st).

Definition mbind {A B : Type} (m : M A) (k : A -> M B) : M B :=
  fun st =>
    match m st with
    | (Normal a, st') => k a st'
    | (Throw e, st') => (Throw e, st')
    | (OutOfFuel, st') => (OutOfFuel, st')
    end.

Definition lift {A : Type} (c : completion A) : M A := fun st => (c, st).

Definition setCronValidation (v : option Validation) : M unit :=
  fun st => (Normal tt, {| cronValidation := v; nextExecutions := nextExecutions st |}).

Definition setNextExecutions (l : list string) : M unit :=
  fun st => (Normal tt, {| cronValidation := cronValidation st; nextExecutions := l |}).

Declare Scope st_scope.
Delimit Scope st_scope with st.
Notation "x <- c ;; k" := (mbind c (fun x => k))
  (at level 61, c at next level, right associativity) : st_scope.
Notation "c ;; k" := (mbind c (fun _ => k))
  (at level 61, right associativity) : st_scope.

(** An entry of the [validations] table (page.tsx, lines 196-202). *)
Record validation := { value : string; range : number * number; name : string }.

(** page.tsx, lines 204-218: the [for ... of] loop; the result tells
    whether the body returned from the callback. *)
Fixpoint validationLoop (validations : list validation) : M bool :=
  match validations with
  | [] => ret false
  | validation :: rest =>
      if negb (value validation =? "*")%string
         && negb (str_includes (value validation) "/")
         && negb (str_includes (value validation) ",")
         && negb (str_includes (value validation) "-")
      then
        let num := parseInt (value validation) in
        if isNaN num || (num <? fst (range validation))%num
           || (num >? snd (range validation))%num
        then
          (setCronValidation
             (Some {| isValid := false;
                      message := "Invalid " ++ name validation ++ ": "
                                 ++ value validation |}) ;;
           setNextExecutions [] ;;
           ret true)%st
        else validationLoop rest
      else validationLoop rest
  end.

(** page.tsx, lines 179-227. *)
Definition validateCronExpression (fuel : nat) (now : Z) (expression : string)
  : M unit :=
  if (trim expression =? "")%string then
    (setCronValidation None ;; setNextExecutions [])%st
  else
    let parts := splitWs (trim expression) in
    match parts with
    | [minute; hour; day; month; weekday] =>
        let validations :=
          [ {| value := minute; range := (ofZ 0, ofZ 59); name := "minute" |};
            {| value := hour; range := (ofZ 0, ofZ 23); name := "hour" |};
            {| value := day; range := (ofZ 1, ofZ 31); name := "day" |};
            {| value := month; range := (ofZ 1, ofZ 12); name := "month" |};
            {| value := weekday; range := (ofZ 0, ofZ 6); name := "weekday" |} ] in
        (returned <- validationLoop validations ;;
         if returned : bool then ret tt
         else
           setCronValidation
             (Some {| isValid := true; message := "Valid CRON expression" |}) ;;
           executions <- lift (calculateNextExecutions fuel now expression) ;;
           setNextExecutions executions)%st
    | _ =>
        (setCronValidation
           (Some {| isValid := false;
                    message := "CRON expression must have exactly 5 parts" |}) ;;
         setNextExecutions [])%st
    end.

End Evaluator.

(** *** The instants behind the formatted entries

    The same loop and the same callback, collecting the time values
    that the source formats instead of their texts. *)

Fixpoint searchDates (fuel : nat) (f : Fields) (now : Z)
  (attempts : Z) (searchDate : Z) (dates : list Z) : list Z :=
  match fuel with
  | O => dates
  | S fuel' =>
      if (attempts <? maxAttempts) && (Z.of_nat (List.length dates) <? 5) then
        let dates' :=
          if matches f now searchDate then (dates ++ [searchDate])%list else dates in
        searchDates fuel' f now (attempts + 1)
          (setMinutes searchDate (getMinutes searchDate + 1)) dates'
      else dates
  end.

Definition nextExecutionDates (fuel : nat) (now : Z) (cronExpression : string)
  : completion (list Z) :=
  try_catch
    (let parts := splitWs (trim cronExpression) in
     match parts with
     | [minutePart; hourPart; dayPart; monthPart; weekdayPart] =>
         (minutes <- parseCronPart fuel minutePart 0 59 ;;
          hours <- parseCronPart fuel hourPart 0 23 ;;
          days <- parseDayPart fuel dayPart 1 31 ;;
          months <- parseCronPart fuel monthPart 1 12 ;;
          weekdays <- parseDayPart fuel weekdayPart 0 6 ;;
          let searchDate := setSeconds now 0 0 in
          Normal (searchDates (Z.to_nat maxAttempts)
                    {| minutes := minutes; hours := hours; days := days;
                       months := months; weekdays := weekdays |}
                    now 0 searchDate []))%js
     | _ => Normal []
     end)
    (fun _ => Normal []).

(** ** The five field domains (page.tsx, lines 123-127 and 197-201) *)

Inductive Field := Minute | Hour | DayOfMonth | Month | DayOfWeek.

Definition lo (f : Field) : Z :=
  match f with Minute => 0 | Hour => 0 | DayOfMonth => 1 | Month => 1 | DayOfWeek => 0 end.

Definition hi (f : Field) : Z :=
  match f with Minute => 59 | Hour => 23 | DayOfMonth => 31 | Month => 12 | DayOfWeek => 6 end.

Definition fieldName (f : Field) : string :=
  match f with
  | Minute => "minute" | Hour => "hour" | DayOfMonth => "day"
  | Month => "month" | DayOfWeek => "weekday"
  end.

(** ** Specification-side vocabulary *)

(** The ascending run [from, from + 1, ...] of [n] integers. *)
Fixpoint upto (n : nat) (from : Z) : list Z :=
  match n with
  | O => []
  | S k => from :: upto k (from + 1)
  end.

(** The inclusive run [{a, a + 1, ..., b}], empty when [b < a]. *)
Definition zrange (a b : Z) : list Z := upto (Z.to_nat (b - a + 1)) a.

(** [n] values [from, from + step, from + 2 step, ...]. *)
Fixpoint every (n : nat) (from step : Z) : list Z :=
  match n with
  | O => []
  | S k => from :: every k (from + step) step
  end.

(** Every [step]-th value from [a] while the value is at most [b]. *)
Definition stepRun (a b step : Z) : list Z :=
  every (Z.to_nat ((b - a) / step + 1)) a step.

Fixpoint allDigits (s : string) : bool :=
  match s with
  | "" => true
  | String a s' => isDigit a && allDigits s'
  end.

(** A decimal numeral: one or more decimal digits. *)
Definition isNumeral (s : string) : bool :=
  match s with
  | "" => false
  | _ => allDigits s
  end.

(** What the loop maintains about the instants collected so far. *)
Definition collected (now searchDate : Z) (dates : list Z) : Prop :=
  (List.length dates <= 5)%nat
  /\ Forall (fun t => now < t) dates
  /\ StronglySorted Z.lt dates
  /\ Forall (fun t => t < searchDate) dates.

(** The tokens of a raw expression, as both callbacks split it. *)
Definition tokens (expression : string) : list string :=
  splitWs (trim expression).

(** A token in simple form: not the wildcard and free of [/], [,], [-]. *)
Definition simpleForm (t : string) : bool :=
  negb (t =? "*")%string && negb (str_includes t "/")
  && negb (str_includes t ",") && negb (str_includes t "-").

(** A token is acceptable for a field when, if in simple form, it
    parses as an integer of the field's domain. *)
Definition fieldOk (f : Field) (t : string) : Prop :=
  simpleForm t = true ->
  exists n : Z, parseInt t = ofZ n /\ lo f <= n <= hi f.

(** The place of a field in the expression. *)
Definition position (f : Field) : nat :=
  match f with
  | Minute => 0 | Hour => 1 | DayOfMonth => 2 | Month => 3 | DayOfWeek => 4
  end.

(** The entry of the [validations] table for field [f] with token [t]. *)
Definition entry (f : Field) (t : string) : validation :=
  {| value := t; range := (ofZ (lo f), ofZ (hi f)); name := fieldName f |}.

(** The test of the loop body on one entry of the table. *)
Definition accepted (v : validation) : bool :=
  negb (simpleForm (value v)
        && (isNaN (parseInt (value v))
            || (parseInt (value v) <? fst (range v))%num
            || (parseInt (value v) >? snd (range v))%num)).

(** The three kinds of verdict. *)
Definition invalidField (v : validation) : Validation :=
  {| isValid := false; message := "Invalid " ++ name v ++ ": " ++ value v |}.

Definition wrongLength : Validation :=
  {| isValid := false; message := "CRON expression must have exactly 5 parts" |}.

Definition validExpression : Validation :=
  {| isValid := true; message := "Valid CRON expression" |}.

(** The verdict left in the component state by the validator. *)
Definition verdict (fmt : Z -> string) (fuel : nat) (now : Z) (expression : string)
  (st : State) : option Validation :=
  cronValidation (snd (validateCronExpression fmt fuel now expression st)).

(** The token of a field in a token list. *)
Definition tokenOf (f : Field) (l : list string) : string := nth (position f) l "".

(** The text [r] cannot continue a run of decimal digits. *)
Definition stops (r : string) : bool :=
  match r with
  | "" => true
  | String c _ => negb (isDigit c)
  end.

(** The text [r] does not start with [x] or [X]. *)
Definition noHexMark (r : string) : bool :=
  match r with
  | "" => true
  | String c _ => negb (Ascii.eqb c "x" || Ascii.eqb c "X")
  end.

(** [members.join(sep)] *)
Fixpoint join (members : list string) (sep : ascii) : string :=
  match members with
  | [] => ""
  | m :: rest =>
      match rest with
      | [] => m
      | _ => m ++ String sep (join rest sep)
      end
  end.

(** The values of the members that are decimal numerals, in order. *)
Definition numeralValues (members : list string) : list Z :=
  flat_map (fun m => if isNumeral m then [digitsValue m] else []) members.

(** Membership in the domain of a field. *)
Definition inDomain (f : Field) (z : Z) : bool := (lo f <=? z) && (z <=? hi f).

(** A member the comma contract speaks about: free of [,] and
    [/], and either a decimal numeral or a text whose numeric conversion
    is [NaN]. *)
Definition plainMember (m : string) : Prop :=
  str_includes m "," = false /\ str_includes m "/" = false
  /\ (isNumeral m = true \/ Number m = NaN).

(** A component of a range token: a text free of [-], [/] and [,]. *)
Definition plainComponent (s : string) : Prop :=
  str_includes s "-" = false /\ str_includes s "/" = false
  /\ str_includes s "," = false.

(** The one way a field can keep the step loop from leaving by its
    test: the step rule applies, the domain is not empty, and the step
    is an integer that is zero or negative.  The loop then goes on until
    [push] throws. *)
Definition stalls (part : string) (min max : Z) : bool :=
  negb (part =? "*")%string && str_includes part "/"
  && (nth 0 (split part "/") "undefined" =? "*")%string
  && (parseInt (nth 1 (split part "/") "undefined") <=? ofZ 0)%num
  && (min <=? max).

(** The minutes the search loop visits: [maxAttempts] of them, one
    minute apart, from [searchDate] on. *)
Definition window (searchDate : Z) : list Z :=
  map (fun k => searchDate + 60000 * Z.of_nat k) (seq 0 (Z.to_nat maxAttempts)).

(** The text holds no white space. *)
Fixpoint noWhiteSpace (s : string) : bool :=
  match s with
  | "" => true
  | String a s' => negb (isWhiteSpace a) && noWhiteSpace s'
  end.

(** The last code unit of the text is white space. *)
Fixpoint endsWithSpace (s : string) : bool :=
  match s with
  | "" => false
  | String a s' =>
      match s' with
      | "" => isWhiteSpace a
      | _ => endsWithSpace s'
      end
  end.

(** ** The rest of the page component and the two API routes *)

(** *** Integers as decimal text *)

Definition digitChar (d : Z) : ascii := ascii_of_N (Z.to_N (48 + d)).

(** The decimal digits of [n], most significant first, put before
    [acc]; [fuel] bounds the number of digits. *)
Fixpoint digitsOf (fuel : nat) (n : Z) (acc : string) : string :=
  match fuel with
  | O => acc
  | S fuel' =>
      if n <? 10 then String (digitChar n) acc
      else digitsOf fuel' (n / 10) (String (digitChar (n mod 10)) acc)
  end.

(** [Number.prototype.toString()] on an integer of magnitude below
    10^21: its decimal digits, after a [-] when it is negative. *)
Definition NumberToString (n : Z) : string :=
  let fuel := S (Z.to_nat (Z.log2 (Z.abs n))) in
  if n <? 0 then String "-" (digitsOf fuel (- n) "") else digitsOf fuel n "".

(** *** JSON values, promises and headers *)

#[warnings="-register-all"]
Inductive json :=
| JNull
| JBool (b : bool)
| JNumber (n : number)
| JString (s : string)
| JArray (items : list json)
| JObject (members : list (string * json)).

(** ToBoolean; [None] stands for [undefined]. *)
Definition truthy (v : option json) : bool :=
  match v with
  | None => false
  | Some JNull => false
  | Some (JBool b) => b
  | Some (JNumber n) => negb (isNaN n || sameValueZero n (ofZ 0))
  | Some (JString s) => negb (s =? "")%string
  | Some (JArray _) => true
  | Some (JObject _) => true
  end.

(** The member of a parsed object under [key]: of duplicate keys
    [JSON.parse] keeps the last. *)
Fixpoint member (members : list (string * json)) (key : string) : option json :=
  match members with
  | [] => None
  | (k, v) :: rest =>
      match member rest key with
      | Some v' => Some v'
      | None => if (k =? key)%string then Some v else None
      end
  end.

(** What a rejected promise or a [throw] carries, as far as the [catch]
    blocks look at it. *)
Inductive thrown :=
| ErrorObject (message : string)
| NotAnError.

Inductive promise (A : Type) : Type :=
| Resolved (a : A)
| Rejected (e : thrown).

Arguments Resolved {A} a.
Arguments Rejected {A} e.

Definition Headers : Type := list (string * string).

Definition lowerChar (c : ascii) : ascii :=
  let n := code c in
  if (65 <=? n) && (n <=? 90) then ascii_of_N (Z.to_N (n + 32)) else c.

Fixpoint toLowerCase (s : string) : string :=
  match s with
  | "" => ""
  | String a s' => String (lowerChar a) (toLowerCase s')
  end.

(** [headers.get(name)]: names compare without regard to case, the
    values of a repeated header are joined by a comma and a blank, and a
    missing header gives [null]. *)
Definition Headers_get (h : Headers) (name : string) : option string :=
  match filter (fun p => (toLowerCase (fst p) =? toLowerCase name)%string) h with
  | [] => None
  | (_, v) :: more => Some (fold_left (fun acc p => acc ++ ", " ++ snd p) more v)
  end.

(** *** The API routes *)

Module Api.

(** What [ratelimit.limit(ip)] resolves to. *)
Record RatelimitResponse := {
  success : bool;
  limit : Z;
  reset : Z;
  remaining : Z
}.

(** [NextResponse.json(body, { status, headers })]; the status is 200
    when none is given. *)
Record NextResponse := {
  status : Z;
  body : json;
  headers : Headers
}.

Section Routes.

(** [generateText({ model, system, prompt })] of the [ai] package with
    the Gemini provider, as a function of the prompt; the system text is
    a constant of each route. *)
Variable generateText : string -> promise string.

(** The text a template literal puts for a value that is not a string. *)
Variable ToString : json -> string.

Definition interpolate (v : json) : string :=
  match v with
  | JString s => s
  | _ => ToString v
  end.

(** The three headers both the refusal and the success carry
    (cron-to-nl route, lines 62-66 and 118-122 of the file). *)
Definition rateLimitHeaders (r : RatelimitResponse) : Headers :=
  [ ("X-RateLimit-Limit", NumberToString (limit r));
    ("X-RateLimit-Remaining", NumberToString (remaining r));
    ("X-RateLimit-Reset", NumberToString (reset r)) ].

(** The [cronExpression] (or [naturalLanguage]) a destructuring takes
    from the parsed request body: [null] cannot be destructured (a
    TypeError, [None] here), an object gives its member, any other value
    has no such property. *)
Definition destructure (parsed : json) (key : string) : option (option json) :=
  match parsed with
  | JNull => None
  | JObject members => Some (member members key)
  | _ => Some None
  end.

(** [POST] of the cron-to-nl route (lines 44-132 of its file).  [ip] is [request.ip], [forwarded]
    the [x-forwarded-for] header, [limiter] is [ratelimit.limit] and
    [requestJson] is [request.json()].  Whatever is thrown inside the
    [try] ends in the 500 response of the [catch]. *)
Definition cronToNl_POST (ip forwarded : option string)
  (limiter : string -> promise RatelimitResponse) (requestJson : promise json)
  : NextResponse :=
  let failed :=
    {| status := 500;
       body := JObject [("error",
                 JString "Failed to interpret CRON expression. Please check the format.")];
       headers := [] |} in
  let ip :=
    match ip with
    | Some a => a
    | None => match forwarded with Some a => a | None => "127.0.0.1" end
    end in
  match limiter ip with
  | Rejected _ => failed
  | Resolved r =>
      if negb (success r) then
        {| status := 429;
           body := JObject [("error", JString "Rate limit exceeded. Please try again later.");
                            ("limit", JNumber (ofZ (limit r)));
                            ("reset", JNumber (ofZ (reset r)));
                            ("remaining", JNumber (ofZ 0))];
           headers := rateLimitHeaders r |}
      else
        match requestJson with
        | Rejected _ => failed
        | Resolved parsed =>
            match destructure parsed "cronExpression" with
            | None => failed
            | Some cronExpression =>
                if negb (truthy cronExpression) then
                  {| status := 400;
                     body := JObject [("error", JString "CRON expression is required")];
                     headers := [] |}
                else
                  match cronExpression with
                  | Some (JString cronExpression) =>
                      let cronParts := splitWs (trim cronExpression) in
                      if negb (Nat.eqb (List.length cronParts) 5) then
                        {| status := 400;
                           body := JObject [("error",
                                     JString "Invalid CRON expression. Must have 5 parts.")];
                           headers := [] |}
                      else
                        match generateText
                                ("Explain this CRON expression in natural language: "
                                 ++ String "034" cronExpression ++ String "034" "") with
                        | Rejected _ => failed
                        | Resolved text =>
                            {| status := 200;
                               body := JObject [("description", JString (trim text))];
                               headers := rateLimitHeaders r |}
                        end
                  | _ => failed (* [.trim] is not a function *)
                  end
            end
        end
  end.

(** [POST] of the nl-to-cron route (lines 16-102 of its file); its rate
    limiting is commented out in the source. *)
Definition nlToCron_POST (requestJson : promise json) : NextResponse :=
  let failed :=
    {| status := 500;
       body := JObject [("error",
                 JString "Failed to generate CRON expression. Please try rephrasing your request.")];
       headers := [] |} in
  match requestJson with
  | Rejected _ => failed
  | Resolved parsed =>
      match destructure parsed "naturalLanguage" with
      | None => failed
      | Some naturalLanguage =>
          if negb (truthy naturalLanguage) then
            {| status := 400;
               body := JObject [("error", JString "Natural language input is required")];
               headers := [] |}
          else
            match naturalLanguage with
            | None => failed (* not reached: [undefined] is not truthy *)
            | Some value =>
                match generateText
                        ("Convert this to a CRON expression: "
                         ++ String "034" (interpolate value) ++ String "034" "") with
                | Rejected _ => failed
                | Resolved text =>
                    let cronParts := splitWs (trim text) in
                    if negb (Nat.eqb (List.length cronParts) 5) then failed
                    else
                      {| status := 200;
                         body := JObject [("cronExpression", JString (trim text))];
                         headers := [] |}
                end
            end
      end
  end.

End Routes.

End Api.

(** *** The page component *)

Module Page.

Inductive ConversionType := NlToCron | CronToNl.

(** The two values of [HistoryItem["type"]], which are also the values
    of the tabs. *)
Definition typeName (t : ConversionType) : string :=
  match t with
  | NlToCron => "nl-to-cron"
  | CronToNl => "cron-to-nl"
  end.

Record HistoryItem := {
  id : string;
  input : string;
  output : string;
  type : ConversionType;
  timestamp : Z
}.

Record RateLimitInfo := {
  limit : number;
  remaining : number;
  reset : number
}.

(** [localStorage], as the partial map from keys to stored texts. *)
Definition Storage : Type := string -> option string.

Definition getItem (s : Storage) (key : string) : option string := s key.

Definition setItem (s : Storage) (key value : string) : Storage :=
  fun k => if (k =? key)%string then Some value else s k.

Definition removeItem (s : Storage) (key : string) : Storage :=
  fun k => if (k =? key)%string then None else s k.

(** A call of [toast({ title, description })]. *)
Record Toast := { title : string; description : string }.

(** The state of the component other than the validation and the next
    executions, with the local storage it writes and the toasts it
    shows. *)
Record PageState := {
  activeTab : string;
  nlInput : string;
  cronInput : string;
  nlToCronResult : string;
  cronToNlResult : string;
  nlError : string;
  cronError : string;
  nlLoading : bool;
  cronLoading : bool;
  history : list HistoryItem;
  rateLimitInfo : RateLimitInfo;
  localStorage : Storage;
  toasts : list Toast
}.

Definition setActiveTab (v : string) (st : PageState) : PageState :=
  {| activeTab := v; nlInput := nlInput st; cronInput := cronInput st;
     nlToCronResult := nlToCronResult st;
     cronToNlResult := cronToNlResult st; nlError := nlError st;
     cronError := cronError st; nlLoading := nlLoading st;
     cronLoading := cronLoading st; history := history st;
     rateLimitInfo := rateLimitInfo st; localStorage := localStorage st;
     toasts := toasts st |}.

Definition setNlInput (v : string) (st : PageState) : PageState :=
  {| activeTab := activeTab st; nlInput := v; cronInput := cronInput st;
     nlToCronResult := nlToCronResult st;
     cronToNlResult := cronToNlResult st; nlError := nlError st;
     cronError := cronError st; nlLoading := nlLoading st;
     cronLoading := cronLoading st; history := history st;
     rateLimitInfo := rateLimitInfo st; localStorage := localStorage st;
     toasts := toasts st |}.

Definition setCronInput (v : string) (st : PageState) : PageState :=
  {| activeTab := activeTab st; nlInput := nlInput st; cronInput := v;
     nlToCronResult := nlToCronResult st;
     cronToNlResult := cronToNlResult st; nlError := nlError st;
     cronError := cronError st; nlLoading := nlLoading st;
     cronLoading := cronLoading st; history := history st;
     rateLimitInfo := rateLimitInfo st; localStorage := localStorage st;
     toasts := toasts st |}.

Definition setNlToCronResult (v : string) (st : PageState) : PageState :=
  {| activeTab := activeTab st; nlInput := nlInput st;
     cronInput := cronInput st; nlToCronResult := v;
     cronToNlResult := cronToNlResult st; nlError := nlError st;
     cronError := cronError st; nlLoading := nlLoading st;
     cronLoading := cronLoading st; history := history st;
     rateLimitInfo := rateLimitInfo st; localStorage := localStorage st;
     toasts := toasts st |}.

Definition setCronToNlResult (v : string) (st : PageState) : PageState :=
  {| activeTab := activeTab st; nlInput := nlInput st;
     cronInput := cronInput st; nlToCronResult := nlToCronResult st;
     cronToNlResult := v; nlError := nlError st; cronError := cronError st;
     nlLoading := nlLoading st; cronLoading := cronLoading st;
     history := history st; rateLimitInfo := rateLimitInfo st;
     localStorage := localStorage st; toasts := toasts st |}.

Definition setNlError (v : string) (st : PageState) : PageState :=
  {| activeTab := activeTab st; nlInput := nlInput st;
     cronInput := cronInput st; nlToCronResult := nlToCronResult st;
     cronToNlResult := cronToNlResult st; nlError := v;
     cronError := cronError st; nlLoading := nlLoading st;
     cronLoading := cronLoading st; history := history st;
     rateLimitInfo := rateLimitInfo st; localStorage := localStorage st;
     toasts := toasts st |}.

Definition setCronError (v : string) (st : PageState) : PageState :=
  {| activeTab := activeTab st; nlInput := nlInput st;
     cronInput := cronInput st; nlToCronResult := nlToCronResult st;
     cronToNlResult := cronToNlResult st; nlError := nlError st;
     cronError := v; nlLoading := nlLoading st;
     cronLoading := cronLoading st; history := history st;
     rateLimitInfo := rateLimitInfo st; localStorage := localStorage st;
     toasts := toasts st |}.

Definition setNlLoading (v : bool) (st : PageState) : PageState :=
  {| activeTab := activeTab st; nlInput := nlInput st;
     cronInput := cronInput st; nlToCronResult := nlToCronResult st;
     cronToNlResult := cronToNlResult st; nlError := nlError st;
     cronError := cronError st; nlLoading := v;
     cronLoading := cronLoading st; history := history st;
     rateLimitInfo := rateLimitInfo st; localStorage := localStorage st;
     toasts := toasts st |}.

Definition setCronLoading (v : bool) (st : PageState) : PageState :=
  {| activeTab := activeTab st; nlInput := nlInput st;
     cronInput := cronInput st; nlToCronResult := nlToCronResult st;
     cronToNlResult := cronToNlResult st; nlError := nlError st;
     cronError := cronError st; nlLoading := nlLoading st; cronLoading := v;
     history := history st; rateLimitInfo := rateLimitInfo st;
     localStorage := localStorage st; toasts := toasts st |}.

Definition setHistory (v : list HistoryItem) (st : PageState) : PageState :=
  {| activeTab := activeTab st; nlInput := nlInput st;
     cronInput := cronInput st; nlToCronResult := nlToCronResult st;
     cronToNlResult := cronToNlResult st; nlError := nlError st;
     cronError := cronError st; nlLoading := nlLoading st;
     cronLoading := cronLoading st; history := v;
     rateLimitInfo := rateLimitInfo st; localStorage := localStorage st;
     toasts := toasts st |}.

Definition setRateLimitInfo (v : RateLimitInfo) (st : PageState) : PageState :=
  {| activeTab := activeTab st; nlInput := nlInput st;
     cronInput := cronInput st; nlToCronResult := nlToCronResult st;
     cronToNlResult := cronToNlResult st; nlError := nlError st;
     cronError := cronError st; nlLoading := nlLoading st;
     cronLoading := cronLoading st; history := history st;
     rateLimitInfo := v; localStorage := localStorage st;
     toasts := toasts st |}.

Definition setLocalStorage (v : Storage) (st : PageState) : PageState :=
  {| activeTab := activeTab st; nlInput := nlInput st;
     cronInput := cronInput st; nlToCronResult := nlToCronResult st;
     cronToNlResult := cronToNlResult st; nlError := nlError st;
     cronError := cronError st; nlLoading := nlLoading st;
     cronLoading := cronLoading st; history := history st;
     rateLimitInfo := rateLimitInfo st; localStorage := v;
     toasts := toasts st |}.

Definition setToasts (v : list Toast) (st : PageState) : PageState :=
  {| activeTab := activeTab st; nlInput := nlInput st;
     cronInput := cronInput st; nlToCronResult := nlToCronResult st;
     cronToNlResult := cronToNlResult st; nlError := nlError st;
     cronError := cronError st; nlLoading := nlLoading st;
     cronLoading := cronLoading st; history := history st;
     rateLimitInfo := rateLimitInfo st; localStorage := localStorage st;
     toasts := v |}.

(** The state of a first render with nothing stored (page.tsx, lines
    43-55). *)
Definition initialState : PageState :=
  {| activeTab := "nl-to-cron"; nlInput := ""; cronInput := "";
     nlToCronResult := ""; cronToNlResult := ""; nlError := ""; cronError := "";
     nlLoading := false; cronLoading := false; history := [];
     rateLimitInfo := {| limit := ofZ 10; remaining := ofZ 10; reset := ofZ (-1) |};
     localStorage := fun _ => None; toasts := [] |}.

Definition historyKey : string := "cron-generator-history".

(** page.tsx, lines 238-251. *)
Definition extractRateLimitInfo (headers : Headers) : option RateLimitInfo :=
  let limit := Headers_get headers "X-RateLimit-Limit" in
  let remaining := Headers_get headers "X-RateLimit-Remaining" in
  let reset := Headers_get headers "X-RateLimit-Reset" in
  match limit, remaining, reset with
  | Some limit, Some remaining, Some reset =>
      if negb (limit =? "")%string && negb (remaining =? "")%string
         && negb (reset =? "")%string
      then Some {| limit := parseInt limit; remaining := parseInt remaining;
                   reset := parseInt reset |}
      else None
  | _, _, _ => None
  end.

(** page.tsx, lines 359-365. *)
Definition fillExample (example : string) (isNl : bool) (st : PageState) : PageState :=
  if isNl then setNlInput example st else setCronInput example st.

(** page.tsx, lines 367-385. *)
Definition loadFromHistory (item : HistoryItem) (st : PageState) : PageState :=
  let st := setActiveTab (typeName (type item)) st in
  let st := setNlToCronResult "" st in
  let st := setCronToNlResult "" st in
  let st := setNlError "" st in
  let st := setCronError "" st in
  match type item with
  | NlToCron => setNlToCronResult (output item) (setNlInput (input item) st)
  | CronToNl => setCronToNlResult (output item) (setCronInput (input item) st)
  end.

(** What a response is to the two handlers: a response that is [ok],
    whose body holds the text they read ([data.cronExpression] or
    [data.description]), or one that is not, whose body may hold an
    [error] text and the three numbers of a refusal; [response.json()]
    may reject in either case. *)
Record ErrorData := {
  error : option string;
  dataLimit : option Z;
  dataReset : option Z;
  dataRemaining : option Z
}.

Inductive Reply :=
| OkReply (headers : Headers) (data : promise string)
| ErrorReply (status : Z) (headers : Headers) (data : promise ErrorData).

Definition replyHeaders (r : Reply) : Headers :=
  match r with
  | OkReply h _ => h
  | ErrorReply _ h _ => h
  end.

(** A number of the body inside a template literal. *)
Definition showNumber (v : option Z) : string :=
  match v with
  | Some n => NumberToString n
  | None => "undefined"
  end.

Section Handlers.

(** [JSON.stringify] on a history and [JSON.parse] on a stored text
    ([None] when it throws). *)
Variable JSON_stringify : list HistoryItem -> string.
Variable JSON_parse : string -> option (list HistoryItem).

(** [new Date(ms).toLocaleTimeString()]; its text is
    implementation-defined, [None] is the invalid date. *)
Variable toLocaleTimeString : option Z -> string.

(** page.tsx, lines 59-64, the effect run on mount; [None] when
    [JSON.parse] throws. *)
Definition loadHistory (st : PageState) : option PageState :=
  match getItem (localStorage st) historyKey with
  | Some savedHistory =>
      if (savedHistory =? "")%string then Some st
      else match JSON_parse savedHistory with
           | Some h => Some (setHistory h st)
           | None => None
           end
  | None => Some st
  end.

(** page.tsx, lines 67-79; [idNow] and [timestampNow] are the values of
    the two calls of [Date.now()].  [capturedHistory] is the [history]
    the callback closes over: that of the render that created it, which
    need not be the history of the state [st] the call finds. *)
Definition saveToHistory (capturedHistory : list HistoryItem)
  (input output : string) (type : ConversionType)
  (idNow timestampNow : Z) (st : PageState) : PageState :=
  let newItem :=
    {| id := NumberToString idNow; input := input; output := output;
       type := type; timestamp := timestampNow |} in
  let updatedHistory := newItem :: firstn 9 capturedHistory in
  let st := setHistory updatedHistory st in
  setLocalStorage (setItem (localStorage st) historyKey (JSON_stringify updatedHistory)) st.

(** page.tsx, lines 387-394. *)
Definition clearHistory (st : PageState) : PageState :=
  let st := setHistory [] st in
  let st := setLocalStorage (removeItem (localStorage st) historyKey) st in
  setToasts (toasts st ++ [ {| title := "History cleared";
                               description := "All history has been removed." |} ])%list st.

(** The text of the [Error] thrown for a response that is not [ok]
    (page.tsx, lines 277-287 and 326-336). *)
Definition failureMessage (status : Z) (data : ErrorData) (fallback : string) : string :=
  if status =? 429 then
    let resetTime :=
      toLocaleTimeString (option_map (fun r => r * 1000) (dataReset data)) in
    "Rate limit exceeded. Try again after " ++ resetTime ++ ". ("
    ++ showNumber (dataRemaining data) ++ "/" ++ showNumber (dataLimit data)
    ++ " requests remaining)"
  else
    match error data with
    | Some e => if (e =? "")%string then fallback else e
    | None => fallback
    end.

(** [error instanceof Error ? error.message : "An error occurred"] *)
Definition caughtMessage (e : thrown) : string :=
  match e with
  | ErrorObject message => message
  | NotAnError => "An error occurred"
  end.

(** page.tsx, lines 253-300; [response] is what [fetch] gives.  [st] is
    the state of the render whose handler the click runs; the handler
    and the [saveToHistory] it calls close over that render's values,
    and the model follows one call with nothing else changing the state
    meanwhile. *)
Definition handleNlToCron (response : promise Reply) (idNow timestampNow : Z)
  (st : PageState) : PageState :=
  if (trim (nlInput st) =? "")%string then st
  else
    let st0 := st in
    let st := setNlLoading true st in
    let st := setNlError "" st in
    let st := setNlToCronResult "" st in
    let st :=
      match response with
      | Rejected e => setNlError (caughtMessage e) st
      | Resolved response =>
          let st :=
            match extractRateLimitInfo (replyHeaders response) with
            | Some rateLimitInfo => setRateLimitInfo rateLimitInfo st
            | None => st
            end in
          match response with
          | OkReply _ (Rejected e) | ErrorReply _ _ (Rejected e) =>
              setNlError (caughtMessage e) st
          | ErrorReply status _ (Resolved data) =>
              setNlError
                (failureMessage status data "Failed to generate CRON expression") st
          | OkReply _ (Resolved cronExpression) =>
              let st := setNlToCronResult cronExpression st in
              saveToHistory (history st0) (nlInput st0) cronExpression NlToCron
                idNow timestampNow st
          end
      end in
    setNlLoading false st.

(** page.tsx, lines 302-349. *)
Definition handleCronToNl (response : promise Reply) (idNow timestampNow : Z)
  (st : PageState) : PageState :=
  if (trim (cronInput st) =? "")%string then st
  else
    let st0 := st in
    let st := setCronLoading true st in
    let st := setCronError "" st in
    let st := setCronToNlResult "" st in
    let st :=
      match response with
      | Rejected e => setCronError (caughtMessage e) st
      | Resolved response =>
          let st :=
            match extractRateLimitInfo (replyHeaders response) with
            | Some rateLimitInfo => setRateLimitInfo rateLimitInfo st
            | None => st
            end in
          match response with
          | OkReply _ (Rejected e) | ErrorReply _ _ (Rejected e) =>
              setCronError (caughtMessage e) st
          | ErrorReply status _ (Resolved data) =>
              setCronError
                (failureMessage status data "Failed to interpret CRON expression") st
          | OkReply _ (Resolved description) =>
              let st := setCronToNlResult description st in
              saveToHistory (history st0) (cronInput st0) description CronToNl
                idNow timestampNow st
          end
      end in
    setCronLoading false st.

(** [disabled] of the two buttons (page.tsx, lines 480 and 672). *)
Definition generateDisabled (st : PageState) : bool :=
  (trim (nlInput st) =? "")%string || nlLoading st.

Definition explainDisabled (st : PageState) (cronValidation : option Validation) : bool :=
  (trim (cronInput st) =? "")%string || cronLoading st
  || match cronValidation with
     | Some v => negb (isValid v)
     | None => false
     end.

End Handlers.

(** page.tsx, lines 396-401. *)
Record QuickTemplate := {
  templateName : string;
  cron : string;
  desc : string
}.

Definition quickTemplates : list QuickTemplate :=
  [ {| templateName := "Daily backup"; cron := "0 2 * * *";
       desc := "Every day at 2 AM" |};
    {| templateName := "Weekly report"; cron := "0 9 * * 1";
       desc := "Every Monday at 9 AM" |};
    {| templateName := "Hourly sync"; cron := "0 * * * *"; desc := "Every hour" |};
    {| templateName := "Monthly cleanup"; cron := "0 0 1 * *";
       desc := "First day of every month" |} ].

(** The examples under the CRON input (page.tsx, line 742), each
    handed to [fillExample] on a click. *)
Definition cronExamples : list string :=
  [ "0 9 * * 1-5"; "*/15 * * * *"; "0 0 1 * *"; "0 12 * * 0" ].

End Page.

(** *** Requests and responses between the page and the routes *)

(** The body [JSON.stringify({ key: text })] of a request, parsed. *)
Definition requestBody (key text : string) : json := JObject [(key, JString text)].

(** A member of a response body as a text, when it is one. *)
Definition textMember (b : json) (key : string) : option string :=
  match b with
  | JObject members =>
      match member members key with
      | Some (JString s) => Some s
      | _ => None
      end
  | _ => None
  end.

(** A member of a response body as an integer, when it is one. *)
Definition integerMember (b : json) (key : string) : option Z :=
  match b with
  | JObject members =>
      match member members key with
      | Some (JNumber (Fin q)) =>
          if Qeq_bool q (inject_Z (Qfloor q)) then Some (Qfloor q) else None
      | _ => None
      end
  | _ => None
  end.

(** The response of a route as the handler that reads [key] receives
    it; [None] when an [ok] response has no text under [key]. *)
Definition deliver (r : Api.NextResponse) (key : string) : option Page.Reply :=
  if (200 <=? Api.status r) && (Api.status r <=? 299) then
    match textMember (Api.body r) key with
    | Some text => Some (Page.OkReply (Api.headers r) (Resolved text))
    | None => None
    end
  else
    Some (Page.ErrorReply (Api.status r) (Api.headers r)
            (Resolved {| Page.error := textMember (Api.body r) "error";
                         Page.dataLimit := integerMember (Api.body r) "limit";
                         Page.dataReset := integerMember (Api.body r) "reset";
                         Page.dataRemaining := integerMember (Api.body r) "remaining" |})).

(** The numbers of a limiter answer as the page holds them. *)
Definition infoOf (r : Api.RatelimitResponse) : Page.RateLimitInfo :=
  {| Page.limit := ofZ (Api.limit r);
     Page.remaining := ofZ (Api.remaining r);
     Page.reset := ofZ (Api.reset r) |}.

(** The three numbers are in the range where [NumberToString] is what
    [toString()] gives. *)
Definition plainNumbers (r : Api.RatelimitResponse) : Prop :=
  Z.abs (Api.limit r) < 10 ^ 21 /\ Z.abs (Api.remaining r) < 10 ^ 21
  /\ Z.abs (Api.reset r) < 10 ^ 21.

(** The prompt of the cron-to-nl route for an expression. *)
Definition explainPrompt (cronExpression : string) : string :=
  "Explain this CRON expression in natural language: "
  ++ String "034" cronExpression ++ String "034" "".

(** The prompt of the nl-to-cron route for a text. *)
Definition generatePrompt (naturalLanguage : string) : string :=
  "Convert this to a CRON expression: "
  ++ String "034" naturalLanguage ++ String "034" "".

(** The CRON expressions the page itself offers: what a click on a
    quick template or on an example puts into the CRON input. *)
Definition offeredExpressions : list string :=
  (map Page.cron Page.quickTemplates ++ Page.cronExamples)%list.

(** A call of [saveToHistory]: the history its callback closed over at
    the click, the conversion saved and the two values [Date.now()]
    gives during the call. *)
Record SaveRequest := {
  capturedHistory : list Page.HistoryItem;
  savedInput : string;
  savedOutput : string;
  savedType : Page.ConversionType;
  idNow : Z;
  timestampNow : Z
}.

(** The history item a call creates. *)
Definition itemOf (x : SaveRequest) : Page.HistoryItem :=
  {| Page.id := NumberToString (idNow x); Page.input := savedInput x;
     Page.output := savedOutput x; Page.type := savedType x;
     Page.timestamp := timestampNow x |}.

(** What happens to the history: the save at the end of a conversion,
    or a click on "Clear". *)
Inductive HistoryOp :=
| Save (x : SaveRequest)
| Clear.

Definition applyOp (JSON_stringify : list Page.HistoryItem -> string)
  (st : Page.PageState) (op : HistoryOp) : Page.PageState :=
  match op with
  | Save x =>
      Page.saveToHistory JSON_stringify (capturedHistory x) (savedInput x)
        (savedOutput x) (savedType x) (idNow x) (timestampNow x) st
  | Clear => Page.clearHistory st
  end.

(** The operations of a list in the order in which they take effect.
    A save writes from the history its callback captured, whatever the
    operations before it left in the state. *)
Definition runOps (JSON_stringify : list Page.HistoryItem -> string)
  (ops : list HistoryOp) (st : Page.PageState) : Page.PageState :=
  fold_left (applyOp JSON_stringify) ops st.

(** No conversion was started while another was under way: every save
    captured the history that the operation before it left. *)
Fixpoint inSequence (JSON_stringify : list Page.HistoryItem -> string)
  (ops : list HistoryOp) (st : Page.PageState) : Prop :=
  match ops with
  | [] => True
  | op :: rest =>
      match op with
      | Save x => capturedHistory x = Page.history st
      | Clear => True
      end
      /\ inSequence JSON_stringify rest (applyOp JSON_stringify st op)
  end.

(** The page as a reload finds it: the first render, with the storage
    an earlier visit left. *)
Definition reloaded (storage : Page.Storage) : Page.PageState :=
  Page.setLocalStorage storage Page.initialState.

(** ** Arithmetic of the number model on integers *)

Lemma ofZ_inj (a b : Z) : ofZ a = ofZ b -> a = b.
Proof. unfold ofZ, inject_Z. intros H. now injection H. Qed.

Lemma canon_inject_Z (z : Z) : canon (inject_Z z) = ofZ z.
Proof.
  unfold canon, ofZ. f_equal. apply Qred_identity. simpl.
  apply Z.gcd_1_r.
Qed.

Lemma add_ofZ (a b : Z) : (ofZ a + ofZ b)%num = ofZ (a + b).
Proof.
  unfold ofZ at 1 2. simpl. rewrite <- canon_inject_Z.
  unfold canon. f_equal. apply Qred_complete.
  unfold Qeq, inject_Z. simpl. lia.
Qed.

Lemma neg_ofZ (a : Z) : neg (ofZ a) = ofZ (- a).
Proof.
  unfold ofZ at 1. simpl. rewrite <- canon_inject_Z.
  unfold canon. f_equal.
Qed.

Lemma sub_ofZ (a b : Z) : (ofZ a - ofZ b)%num = ofZ (a - b).
Proof. unfold sub. rewrite neg_ofZ, add_ofZ. f_equal. Qed.

Lemma le_ofZ (a b : Z) : (ofZ a <=? ofZ b)%num = (a <=? b).
Proof.
  unfold ofZ. simpl. unfold Qle_bool, inject_Z. simpl.
  now rewrite !Z.mul_1_r.
Qed.

Lemma ge_ofZ (a b : Z) : (ofZ a >=? ofZ b)%num = (b <=? a).
Proof. unfold ge. apply le_ofZ. Qed.

Lemma lt_ofZ (a b : Z) : (ofZ a <? ofZ b)%num = (a <? b).
Proof.
  unfold lt. change (negb (ofZ b <=? ofZ a)%num = (a <? b)).
  rewrite le_ofZ. rewrite Z.ltb_antisym. reflexivity.
Qed.

Lemma gt_ofZ (a b : Z) : (ofZ a >? ofZ b)%num = (b <? a).
Proof. unfold gt. apply lt_ofZ. Qed.

Lemma sameValueZero_ofZ (a b : Z) : sameValueZero (ofZ a) (ofZ b) = (a =? b).
Proof.
  apply eq_true_iff_eq. unfold ofZ. simpl sameValueZero.
  rewrite Qeq_bool_iff, Z.eqb_eq. unfold Qeq, inject_Z. simpl. lia.
Qed.

Lemma ToLength_ofZ (z : Z) : ToLength (ofZ z) = Z.min (Z.max z 0) (2 ^ 53 - 1).
Proof.
  unfold ofZ, ToLength. now rewrite Qfloor_Z.
Qed.

Lemma includes_ofZ (l : list Z) (z : Z) :
  includes (map ofZ l) (ofZ z) = true <-> In z l.
Proof.
  induction l as [|y l IH]; cbn [map includes In].
  - split; [discriminate | tauto].
  - rewrite orb_true_iff, sameValueZero_ofZ, Z.eqb_eq, IH. tauto.
Qed.

(** [Array.from] on an integer length and an integer start is the run. *)
Lemma map_seq_upto (a : Z) (n : nat) (k : nat) :
  map (fun i => (ofZ a + ofZ (Z.of_nat i))%num) (seq k n)
  = map ofZ (upto n (a + Z.of_nat k)).
Proof.
  revert k. induction n as [|n IH]; intros k; cbn [seq map upto].
  - reflexivity.
  - rewrite add_ofZ. f_equal. rewrite IH. do 2 f_equal. lia.
Qed.

Lemma ArrayFrom_run (a b : Z) :
  b - a + 1 <= 2 ^ 32 - 1 ->
  ArrayFrom (ofZ b - ofZ a + ofZ 1)%num (fun i => (ofZ a + i)%num)
  = Normal (map ofZ (zrange a b)).
Proof.
  intros Hb. unfold ArrayFrom.
  rewrite sub_ofZ, add_ofZ, ToLength_ofZ.
  assert (E : Z.to_nat (Z.min (Z.max (b - a + 1) 0) (2 ^ 53 - 1))
              = Z.to_nat (b - a + 1)) by lia.
  destruct (Z.ltb_spec (2 ^ 32 - 1) (Z.min (Z.max (b - a + 1) 0) (2 ^ 53 - 1))) as [L|L].
  - exfalso. lia.
  - rewrite E. f_equal. unfold zrange.
    rewrite (map_seq_upto a _ 0). do 2 f_equal. simpl. lia.
Qed.

Lemma ArrayFrom_too_long (a b : Z) :
  2 ^ 32 - 1 < b - a + 1 ->
  ArrayFrom (ofZ b - ofZ a + ofZ 1)%num (fun i => (ofZ a + i)%num)
  = Throw RangeError.
Proof.
  intros Hb. unfold ArrayFrom.
  rewrite sub_ofZ, add_ofZ, ToLength_ofZ.
  destruct (Z.ltb_spec (2 ^ 32 - 1) (Z.min (Z.max (b - a + 1) 0) (2 ^ 53 - 1))) as [L|L].
  - reflexivity.
  - exfalso. lia.
Qed.

Lemma In_upto (n : nat) (a z : Z) :
  In z (upto n a) <-> a <= z < a + Z.of_nat n.
Proof.
  revert a. induction n as [|n IH]; intros a; simpl upto.
  - simpl. lia.
  - simpl In. rewrite IH. lia.
Qed.

Lemma In_zrange (a b z : Z) : In z (zrange a b) <-> a <= z <= b.
Proof. unfold zrange. rewrite In_upto. lia. Qed.

(** ** The wildcard rule *)

Lemma parseCronPart_wildcard (fuel : nat) (min max : Z) :
  max - min + 1 <= 2 ^ 32 - 1 ->
  parseCronPart fuel "*" min max = Normal (map ofZ (zrange min max)).
Proof.
  intros H. unfold parseCronPart. simpl String.eqb. cbv iota.
  now apply ArrayFrom_run.
Qed.

(** C7. Wildcard contract of the field parser: for each of the five
    field domains [[lo f, hi f]], the token that is exactly [*] parses to
    the full run [lo f, lo f + 1, ..., hi f], which holds exactly the
    integers of the domain. *)
Theorem wildcard_full_domain (fuel : nat) (f : Field) :
  parseCronPart fuel "*" (lo f) (hi f) = Normal (map ofZ (zrange (lo f) (hi f)))
  /\ forall z : Z, In z (zrange (lo f) (hi f)) <-> lo f <= z <= hi f.
Proof.
  split.
  - apply parseCronPart_wildcard. destruct f; simpl; lia.
  - intros z. apply In_zrange.
Qed.

(** ** The day rule *)

(** C1. Day match rule of the occurrence search: at every cursor
    instant, with the day-of-month and day-of-week tokens parsed to
    [daysOfMonth] and [daysOfWeek], the loop's day test is the
    disjunction of the two memberships when both tokens differ from [*],
    the membership in the one constrained field when exactly one token
    differs from [*], and true when both tokens are [*]. *)
Theorem day_match_rule (fuel : nat) (dayPart weekdayPart : string)
  (daysOfMonth daysOfWeek : list number) (cursor : Z) :
  parseCronPart fuel dayPart 1 31 = Normal daysOfMonth ->
  parseCronPart fuel weekdayPart 0 6 = Normal daysOfWeek ->
  exists days weekdays,
    parseDayPart fuel dayPart 1 31 = Normal days /\
    parseDayPart fuel weekdayPart 0 6 = Normal weekdays /\
    dayMatch days weekdays (getDate cursor) (getDay cursor)
    = match (dayPart =? "*")%string, (weekdayPart =? "*")%string with
      | false, false =>
          includes daysOfMonth (getDate cursor) || includes daysOfWeek (getDay cursor)
      | false, true => includes daysOfMonth (getDate cursor)
      | true, false => includes daysOfWeek (getDay cursor)
      | true, true => true
      end.
Proof.
  intros Hd Hw. unfold parseDayPart. rewrite Hd, Hw.
  destruct (dayPart =? "*")%string, (weekdayPart =? "*")%string; simpl;
    eexists; eexists; (split; [reflexivity | split; reflexivity]).
Qed.

(** On Thursday 1 February 2024 the expression [0 0 1 * 1] passes the
    day test through its day-of-month field alone. *)
Lemma day_match_rule_witness :
  exists days weekdays,
    parseDayPart 0 "1" 1 31 = Normal days /\
    parseDayPart 0 "1" 0 6 = Normal weekdays /\
    dayMatch days weekdays (getDate (civil 2024 2 1 0 0 0)) (getDay (civil 2024 2 1 0 0 0))
    = (includes [ofZ 1] (getDate (civil 2024 2 1 0 0 0))
       || includes [ofZ 1] (getDay (civil 2024 2 1 0 0 0))).
Proof.
  exact (day_match_rule 0 "1" "1" [ofZ 1] [ofZ 1] (civil 2024 2 1 0 0 0)
           eq_refl eq_refl).
Defined.

Example first_of_month_not_monday :
  getDay (civil 2024 2 1 0 0 0) = 4
  /\ dayMatch (Some [ofZ 1]) (Some [ofZ 1])
       (getDate (civil 2024 2 1 0 0 0)) (getDay (civil 2024 2 1 0 0 0)) = true.
Proof. split; reflexivity. Qed.

(** ** The occurrence list *)

Lemma setMinutes_next (d : Z) : setMinutes d (getMinutes d + 1) = d + 60000.
Proof.
  unfold setMinutes, getMinutes, MakeDate, MakeTime, Day, HourFromTime,
    MinFromTime, SecFromTime, msFromTime, msPerDay, msPerHour, msPerMinute,
    msPerSecond.
  Z.div_mod_to_equations. lia.
Qed.

Lemma sorted_snoc (l : list Z) (d : Z) :
  StronglySorted Z.lt l -> Forall (fun x => x < d) l ->
  StronglySorted Z.lt (l ++ [d]).
Proof.
  induction 1 as [|a l Hs IH Ha]; intros Hd; simpl.
  - repeat constructor.
  - inversion Hd; subst. constructor.
    + now apply IH.
    + apply Forall_app. split; [assumption | now repeat constructor].
Qed.

Lemma searchDates_invariant (fuel : nat) (f : Fields) (now : Z) :
  forall attempts searchDate dates,
    collected now searchDate dates ->
    let r := searchDates fuel f now attempts searchDate dates in
    (List.length r <= 5)%nat /\ Forall (fun t => now < t) r /\ StronglySorted Z.lt r.
Proof.
  induction fuel as [|fuel IH]; intros attempts searchDate dates (Hl & Hn & Hs & Hd);
    cbn [searchDates].
  - auto.
  - destruct ((attempts <? maxAttempts) && (Z.of_nat (List.length dates) <? 5)) eqn:G;
      [|auto].
    apply andb_true_iff in G. destruct G as [_ G]. apply Z.ltb_lt in G.
    rewrite setMinutes_next. apply IH.
    destruct (matches f now searchDate) eqn:Hm.
    + unfold matches in Hm. rewrite !andb_true_iff in Hm.
      destruct Hm as [_ Hlt]. apply Z.ltb_lt in Hlt.
      repeat split.
      * rewrite length_app. simpl. lia.
      * apply Forall_app. split; [assumption | now repeat constructor].
      * now apply sorted_snoc.
      * apply Forall_app. split.
        -- eapply Forall_impl; [|exact Hd]. simpl. intros. lia.
        -- repeat constructor. lia.
    + repeat split; try assumption.
      eapply Forall_impl; [|exact Hd]. simpl. intros. lia.
Qed.

Lemma searchLoop_dates (fmt : Z -> string) (fuel : nat) (f : Fields) (now : Z) :
  forall attempts searchDate dates,
    searchLoop fmt fuel f now attempts searchDate (map fmt dates)
    = map fmt (searchDates fuel f now attempts searchDate dates).
Proof.
  induction fuel as [|fuel IH]; intros attempts searchDate dates;
    cbn [searchLoop searchDates].
  - reflexivity.
  - rewrite length_map.
    destruct ((attempts <? maxAttempts) && (Z.of_nat (List.length dates) <? 5));
      [|reflexivity].
    destruct (matches f now searchDate).
    + rewrite <- IH. f_equal. now rewrite map_app.
    + apply IH.
Qed.

Lemma calculateNextExecutions_dates (fmt : Z -> string) (fuel : nat) (now : Z)
  (cronExpression : string) :
  calculateNextExecutions fmt fuel now cronExpression
  = (dates <- nextExecutionDates fuel now cronExpression ;; Normal (map fmt dates))%js.
Proof.
  unfold calculateNextExecutions, nextExecutionDates.
  generalize (Z.to_nat maxAttempts) as n. intros n.
  destruct (splitWs (trim cronExpression)) as [|p1 [|p2 [|p3 [|p4 [|p5 [|p6 ps]]]]]];
    try reflexivity.
  destruct (parseCronPart fuel p1 0 59) as [ms|e|]; try reflexivity.
  destruct (parseCronPart fuel p2 0 23) as [hs|e|]; try reflexivity.
  destruct (parseDayPart fuel p3 1 31) as [ds|e|]; try reflexivity.
  destruct (parseCronPart fuel p4 1 12) as [mo|e|]; try reflexivity.
  destruct (parseDayPart fuel p5 0 6) as [ws|e|]; try reflexivity.
  cbn [bind try_catch]. f_equal.
  apply (searchLoop_dates fmt _ _ now 0 _ []).
Qed.

Lemma nextExecutionDates_invariant (fuel : nat) (now : Z) (cronExpression : string)
  (dates : list Z) :
  nextExecutionDates fuel now cronExpression = Normal dates ->
  (List.length dates <= 5)%nat /\ Forall (fun t => now < t) dates
  /\ StronglySorted Z.lt dates.
Proof.
  assert (Nil : (List.length (@nil Z) <= 5)%nat /\ Forall (fun t => now < t) []
                /\ StronglySorted Z.lt []) by (repeat constructor).
  unfold nextExecutionDates. generalize (Z.to_nat maxAttempts) as n. intros n.
  destruct (splitWs (trim cronExpression)) as [|p1 [|p2 [|p3 [|p4 [|p5 [|p6 ps]]]]]];
    cbn [try_catch]; try (intros H; injection H as <-; exact Nil).
  destruct (parseCronPart fuel p1 0 59) as [ms|e|]; cbn [bind try_catch];
    [ | intros H; injection H as <-; exact Nil | discriminate ].
  destruct (parseCronPart fuel p2 0 23) as [hs|e|]; cbn [bind try_catch];
    [ | intros H; injection H as <-; exact Nil | discriminate ].
  destruct (parseDayPart fuel p3 1 31) as [ds|e|]; cbn [bind try_catch];
    [ | intros H; injection H as <-; exact Nil | discriminate ].
  destruct (parseCronPart fuel p4 1 12) as [mo|e|]; cbn [bind try_catch];
    [ | intros H; injection H as <-; exact Nil | discriminate ].
  destruct (parseDayPart fuel p5 0 6) as [ws|e|]; cbn [bind try_catch];
    [ | intros H; injection H as <-; exact Nil | discriminate ].
  intros H. injection H as <-.
  apply searchDates_invariant. repeat split; try constructor. simpl. lia.
Qed.

(** C2. Occurrence-list invariant: whenever the occurrence search
    returns a list, that list is the formatting of at most five
    instants, each strictly later than the reference instant and in
    strictly ascending order. *)
Theorem occurrence_list_invariant (fmt : Z -> string) (fuel : nat) (now : Z)
  (cronExpression : string) (executions : list string) :
  calculateNextExecutions fmt fuel now cronExpression = Normal executions ->
  exists dates,
    nextExecutionDates fuel now cronExpression = Normal dates
    /\ executions = map fmt dates
    /\ (List.length executions <= 5)%nat
    /\ Forall (fun t => now < t) dates
    /\ StronglySorted Z.lt dates.
Proof.
  rewrite calculateNextExecutions_dates.
  destruct (nextExecutionDates fuel now cronExpression) as [dates|e|] eqn:E;
    cbn [bind]; try discriminate.
  intros H. injection H as <-.
  destruct (nextExecutionDates_invariant _ _ _ _ E) as (Hl & Hn & Hs).
  exists dates. rewrite length_map. auto.
Qed.

(** ** The step rule *)

Lemma split_no_sep (s : string) (c : ascii) :
  str_includes s c = false -> split s c = [s].
Proof.
  induction s as [|a s IH]; simpl; [reflexivity|].
  intros H. apply orb_false_iff in H. destruct H as [Ha Hs].
  rewrite Ha, (IH Hs). reflexivity.
Qed.

Lemma split_cons_sep (s : string) (c : ascii) : split (String c s) c = "" :: split s c.
Proof. simpl. now rewrite Ascii.eqb_refl. Qed.

Lemma split_append (a b : string) (c : ascii) :
  str_includes a c = false ->
  split (a ++ String c b) c = a :: split b c.
Proof.
  induction a as [|x a IH]; simpl append.
  - intros _. apply split_cons_sep.
  - cbn [str_includes split]. intros H. apply orb_false_iff in H.
    destruct H as [Hx Ha]. rewrite Hx, (IH Ha). reflexivity.
Qed.

Lemma str_includes_append (a b : string) (c : ascii) :
  str_includes (a ++ b) c = str_includes a c || str_includes b c.
Proof.
  induction a as [|x a IH]; simpl; [reflexivity|].
  now rewrite IH, orb_assoc.
Qed.

(** The step branch is taken exactly when the token has a [/] and the
    text before the first [/] is [*]. *)
Lemma parseCronPart_step (fuel : nat) (stepText : string) (min max : number) :
  str_includes stepText "/" = false ->
  parseCronPart fuel ("*/" ++ stepText) min max
  = stepLoop fuel min max (parseInt stepText) [].
Proof.
  intros H. unfold parseCronPart.
  change ("*/" ++ stepText) with (String "*" (String "/" stepText)).
  cbn [String.eqb Ascii.eqb Bool.eqb str_includes split orb andb nth].
  rewrite (split_no_sep _ _ H). reflexivity.
Qed.

Lemma maxArrayLength_large : 62 <= maxArrayLength.
Proof. apply Z.leb_le. reflexivity. Qed.

Lemma push_room (values : list number) (x : number) :
  Z.of_nat (List.length values) < maxArrayLength ->
  push values x = Normal (values ++ [x])%list.
Proof. intros H. unfold push. apply Z.ltb_lt in H. now rewrite H. Qed.

Lemma push_full (values : list number) (x : number) :
  maxArrayLength <= Z.of_nat (List.length values) ->
  push values x = Throw RangeError.
Proof. intros H. unfold push. apply Z.ltb_ge in H. now rewrite H. Qed.

(** With a step that is zero or negative the loop never leaves by its
    test: it returns no list, whatever the fuel. *)
Lemma stepLoop_nonpositive_no_list (max step : Z) :
  step <= 0 ->
  forall (fuel : nat) (i : Z) (values result : list number),
    i <= max -> stepLoop fuel (ofZ i) (ofZ max) (ofZ step) values <> Normal result.
Proof.
  intros Hs. induction fuel as [|fuel IH]; intros i values result Hi;
    cbn [stepLoop]; [discriminate|].
  rewrite le_ofZ. destruct (Z.leb_spec i max); [|lia].
  unfold push. destruct (_ <? _); cbn [bind]; [|discriminate].
  rewrite add_ofZ. apply IH. lia.
Qed.

(** It goes on until the array is full, and the next [push] throws: [k]
    is the room left in the array. *)
Lemma stepLoop_nonpositive (max step : Z) :
  step <= 0 ->
  forall (k fuel : nat) (i : Z) (values : list number),
    i <= max ->
    Z.of_nat (List.length values) + Z.of_nat k = maxArrayLength ->
    (k < fuel)%nat ->
    stepLoop fuel (ofZ i) (ofZ max) (ofZ step) values = Throw RangeError.
Proof.
  intros Hs. induction k as [|k IH]; intros fuel i values Hi Hk Hf;
    (destruct fuel as [|fuel]; [lia|]); cbn [stepLoop];
    rewrite le_ofZ; (destruct (Z.leb_spec i max); [|lia]).
  - rewrite push_full by lia. reflexivity.
  - rewrite push_room by lia. cbn [bind]. rewrite add_ofZ. apply IH.
    + lia.
    + rewrite length_app. cbn [List.length]. lia.
    + lia.
Qed.


Lemma every_unfold (a b step : Z) :
  0 < step -> a <= b -> stepRun a b step = a :: stepRun (a + step) b step.
Proof.
  intros Hs Hab. unfold stepRun.
  replace (b - (a + step)) with ((b - a) + (-1) * step) by lia.
  rewrite Z.div_add by lia.
  assert (0 <= (b - a) / step) by (apply Z.div_pos; lia).
  replace (Z.to_nat ((b - a) / step + 1)) with (S (Z.to_nat ((b - a) / step + -1 + 1)))
    by lia.
  reflexivity.
Qed.

Lemma every_done (a b step : Z) : 0 < step -> b < a -> stepRun a b step = [].
Proof.
  intros Hs Hab. unfold stepRun.
  assert ((b - a) / step < 0) by (apply Z.div_lt_upper_bound; lia).
  replace (Z.to_nat ((b - a) / step + 1)) with O by lia. reflexivity.
Qed.

Lemma stepLoop_positive (max step : Z) :
  0 < step ->
  forall (fuel : nat) (i : Z) (values : list number),
    (Z.to_nat ((max - i) / step + 1) < fuel)%nat ->
    Z.of_nat (List.length values) + Z.max 0 ((max - i) / step + 1) <= maxArrayLength ->
    stepLoop fuel (ofZ i) (ofZ max) (ofZ step) values
    = Normal (values ++ map ofZ (stepRun i max step))%list.
Proof.
  intros Hs. induction fuel as [|fuel IH]; intros i values Hf Hr; [lia|].
  cbn [stepLoop]. rewrite le_ofZ. destruct (Z.leb_spec i max) as [L|L].
  - assert (0 <= (max - i) / step) by (apply Z.div_pos; lia).
    assert (E : (max - (i + step)) / step = (max - i) / step - 1).
    { replace (max - (i + step)) with ((max - i) + (-1) * step) by lia.
      rewrite Z.div_add by lia. lia. }
    rewrite push_room by lia. cbn [bind]. rewrite add_ofZ, IH.
    + rewrite (every_unfold i max step Hs L). cbn [map].
      now rewrite <- app_assoc.
    + rewrite E. lia.
    + rewrite E, length_app. cbn [List.length]. lia.
  - rewrite (every_done i max step Hs L). now rewrite app_nil_r.
Qed.

(** With a positive step the loop is over after one pass, full array or
    not. *)
Lemma stepLoop_positive_ends (max step : Z) :
  0 < step ->
  forall (fuel : nat) (i : Z) (values : list number),
    (Z.to_nat ((max - i) / step + 1) < fuel)%nat ->
    stepLoop fuel (ofZ i) (ofZ max) (ofZ step) values <> OutOfFuel.
Proof.
  intros Hs. induction fuel as [|fuel IH]; intros i values Hf; [lia|].
  cbn [stepLoop]. rewrite le_ofZ.
  destruct (Z.leb_spec i max) as [L|L]; [|discriminate].
  unfold push. destruct (_ <? _); cbn [bind]; [|discriminate].
  rewrite add_ofZ. apply IH.
  assert (0 <= (max - i) / step) by (apply Z.div_pos; lia).
  replace (max - (i + step)) with ((max - i) + (-1) * step) by lia.
  rewrite Z.div_add by lia. lia.
Qed.

Lemma In_every (n : nat) (a step z : Z) :
  In z (every n a step) <-> exists k : nat, (k < n)%nat /\ z = a + Z.of_nat k * step.
Proof.
  revert a. induction n as [|n IH]; intros a; cbn [every In].
  - split; [tauto | intros (k & Hk & _); lia].
  - rewrite IH. split.
    + intros [<-|(k & Hk & ->)].
      * exists O. split; lia.
      * exists (S k). split; lia.
    + intros ([|k] & Hk & ->).
      * left. lia.
      * right. exists k. split; lia.
Qed.

(** The values of [stepRun] are the domain minimum plus the multiples of
    the step that stay at or below the maximum. *)
Lemma In_stepRun (a b step z : Z) :
  0 < step ->
  In z (stepRun a b step) <-> exists k : Z, 0 <= k /\ z = a + k * step /\ z <= b.
Proof.
  intros Hs. unfold stepRun. rewrite In_every. split.
  - intros (k & Hk & ->). exists (Z.of_nat k). repeat split; try lia.
    assert (Z.of_nat k < (b - a) / step + 1) by lia.
    assert (Z.of_nat k <= (b - a) / step) by lia.
    assert (step * Z.of_nat k <= step * ((b - a) / step)) by nia.
    pose proof (Z.mul_div_le (b - a) step Hs). lia.
  - intros (k & Hk & -> & Hb). exists (Z.to_nat k). split; [|lia].
    assert (k <= (b - a) / step) by (apply Z.div_le_lower_bound; lia).
    lia.
Qed.

(** With a numeral for a positive step, the step rule yields every
    step-th value of the domain from its minimum, given fuel for the
    iterations. *)
Lemma step_field_positive (fuel : nat) (stepText : string) (step min max : Z) :
  str_includes stepText "/" = false ->
  parseInt stepText = ofZ step ->
  0 < step ->
  (Z.to_nat ((max - min) / step + 1) < fuel)%nat ->
  (max - min) / step + 1 <= maxArrayLength ->
  parseCronPart fuel ("*/" ++ stepText) min max = Normal (map ofZ (stepRun min max step)).
Proof.
  intros Hi Hp Hs Hf Hr. rewrite (parseCronPart_step _ _ _ _ Hi), Hp.
  rewrite (stepLoop_positive max step Hs fuel min [] Hf); [reflexivity|].
  pose proof maxArrayLength_large. cbn [List.length]. lia.
Qed.

Example step_15_minutes :
  parseCronPart 100 "*/15" 0 59 = Normal [ofZ 0; ofZ 15; ofZ 30; ofZ 45].
Proof.
  apply (step_field_positive 100 "15" 15 0 59);
    [reflexivity | reflexivity | lia | apply Nat.ltb_lt; reflexivity
    | apply Z.leb_le; reflexivity].
Qed.

(** A step of zero or of minus one over the minutes: no list is ever
    returned, and with fuel beyond the largest array length the loop is
    seen to end by the RangeError of [push]. *)
Lemma parseCronPart_nonpositive_step (stepText : string) (step : Z) (fuel : nat) :
  str_includes stepText "/" = false ->
  parseInt stepText = ofZ step ->
  step <= 0 ->
  (forall values, parseCronPart fuel ("*/" ++ stepText) 0 59 <> Normal values)
  /\ parseCronPart (S (fuel + Z.to_nat maxArrayLength)) ("*/" ++ stepText) 0 59
     = Throw RangeError.
Proof.
  intros Hi Hp Hs. rewrite !(parseCronPart_step _ _ _ _ Hi), Hp. split.
  - intros values. apply stepLoop_nonpositive_no_list; lia.
  - pose proof maxArrayLength_large.
    apply (stepLoop_nonpositive 59 step Hs (Z.to_nat maxArrayLength)); try lia.
    cbn [List.length]. lia.
Qed.

(** C4. Step-field contract of the field parser, at the inputs where
    the code departs from it: a step that is not a number yields the
    one-element set holding the domain minimum, and a zero or negative
    step yields no set at all: the loop fills the array to its largest
    length and [push] throws a RangeError.  In neither case is the
    result the empty set. *)
Theorem step_field_unguarded (fuel : nat) :
  parseCronPart (S (S fuel)) "*/x" 0 59 = Normal [ofZ 0]
  /\ (forall values, parseCronPart fuel "*/0" 0 59 <> Normal values)
  /\ (forall values, parseCronPart fuel "*/-1" 0 59 <> Normal values)
  /\ parseCronPart (S (fuel + Z.to_nat maxArrayLength)) "*/0" 0 59 = Throw RangeError
  /\ parseCronPart (S (fuel + Z.to_nat maxArrayLength)) "*/-1" 0 59 = Throw RangeError.
Proof.
  destruct (parseCronPart_nonpositive_step "0" 0 fuel) as [Z1 Z2];
    [reflexivity | reflexivity | lia |].
  destruct (parseCronPart_nonpositive_step "-1" (-1) fuel) as [N1 N2];
    [reflexivity | reflexivity | lia |].
  split; [rewrite (parseCronPart_step _ "x") by reflexivity; reflexivity|].
  split; [exact Z1|]. split; [exact N1|]. split; [exact Z2 | exact N2].
Qed.


(** [Number.parseInt] gives [NaN] or an integer. *)
Lemma parseInt_cases (s : string) :
  parseInt s = NaN \/ exists n : Z, parseInt s = ofZ n.
Proof.
  unfold parseInt.
  destruct (stripSign (trimStart s)) as [negative S].
  destruct (hexPrefix S) as [r|].
  - destruct (takeRadix 16 0 0 r) as [[v n] rest].
    destruct n; eauto.
  - destruct (takeDigits S) as [Z rest'].
    destruct (Z =? "")%string; eauto.
Qed.

(** ** The validator *)

Lemma validationLoop_find (validations : list validation) (st : State) :
  validationLoop validations st
  = match find (fun v => negb (accepted v)) validations with
    | Some v => (Normal true,
                 {| cronValidation := Some (invalidField v); nextExecutions := [] |})
    | None => (Normal false, st)
    end.
Proof.
  induction validations as [|v rest IH]; cbn [validationLoop find].
  - reflexivity.
  - unfold accepted at 1, simpleForm. rewrite negb_involutive.
    destruct (negb (value v =? "*")%string && negb (str_includes (value v) "/")
              && negb (str_includes (value v) ",")
              && negb (str_includes (value v) "-")); cbn [andb].
    + destruct (isNaN (parseInt (value v))
                || (parseInt (value v) <? fst (range v))%num
                || (parseInt (value v) >? snd (range v))%num).
      * reflexivity.
      * exact IH.
    + exact IH.
Qed.

Lemma accepted_fieldOk (f : Field) (t : string) :
  accepted (entry f t) = true <-> fieldOk f t.
Proof.
  unfold accepted, fieldOk, entry. cbn [value range fst snd].
  destruct (simpleForm t); cbn [andb].
  - destruct (parseInt_cases t) as [E | [n E]]; rewrite E.
    + cbn. split; [discriminate|]. intros H. destruct (H eq_refl) as (n & Hn & _).
      discriminate Hn.
    + change (isNaN (ofZ n)) with false. cbn [orb]. rewrite lt_ofZ, gt_ofZ, negb_true_iff, orb_false_iff,
        !Z.ltb_ge. split.
      * intros [H1 H2] _. exists n. split; [reflexivity | lia].
      * intros H. destruct (H eq_refl) as (m & Hm & Hr).
        apply ofZ_inj in Hm. subst m. lia.
  - cbn. split; [discriminate | reflexivity].
Qed.

Lemma verdict_blank fmt fuel now expression st :
  trim expression = "" -> verdict fmt fuel now expression st = None.
Proof.
  intros E. unfold verdict, validateCronExpression. rewrite E. reflexivity.
Qed.

Lemma verdict_five fmt fuel now expression st t0 t1 t2 t3 t4 :
  trim expression <> "" ->
  tokens expression = [t0; t1; t2; t3; t4] ->
  verdict fmt fuel now expression st
  = match find (fun v => negb (accepted v))
            [entry Minute t0; entry Hour t1; entry DayOfMonth t2;
             entry Month t3; entry DayOfWeek t4] with
    | Some v => Some (invalidField v)
    | None => Some validExpression
    end.
Proof.
  intros Hne Ht. unfold verdict, validateCronExpression.
  apply String.eqb_neq in Hne. rewrite Hne.
  unfold tokens in Ht. rewrite Ht. unfold mbind at 1.
  rewrite validationLoop_find.
  change {| value := t0; range := (ofZ 0, ofZ 59); name := "minute" |}
    with (entry Minute t0).
  change {| value := t1; range := (ofZ 0, ofZ 23); name := "hour" |}
    with (entry Hour t1).
  change {| value := t2; range := (ofZ 1, ofZ 31); name := "day" |}
    with (entry DayOfMonth t2).
  change {| value := t3; range := (ofZ 1, ofZ 12); name := "month" |}
    with (entry Month t3).
  change {| value := t4; range := (ofZ 0, ofZ 6); name := "weekday" |}
    with (entry DayOfWeek t4).
  destruct (find _ _) as [v|].
  - reflexivity.
  - unfold mbind, setCronValidation, lift, setNextExecutions.
    destruct (calculateNextExecutions fmt fuel now expression); reflexivity.
Qed.

Lemma verdict_wrong_length fmt fuel now expression st :
  trim expression <> "" ->
  List.length (tokens expression) <> 5%nat ->
  verdict fmt fuel now expression st = Some wrongLength.
Proof.
  intros Hne Hl. unfold verdict, validateCronExpression.
  apply String.eqb_neq in Hne. rewrite Hne.
  unfold tokens in Hl.
  destruct (splitWs (trim expression)) as [|p1 [|p2 [|p3 [|p4 [|p5 [|p6 ps]]]]]];
    try reflexivity.
  now contradiction Hl.
Qed.

Lemma accepted_true (f : Field) (t : string) :
  fieldOk f t -> accepted (entry f t) = true.
Proof. apply accepted_fieldOk. Qed.

Lemma accepted_false (f : Field) (t : string) :
  ~ fieldOk f t -> accepted (entry f t) = false.
Proof.
  intros H. destruct (accepted (entry f t)) eqn:E; [|reflexivity].
  exfalso. apply H. now apply accepted_fieldOk.
Qed.

Lemma five_tokens (l : list string) :
  List.length l = 5%nat -> exists t0 t1 t2 t3 t4, l = [t0; t1; t2; t3; t4].
Proof.
  destruct l as [|t0 [|t1 [|t2 [|t3 [|t4 [|t5 l]]]]]]; try discriminate.
  intros _. now exists t0, t1, t2, t3, t4.
Qed.

(** C5. Validator contract: for a blank expression the validator
    leaves no verdict.  For an expression that is not blank, the verdict
    is "CRON expression must have exactly 5 parts" exactly when the
    expression does not split into five tokens; with five tokens, the
    verdict names the first field, in the order minute, hour, day,
    month, weekday, whose token is in simple form and does not parse (by
    [Number.parseInt]) to an integer of its domain, as
    "Invalid {fieldName}: {token}"; and when every field is acceptable
    the verdict is "Valid CRON expression".  Tokens holding [/], [,] or
    [-], and the wildcard, are acceptable as they are. *)
Theorem validator_contract (fmt : Z -> string) (fuel : nat) (now : Z)
  (expression : string) (st : State) :
  (trim expression = "" -> verdict fmt fuel now expression st = None)
  /\ (trim expression <> "" ->
      (verdict fmt fuel now expression st = Some wrongLength
       <-> List.length (tokens expression) <> 5%nat)
      /\ (forall f : Field,
            List.length (tokens expression) = 5%nat ->
            ~ fieldOk f (tokenOf f (tokens expression)) ->
            (forall g : Field, (position g < position f)%nat ->
                               fieldOk g (tokenOf g (tokens expression))) ->
            verdict fmt fuel now expression st
            = Some {| isValid := false;
                      message := "Invalid " ++ fieldName f ++ ": "
                                 ++ tokenOf f (tokens expression) |})
      /\ (List.length (tokens expression) = 5%nat ->
          (forall f : Field, fieldOk f (tokenOf f (tokens expression))) ->
          verdict fmt fuel now expression st = Some validExpression)).
Proof.
  split; [apply verdict_blank|].
  intros Hne. split; [|split].
  - split.
    + intros Hv Hl. destruct (five_tokens _ Hl) as (t0 & t1 & t2 & t3 & t4 & Ht).
      rewrite (verdict_five _ _ _ _ _ _ _ _ _ _ Hne Ht) in Hv.
      destruct (find _ _) as [v|]; discriminate Hv.
    + now apply verdict_wrong_length.
  - intros f Hl Hbad Hgood.
    destruct (five_tokens _ Hl) as (t0 & t1 & t2 & t3 & t4 & Ht).
    rewrite (verdict_five _ _ _ _ _ _ _ _ _ _ Hne Ht). rewrite Ht in *.
    pose proof (fun g H => accepted_true g _ (Hgood g H)) as A.
    apply accepted_false in Hbad.
    cbn [find].
    destruct f; unfold tokenOf in *; cbn [position nth] in *;
      repeat match goal with
             | |- context [accepted (entry ?g ?t)] =>
                 first [ rewrite Hbad
                       | let H := fresh in
                         pose proof (A g ltac:(cbn [position]; lia)) as H;
                         cbn [position nth] in H; rewrite H ];
                 cbn [negb]
             end; reflexivity.
  - intros Hl Hall.
    destruct (five_tokens _ Hl) as (t0 & t1 & t2 & t3 & t4 & Ht).
    rewrite (verdict_five _ _ _ _ _ _ _ _ _ _ Hne Ht). rewrite Ht in *.
    cbn [find].
    rewrite (accepted_true Minute t0 (Hall Minute)),
      (accepted_true Hour t1 (Hall Hour)),
      (accepted_true DayOfMonth t2 (Hall DayOfMonth)),
      (accepted_true Month t3 (Hall Month)),
      (accepted_true DayOfWeek t4 (Hall DayOfWeek)).
    reflexivity.
Qed.

(** The expression [0 9 * *] has four tokens and is reported as such. *)
Lemma validator_contract_witness :
  trim "0 9 * *" <> ""
  /\ verdict (fun _ => "") 0 0 "0 9 * *"
       {| cronValidation := None; nextExecutions := [] |}
     = Some wrongLength.
Proof.
  assert (H : trim "0 9 * *" <> "") by discriminate.
  split; [exact H|].
  apply (proj1 (proj2 (validator_contract (fun _ => "") 0 0 "0 9 * *"
                         {| cronValidation := None; nextExecutions := [] |}) H)).
  discriminate.
Defined.

(** The blank expression does not split into five tokens, yet the
    validator reports no verdict at all for it. *)
Lemma validator_blank_counterexample :
  ~ (verdict (fun _ => "") 0 0 ""
       {| cronValidation := None; nextExecutions := [] |}
     = Some wrongLength
     <-> List.length (tokens "") <> 5%nat).
Proof.
  intros [_ H].
  assert (L : List.length (tokens "") <> 5%nat) by discriminate.
  specialize (H L). discriminate H.
Qed.

Example validate_examples :
  let st := {| cronValidation := None; nextExecutions := [] |} in
  verdict (fun _ => "") 0 0 "70 9 * * *" st
  = Some {| isValid := false; message := "Invalid minute: 70" |}
  /\ verdict (fun _ => "") 0 0 "0 9 * * 7" st
     = Some {| isValid := false; message := "Invalid weekday: 7" |}
  /\ verdict (fun _ => "") 0 0 "   " st = None.
Proof. repeat split; vm_compute; reflexivity. Qed.

(** ** Decimal numerals under [Number.parseInt] and [Number] *)

Lemma digit_neq (a c : ascii) :
  isDigit a = true -> isDigit c = false -> Ascii.eqb a c = false.
Proof.
  intros Ha Hc. destruct (Ascii.eqb_spec a c) as [->|]; congruence.
Qed.

Lemma digit_not_space (a : ascii) : isDigit a = true -> isWhiteSpace a = false.
Proof.
  unfold isDigit, isWhiteSpace. generalize (code a) as n. intros n H.
  apply andb_true_iff in H. destruct H as [H1 H2].
  apply Z.leb_le in H1. apply Z.leb_le in H2.
  destruct (Z.leb_spec 9 n), (Z.leb_spec n 13), (Z.eqb_spec n 32), (Z.eqb_spec n 160);
    cbn; try reflexivity; lia.
Qed.

Lemma takeDigits_app (d r : string) :
  allDigits d = true -> stops r = true -> takeDigits (d ++ r) = (d, r).
Proof.
  intros Hd Hr. induction d as [|a d IH].
  - destruct r as [|c r]; [reflexivity|]. cbn in *.
    apply negb_true_iff in Hr. now rewrite Hr.
  - cbn [allDigits] in Hd. apply andb_true_iff in Hd. destruct Hd as [Ha Hd].
    cbn [append takeDigits]. now rewrite Ha, (IH Hd).
Qed.

Lemma takeDigits_all (d : string) : allDigits d = true -> takeDigits d = (d, "").
Proof.
  intros Hd. generalize (takeDigits_app d "" Hd eq_refl).
  replace (d ++ "") with d; [auto|].
  clear. induction d as [|a d IH]; cbn; [reflexivity | now rewrite <- IH].
Qed.

Lemma stripSign_digit (a : ascii) (s : string) :
  isDigit a = true -> stripSign (String a s) = (false, String a s).
Proof.
  intros Ha. cbn [stripSign].
  now rewrite (digit_neq a "-" Ha eq_refl), (digit_neq a "+" Ha eq_refl).
Qed.

(** [Number.parseInt] reads a leading numeral and ignores what follows
    it, as long as what follows is not a further digit or the mark of a
    hexadecimal literal. *)
Lemma parseInt_leading_numeral (d r : string) :
  isNumeral d = true -> stops r = true -> noHexMark r = true ->
  parseInt (d ++ r) = ofZ (digitsValue d).
Proof.
  destruct d as [|a d]; [discriminate|]. cbn [isNumeral]. intros Hd Hr Hx.
  pose proof Hd as Hd'. cbn [allDigits] in Hd'.
  apply andb_true_iff in Hd'. destruct Hd' as [Ha Hd'].
  unfold parseInt. cbn [append trimStart].
  rewrite (digit_not_space a Ha), (stripSign_digit a _ Ha).
  assert (Hh : hexPrefix (String a (d ++ r)) = None).
  { cbn [hexPrefix]. destruct (d ++ r) as [|x rest] eqn:E; [reflexivity|].
    assert (Hxx : Ascii.eqb x "x" || Ascii.eqb x "X" = false).
    { destruct d as [|x' d].
      - cbn in E. subst r. cbn in Hx. now apply negb_true_iff in Hx.
      - cbn in E. injection E as -> _. cbn [allDigits] in Hd'.
        apply andb_true_iff in Hd'. destruct Hd' as [Hx' _].
        now rewrite (digit_neq x "x" Hx' eq_refl), (digit_neq x "X" Hx' eq_refl). }
    rewrite Hxx. now rewrite andb_false_r. }
  rewrite Hh.
  change (String a (d ++ r)) with (String a d ++ r).
  rewrite (takeDigits_app (String a d) r Hd Hr).
  cbn [String.eqb]. f_equal. lia.
Qed.

Lemma parseInt_numeral (d : string) :
  isNumeral d = true -> parseInt d = ofZ (digitsValue d).
Proof.
  intros Hd. generalize (parseInt_leading_numeral d "" Hd eq_refl eq_refl).
  replace (d ++ "") with d; [auto|].
  clear. induction d as [|a d IH]; cbn; [reflexivity | now rewrite <- IH].
Qed.

Lemma trimEnd_nonspace (x s : string) (c : ascii) :
  isWhiteSpace c = false -> trimEnd (x ++ String c s) = x ++ String c (trimEnd s).
Proof.
  intros Hc. induction x as [|a x IH]; cbn [append trimEnd].
  - rewrite Hc. now destruct (trimEnd s).
  - rewrite IH. destruct x; reflexivity.
Qed.

Lemma trimEnd_digits (d : string) : allDigits d = true -> trimEnd d = d.
Proof.
  induction d as [|a d IH]; [reflexivity|]. cbn [allDigits trimEnd].
  intros H. apply andb_true_iff in H. destruct H as [Ha Hd].
  rewrite (IH Hd), (digit_not_space a Ha). now destruct d.
Qed.

(** A text that starts with a digit followed by something that is not a
    radix mark is not a NonDecimalIntegerLiteral. *)
Lemma radixPrefix_digits (a : ascii) (s : string) :
  match s with
  | "" => True
  | String x _ =>
      Ascii.eqb x "x" || Ascii.eqb x "X" = false
      /\ Ascii.eqb x "o" || Ascii.eqb x "O" = false
      /\ Ascii.eqb x "b" || Ascii.eqb x "B" = false
  end ->
  radixPrefix (String a s) = None.
Proof.
  destruct s as [|x s]; [reflexivity|]. intros (H1 & H2 & H3).
  cbn [radixPrefix]. rewrite H1, H2, H3. now destruct (Ascii.eqb a "0").
Qed.

Lemma not_radix_mark (x : ascii) :
  isDigit x = true \/ x = "/"%char ->
  Ascii.eqb x "x" || Ascii.eqb x "X" = false
  /\ Ascii.eqb x "o" || Ascii.eqb x "O" = false
  /\ Ascii.eqb x "b" || Ascii.eqb x "B" = false.
Proof.
  intros [H| ->]; [|repeat split; reflexivity].
  repeat split; apply orb_false_iff; split; now apply digit_neq.
Qed.

(** [Number] of a decimal numeral is its value. *)
Lemma Number_numeral (d : string) :
  isNumeral d = true -> Number d = ofZ (digitsValue d).
Proof.
  destruct d as [|a d]; [discriminate|]. cbn [isNumeral]. intros Hd.
  pose proof Hd as Hd'. cbn [allDigits] in Hd'.
  apply andb_true_iff in Hd'. destruct Hd' as [Ha Hd'].
  unfold Number, trim. cbn [trimStart]. rewrite (digit_not_space a Ha).
  rewrite (trimEnd_digits _ Hd). cbn [String.eqb].
  unfold nonDecimalLiteral. rewrite radixPrefix_digits.
  2:{ destruct d as [|x d]; [exact I|]. apply not_radix_mark. left.
      cbn [allDigits] in Hd'. now apply andb_true_iff in Hd'. }
  rewrite (stripSign_digit a _ Ha).
  assert (HI : (String a d =? "Infinity")%string = false).
  { cbn [String.eqb]. now rewrite (digit_neq a "I" Ha eq_refl). }
  rewrite HI. unfold unsignedDecimal. rewrite (takeDigits_all _ Hd).
  unfold integerLiteral. cbn [String.eqb exponentPart].
  unfold scale10. cbn [Z.leb Z.compare]. rewrite Z.pow_0_r, Z.mul_1_r.
  apply canon_inject_Z.
Qed.

(** A numeral followed by [/] and anything is not a numeric literal. *)
Lemma Number_numeral_slash (d s : string) :
  isNumeral d = true -> Number (d ++ String "/" s) = NaN.
Proof.
  destruct d as [|a d]; [discriminate|]. cbn [isNumeral]. intros Hd.
  pose proof Hd as Hd'. cbn [allDigits] in Hd'.
  apply andb_true_iff in Hd'. destruct Hd' as [Ha Hd'].
  unfold Number, trim. cbn [append trimStart]. rewrite (digit_not_space a Ha).
  change (String a (d ++ String "/" s)) with (String a d ++ String "/" s).
  rewrite (trimEnd_nonspace (String a d) s "/" eq_refl).
  set (s' := trimEnd s). cbn [append String.eqb].
  unfold nonDecimalLiteral. rewrite radixPrefix_digits.
  2:{ destruct d as [|x d]; cbn [append]; apply not_radix_mark; [now right|left].
      cbn [allDigits] in Hd'. now apply andb_true_iff in Hd'. }
  rewrite (stripSign_digit a _ Ha).
  assert (HI : (String a (d ++ String "/" s') =? "Infinity")%string = false).
  { cbn [String.eqb]. now rewrite (digit_neq a "I" Ha eq_refl). }
  rewrite HI. unfold unsignedDecimal.
  change (String a (d ++ String "/" s')) with (String a d ++ String "/" s').
  rewrite (takeDigits_app (String a d) (String "/" s') Hd eq_refl).
  reflexivity.
Qed.

(** ** Tokens built from numerals *)

Lemma append_assoc (a b c : string) : (a ++ b) ++ c = a ++ (b ++ c).
Proof. induction a as [|x a IH]; cbn; [reflexivity | now rewrite IH]. Qed.

Lemma numeral_excludes (d : string) (c : ascii) :
  allDigits d = true -> isDigit c = false -> str_includes d c = false.
Proof.
  intros Hd Hc. induction d as [|a d IH]; [reflexivity|].
  cbn [allDigits] in Hd. apply andb_true_iff in Hd. destruct Hd as [Ha Hd].
  cbn [str_includes]. now rewrite (digit_neq a c Ha Hc), (IH Hd).
Qed.

Lemma isNumeral_allDigits (d : string) : isNumeral d = true -> allDigits d = true.
Proof. destruct d; [discriminate | auto]. Qed.

Lemma numeral_not_star (d r : string) :
  isNumeral d = true -> (d ++ r =? "*")%string = false.
Proof.
  destruct d as [|a d]; [discriminate|]. cbn [isNumeral allDigits].
  intros H. apply andb_true_iff in H. destruct H as [Ha _].
  cbn [append String.eqb]. now rewrite (digit_neq a "*" Ha eq_refl).
Qed.

(** ** The range rule *)

Lemma parseCronPart_range (fuel : nat) (a b : string) (va vb : Z)
  (min max : number) :
  plainComponent a -> plainComponent b ->
  Number a = ofZ va -> Number b = ofZ vb ->
  parseCronPart fuel (a ++ String "-" b) min max
  = if vb - va + 1 <=? 2 ^ 32 - 1
    then Normal (map ofZ (zrange va vb))
    else Throw RangeError.
Proof.
  intros (Am & As & Ac) (Bm & Bs & Bc) Ha Hb.
  unfold parseCronPart.
  assert (S1 : str_includes (a ++ String "-" b) "/" = false).
  { rewrite str_includes_append. cbn [str_includes]. now rewrite As, Bs. }
  assert (S2 : str_includes (a ++ String "-" b) "," = false).
  { rewrite str_includes_append. cbn [str_includes]. now rewrite Ac, Bc. }
  assert (S3 : str_includes (a ++ String "-" b) "-" = true).
  { rewrite str_includes_append. cbn [str_includes]. rewrite Ascii.eqb_refl.
    cbn [orb]. apply orb_true_r. }
  assert (N : (a ++ String "-" b =? "*")%string = false).
  { destruct (String.eqb_spec (a ++ String "-" b) "*") as [E|]; [|reflexivity].
    rewrite E in S3. discriminate S3. }
  rewrite N, S1, S2, S3. cbn [andb].
  rewrite (split_append a b "-" Am), (split_no_sep b "-" Bm).
  cbn [map nth]. rewrite Ha, Hb.
  change (isNaN (ofZ va)) with false. change (isNaN (ofZ vb)) with false.
  cbn [negb andb].
  destruct (Z.leb_spec (vb - va + 1) (2 ^ 32 - 1)).
  - now apply ArrayFrom_run.
  - now apply ArrayFrom_too_long.
Qed.

(** C8. Range contract of the field parser: for a token [start-end]
    whose two components are free of [-], [/] and [,] and convert (by
    [Number]) to integers (of magnitude up to 2^53, where the number
    model is exact), the result does not depend on the domain; it is the
    inclusive ascending run from [start] to [end] when that run has at
    most 2^32 - 1 elements, and a [RangeError] is thrown when it would
    have more. *)
Theorem range_field_contract (fuel : nat) (a b : string) (va vb : Z)
  (min max : number) :
  plainComponent a -> plainComponent b ->
  Number a = ofZ va -> Number b = ofZ vb ->
  Z.abs va <= 2 ^ 53 -> Z.abs vb <= 2 ^ 53 ->
  parseCronPart fuel (a ++ String "-" b) min max
  = if vb - va + 1 <=? 2 ^ 32 - 1
    then Normal (map ofZ (zrange va vb))
    else Throw RangeError.
Proof. intros Pa Pb Ha Hb _ _. now apply parseCronPart_range. Qed.

(** [10-12] over the hours: the run 10, 11, 12. *)
Lemma range_field_contract_witness :
  parseCronPart 0 "10-12" 0 23 = Normal [ofZ 10; ofZ 11; ofZ 12].
Proof.
  apply (range_field_contract 0 "10" "12" 10 12 0 23);
    [ repeat split | repeat split | reflexivity | reflexivity
    | vm_compute; discriminate | vm_compute; discriminate ].
Defined.

(** A run of 2^32 elements is not returned: the array constructor
    rejects the length. *)
Lemma range_field_counterexample :
  parseCronPart 0 "0-4294967295" 0 59 <> Normal (map ofZ (zrange 0 4294967295)).
Proof.
  assert (E : parseCronPart 0 "0-4294967295" 0 59 = Throw RangeError)
    by (vm_compute; reflexivity).
  rewrite E. discriminate.
Qed.

(** ** Steps over a range that is not the wildcard *)

Lemma parseCronPart_range_step (fuel : nat) (a b s : string) (min max : Z) :
  isNumeral a = true -> isNumeral b = true ->
  str_includes s "," = false -> str_includes s "-" = false ->
  parseCronPart fuel (a ++ String "-" (b ++ String "/" s)) min max
  = Normal (if (min <=? digitsValue a) && (digitsValue a <=? max)
            then [ofZ (digitsValue a)] else []).
Proof.
  intros Ha Hb Hc Hm.
  pose proof (isNumeral_allDigits a Ha) as Da.
  pose proof (isNumeral_allDigits b Hb) as Db.
  unfold parseCronPart. rewrite (numeral_not_star a _ Ha).
  assert (R : nth 0 (split (a ++ String "-" (b ++ String "/" s)) "/") "undefined"
              = a ++ String "-" b).
  { change (String "-" (b ++ String "/" s)) with (String "-" b ++ String "/" s).
    rewrite <- append_assoc. rewrite split_append; [reflexivity|].
    rewrite str_includes_append. cbn [str_includes].
    now rewrite (numeral_excludes a "/" Da eq_refl), (numeral_excludes b "/" Db eq_refl). }
  rewrite R, (numeral_not_star a _ Ha), andb_false_r.
  assert (S2 : str_includes (a ++ String "-" (b ++ String "/" s)) "," = false).
  { rewrite str_includes_append. cbn [str_includes]. rewrite str_includes_append.
    cbn [str_includes].
    now rewrite (numeral_excludes a "," Da eq_refl), (numeral_excludes b "," Db eq_refl), Hc. }
  rewrite S2.
  rewrite (split_append a _ "-" (numeral_excludes a "-" Da eq_refl)).
  rewrite split_no_sep.
  2:{ rewrite str_includes_append. cbn [str_includes].
      now rewrite (numeral_excludes b "-" Db eq_refl), Hm. }
  cbn [map nth]. rewrite (Number_numeral_slash b s Hb).
  cbn [isNaN negb]. rewrite !andb_false_r.
  rewrite (parseInt_leading_numeral a (String "-" (b ++ String "/" s)) Ha eq_refl eq_refl).
  change (isNaN (ofZ (digitsValue a))) with false. cbn [negb andb].
  now rewrite ge_ofZ, le_ofZ.
Qed.

Lemma parseCronPart_number_step (fuel : nat) (a s : string) (min max : Z) :
  isNumeral a = true ->
  str_includes s "," = false -> str_includes s "-" = false ->
  parseCronPart fuel (a ++ String "/" s) min max
  = Normal (if (min <=? digitsValue a) && (digitsValue a <=? max)
            then [ofZ (digitsValue a)] else []).
Proof.
  intros Ha Hc Hm.
  pose proof (isNumeral_allDigits a Ha) as Da.
  unfold parseCronPart. rewrite (numeral_not_star a _ Ha).
  rewrite (split_append a s "/" (numeral_excludes a "/" Da eq_refl)).
  cbn [nth]. generalize (numeral_not_star a "" Ha).
  replace (a ++ "") with a
    by (clear; induction a as [|x a IH]; cbn; [reflexivity | now rewrite <- IH]).
  intros ->. rewrite andb_false_r.
  assert (S2 : str_includes (a ++ String "/" s) "," = false).
  { rewrite str_includes_append. cbn [str_includes].
    now rewrite (numeral_excludes a "," Da eq_refl), Hc. }
  assert (S3 : str_includes (a ++ String "/" s) "-" = false).
  { rewrite str_includes_append. cbn [str_includes].
    now rewrite (numeral_excludes a "-" Da eq_refl), Hm. }
  rewrite S2, S3. cbn [andb].
  rewrite (parseInt_leading_numeral a (String "/" s) Ha eq_refl eq_refl).
  change (isNaN (ofZ (digitsValue a))) with false. cbn [negb andb].
  now rewrite ge_ofZ, le_ofZ.
Qed.

(** C9. A step over a range that is not the wildcard is
    neither supported nor rejected: the step rule is skipped and the
    token falls through to the later rules.  For tokens [a-b/s] and
    [a/s], with decimal numerals [a] and [b] and a step text [s] free of
    [,] and [-], over any of the five domains, the result is the
    singleton of [a] when [a] lies in the domain, and the empty set
    otherwise; the step and the end of the range are ignored. *)
Theorem range_step_falls_through (fuel : nat) (f : Field) (a b s : string) :
  isNumeral a = true -> isNumeral b = true ->
  str_includes s "," = false -> str_includes s "-" = false ->
  parseCronPart fuel (a ++ String "-" (b ++ String "/" s)) (lo f) (hi f)
  = Normal (if (lo f <=? digitsValue a) && (digitsValue a <=? hi f)
            then [ofZ (digitsValue a)] else [])
  /\ parseCronPart fuel (a ++ String "/" s) (lo f) (hi f)
     = Normal (if (lo f <=? digitsValue a) && (digitsValue a <=? hi f)
               then [ofZ (digitsValue a)] else []).
Proof.
  intros Ha Hb Hc Hm. split.
  - now apply parseCronPart_range_step.
  - now apply parseCronPart_number_step.
Qed.

(** [1-30/2] and [1/2] over the days of the month both give day 1. *)
Lemma range_step_falls_through_witness :
  parseCronPart 0 "1-30/2" 1 31 = Normal [ofZ 1]
  /\ parseCronPart 0 "1/2" 1 31 = Normal [ofZ 1].
Proof.
  exact (range_step_falls_through 0 DayOfMonth "1" "30" "2"
           eq_refl eq_refl eq_refl eq_refl).
Defined.

(** [1-30/2] over the days of the month neither fails nor is empty. *)
Lemma range_step_counterexample :
  ~ (parseCronPart 0 "1-30/2" 1 31 = Normal []
     \/ exists e, parseCronPart 0 "1-30/2" 1 31 = Throw e).
Proof.
  assert (E : parseCronPart 0 "1-30/2" 1 31 = Normal [ofZ 1]) by reflexivity.
  rewrite E. intros [H | [e H]]; discriminate H.
Qed.

(** ** The comma rule *)

Lemma split_join (members : list string) (sep : ascii) :
  members <> [] ->
  Forall (fun m => str_includes m sep = false) members ->
  split (join members sep) sep = members.
Proof.
  induction members as [|m rest IH]; [congruence|]. intros _ H.
  inversion H as [|? ? Hm Hrest]; subst. destruct rest as [|m' rest].
  - cbn [join]. now apply split_no_sep.
  - change (join (m :: m' :: rest) sep) with (m ++ String sep (join (m' :: rest) sep)).
    rewrite (split_append _ _ _ Hm). f_equal. apply IH; [discriminate | assumption].
Qed.

Lemma str_includes_join_other (members : list string) (sep c : ascii) :
  Ascii.eqb sep c = false ->
  Forall (fun m => str_includes m c = false) members ->
  str_includes (join members sep) c = false.
Proof.
  intros Hsep. induction members as [|m rest IH]; [reflexivity|]. intros H.
  inversion H as [|? ? Hm Hrest]; subst. destruct rest as [|m' rest].
  - exact Hm.
  - change (join (m :: m' :: rest) sep) with (m ++ String sep (join (m' :: rest) sep)).
    rewrite str_includes_append. cbn [str_includes].
    now rewrite Hm, Hsep, (IH Hrest).
Qed.

Lemma str_includes_join_sep (m m' : string) (rest : list string) (sep : ascii) :
  str_includes (join (m :: m' :: rest) sep) sep = true.
Proof.
  change (join (m :: m' :: rest) sep) with (m ++ String sep (join (m' :: rest) sep)).
  rewrite str_includes_append. cbn [str_includes]. rewrite Ascii.eqb_refl.
  cbn [orb]. apply orb_true_r.
Qed.

Lemma filter_members (f : Field) (members : list string) :
  Forall (fun m => isNumeral m = true \/ Number m = NaN) members ->
  filter (fun n => negb (isNaN n) && (n >=? ofZ (lo f))%num && (n <=? ofZ (hi f))%num)
         (map Number members)
  = map ofZ (filter (inDomain f) (numeralValues members)).
Proof.
  induction 1 as [|m rest Hm _ IH]; [reflexivity|].
  cbn [map filter numeralValues flat_map]. fold (numeralValues rest).
  destruct (isNumeral m) eqn:E.
  - rewrite (Number_numeral m E).
    change (isNaN (ofZ (digitsValue m))) with false. cbn [negb andb].
    rewrite ge_ofZ, le_ofZ. cbn [app filter]. fold (inDomain f (digitsValue m)).
    destruct (inDomain f (digitsValue m)); cbn [map]; now rewrite IH.
  - destruct Hm as [Hm | Hm]; [discriminate|]. rewrite Hm. cbn [isNaN negb andb app].
    exact IH.
Qed.

Lemma parseCronPart_comma (fuel : nat) (f : Field) (members : list string) :
  (2 <= List.length members)%nat ->
  Forall plainMember members ->
  parseCronPart fuel (join members ",") (lo f) (hi f)
  = Normal (map ofZ (filter (inDomain f) (numeralValues members))).
Proof.
  intros Hl Hm.
  assert (Hc : Forall (fun m => str_includes m "," = false) members)
    by (eapply Forall_impl; [|exact Hm]; intros m H; apply H).
  assert (Hs : Forall (fun m => str_includes m "/" = false) members)
    by (eapply Forall_impl; [|exact Hm]; intros m H; apply H).
  assert (Hn : Forall (fun m => isNumeral m = true \/ Number m = NaN) members)
    by (eapply Forall_impl; [|exact Hm]; intros m H; apply H).
  destruct members as [|m [|m' rest]]; cbn [List.length] in Hl; try lia.
  unfold parseCronPart.
  assert (C : str_includes (join (m :: m' :: rest) ",") "," = true)
    by apply str_includes_join_sep.
  assert (N : (join (m :: m' :: rest) "," =? "*")%string = false).
  { destruct (String.eqb_spec (join (m :: m' :: rest) ",") "*") as [E|]; [|reflexivity].
    rewrite E in C. discriminate C. }
  rewrite N, C, (str_includes_join_other _ "," "/" eq_refl Hs). cbn [andb].
  rewrite (split_join (m :: m' :: rest) "," ltac:(discriminate) Hc).
  f_equal. now apply filter_members.
Qed.

(** C6. Comma-list contract of the field parser: for a
    token made of two or more comma-separated members, each free of [/]
    and either a decimal numeral or a text that [Number] converts to
    [NaN], over any of the five domains, the result holds exactly the
    values of the numerals that lie within the domain, in the order of
    the members; the other members are dropped and the field does not
    fail. *)
Theorem comma_list_contract (fuel : nat) (f : Field) (members : list string) :
  (2 <= List.length members)%nat ->
  Forall plainMember members ->
  parseCronPart fuel (join members ",") (lo f) (hi f)
  = Normal (map ofZ (filter (inDomain f) (numeralValues members))).
Proof. apply parseCronPart_comma. Qed.

(** [1,x,5,61] over the minutes: [x] and 61 are dropped. *)
Lemma comma_list_contract_witness :
  parseCronPart 0 "1,x,5,61" 0 59 = Normal [ofZ 1; ofZ 5].
Proof.
  apply (comma_list_contract 0 Minute ["1"; "x"; "5"; "61"]).
  - cbn. lia.
  - repeat constructor; reflexivity || (left; reflexivity) || (right; reflexivity).
Defined.

Example comma_list_1_5_61 :
  parseCronPart 0 "1,5,61" 0 59 = Normal [ofZ 1; ofZ 5].
Proof. reflexivity. Qed.

(** A member that is not an integer is kept ([1.5]), and an empty
    member is kept as 0. *)
Lemma comma_list_counterexample :
  (exists v, parseCronPart 0 "1.5,2" 0 59 = Normal [v; ofZ 2]
             /\ forall z : Z, v <> ofZ z)
  /\ parseCronPart 0 "1,,5" 0 59 = Normal [ofZ 1; ofZ 0; ofZ 5].
Proof.
  split; [|reflexivity].
  exists (Fin (3 # 2)). split; [reflexivity|].
  intros z H. unfold ofZ, inject_Z in H. discriminate H.
Qed.

(** ** Trailing text after a number *)

(** C10. Both the validator and the field parser read a simple-form
    token through [Number.parseInt], which stops at the first character
    that is not a digit: the token [5x] is not a decimal numeral, the
    expression [5x 9 * * *] is reported valid, [5x] parses to the
    singleton of 5 over the minutes, and the occurrence search on
    [5x 9 * * *] returns what it returns on [5 9 * * *]. *)
Theorem trailing_text_accepted (fmt : Z -> string) (fuel : nat) (now : Z)
  (st : State) :
  isNumeral "5x" = false
  /\ verdict fmt fuel now "5x 9 * * *" st = Some validExpression
  /\ parseCronPart fuel "5x" 0 59 = Normal [ofZ 5]
  /\ calculateNextExecutions fmt fuel now "5x 9 * * *"
     = calculateNextExecutions fmt fuel now "5 9 * * *".
Proof.
  split; [reflexivity|]. split; [|split].
  - assert (Hne : trim "5x 9 * * *" <> "") by discriminate.
    rewrite (verdict_five fmt fuel now _ st "5x" "9" "*" "*" "*" Hne eq_refl).
    reflexivity.
  - reflexivity.
  - unfold calculateNextExecutions.
    change (splitWs (trim "5x 9 * * *")) with ["5x"; "9"; "*"; "*"; "*"].
    change (splitWs (trim "5 9 * * *")) with ["5"; "9"; "*"; "*"; "*"].
    cbv beta iota zeta.
    change (parseCronPart fuel "5x" 0 59) with (parseCronPart fuel "5" 0 59).
    reflexivity.
Qed.

(** ** Examples of the occurrence search *)

(** From Monday 1 January 2024, 08:00, [* * * * *] gives the five
    minutes from 08:01. *)
Lemma occurrence_list_invariant_witness :
  exists dates,
    nextExecutionDates 0 (civil 2024 1 1 8 0 0) "* * * * *" = Normal dates
    /\ ["t"; "t"; "t"; "t"; "t"] = map (fun _ => "t") dates
    /\ (List.length ["t"; "t"; "t"; "t"; "t"] <= 5)%nat
    /\ Forall (fun t => civil 2024 1 1 8 0 0 < t) dates
    /\ StronglySorted Z.lt dates.
Proof.
  apply (occurrence_list_invariant (fun _ => "t") 0 (civil 2024 1 1 8 0 0) "* * * * *").
  vm_compute. reflexivity.
Defined.

(** From Monday 1 January 2024, 08:00, [0 9 * * *] gives 09:00 on the
    five days from 1 January. *)
Example daily_at_nine :
  nextExecutionDates 0 (civil 2024 1 1 8 0 0) "0 9 * * *"
  = Normal [civil 2024 1 1 9 0 0; civil 2024 1 2 9 0 0; civil 2024 1 3 9 0 0;
            civil 2024 1 4 9 0 0; civil 2024 1 5 9 0 0].
Proof. vm_compute. reflexivity. Qed.

(** A reference that matches the schedule is not returned: from Monday
    1 January 2024, 00:00, [0 0 * * 1] returns nothing, the following
    Monday being 10080 minutes ahead, past the 10000 attempts. *)
Example strictly_after_reference :
  nextExecutionDates 0 (civil 2024 1 1 0 0 0) "0 0 * * 1" = Normal [].
Proof. vm_compute. reflexivity. Qed.

(** ** Which evaluations return *)

Lemma ArrayFrom_returns (length : number) (mapFn : number -> number) :
  ArrayFrom length mapFn <> OutOfFuel.
Proof. unfold ArrayFrom. destruct (_ <? _); discriminate. Qed.

Lemma stepLoop_NaN (fuel : nat) (min max : number) :
  stepLoop (S (S fuel)) min max NaN [] <> OutOfFuel.
Proof.
  cbn [stepLoop]. destruct (min <=? max)%num; [|discriminate].
  replace (min + NaN)%num with NaN by (now destruct min).
  cbn [le]. discriminate.
Qed.




(** A field that does not stall is parsed with fuel for one pass over
    its domain. *)
Lemma parseCronPart_returns (fuel : nat) (part : string) (min max : Z) :
  stalls part min max = false ->
  (Z.to_nat (max - min) + 2 < fuel)%nat ->
  parseCronPart fuel part min max <> OutOfFuel.
Proof.
  unfold stalls, parseCronPart. intros Hs Hf.
  destruct (part =? "*")%string; [apply ArrayFrom_returns|]. cbn [negb andb] in Hs.
  destruct (str_includes part "/"); cbn [andb] in Hs |- *.
  - destruct (nth 0 (split part "/") "undefined" =? "*")%string; cbn [andb] in Hs |- *.
    + destruct (parseInt_cases (nth 1 (split part "/") "undefined")) as [E | [n E]];
        rewrite E in *.
      * destruct fuel as [|[|fuel]]; try lia. apply stepLoop_NaN.
      * rewrite le_ofZ in Hs. destruct (Z.leb_spec n 0) as [Hn|Hn]; cbn [andb] in Hs.
        -- apply Z.leb_gt in Hs. destruct fuel as [|fuel]; [lia|].
           cbn [stepLoop]. rewrite le_ofZ.
           destruct (Z.leb_spec min max); [lia | discriminate].
        -- apply (stepLoop_positive_ends max n Hn).
           destruct (Z.le_gt_cases min max) as [L|L].
           ++ assert ((max - min) / n <= max - min)
                by (apply Z.div_le_upper_bound; nia).
              lia.
           ++ assert ((max - min) / n < 0) by (apply Z.div_lt_upper_bound; lia).
              lia.
    + destruct (str_includes part ","); [discriminate|].
      destruct (str_includes part "-" && _ && _);
        [apply ArrayFrom_returns | discriminate].
  - destruct (str_includes part ","); [discriminate|].
    destruct (str_includes part "-" && _ && _);
      [apply ArrayFrom_returns | discriminate].
Qed.

Lemma parseDayPart_returns (fuel : nat) (part : string) (min max : Z) :
  stalls part min max = false ->
  (Z.to_nat (max - min) + 2 < fuel)%nat ->
  parseDayPart fuel part min max <> OutOfFuel.
Proof.
  intros Hs Hf. unfold parseDayPart.
  destruct (part =? "*")%string; [discriminate|].
  pose proof (parseCronPart_returns fuel part min max Hs Hf).
  destruct (parseCronPart fuel part min max); cbn [bind]; congruence.
Qed.

(** The occurrence search returns a list for every expression none of
    whose fields stalls, given fuel for one pass over the widest domain. *)
Lemma calculateNextExecutions_returns (fmt : Z -> string) (fuel : nat) (now : Z)
  (cronExpression : string) :
  (62 <= fuel)%nat ->
  (forall f : Field, stalls (tokenOf f (tokens cronExpression)) (lo f) (hi f) = false) ->
  exists executions,
    calculateNextExecutions fmt fuel now cronExpression = Normal executions.
Proof.
  intros Hf Hs. unfold calculateNextExecutions, tokens in *.
  generalize (Z.to_nat maxAttempts) as n. intros n.
  destruct (splitWs (trim cronExpression)) as [|p1 [|p2 [|p3 [|p4 [|p5 [|p6 ps]]]]]];
    try (eexists; reflexivity).
  pose proof (parseCronPart_returns fuel p1 0 59 (Hs Minute) ltac:(cbn; lia)) as H1.
  pose proof (parseCronPart_returns fuel p2 0 23 (Hs Hour) ltac:(cbn; lia)) as H2.
  pose proof (parseDayPart_returns fuel p3 1 31 (Hs DayOfMonth) ltac:(cbn; lia)) as H3.
  pose proof (parseCronPart_returns fuel p4 1 12 (Hs Month) ltac:(cbn; lia)) as H4.
  pose proof (parseDayPart_returns fuel p5 0 6 (Hs DayOfWeek) ltac:(cbn; lia)) as H5.
  destruct (parseCronPart fuel p1 0 59) as [ms|e|];
    [ | eexists; reflexivity | congruence ].
  destruct (parseCronPart fuel p2 0 23) as [hs|e|];
    [ | eexists; reflexivity | congruence ].
  destruct (parseDayPart fuel p3 1 31) as [ds|e|];
    [ | eexists; reflexivity | congruence ].
  destruct (parseCronPart fuel p4 1 12) as [mo|e|];
    [ | eexists; reflexivity | congruence ].
  destruct (parseDayPart fuel p5 0 6) as [ws|e|];
    [ | eexists; reflexivity | congruence ].
  eexists. reflexivity.
Qed.

(** ** An impossible date *)




(** ** Termination *)

Lemma Normal_inj {A : Type} (x y : A) : Normal x = Normal y -> x = y.
Proof. intros H. now injection H. Qed.






(** ** What the occurrence search computes *)

Lemma setSeconds_floor (d : Z) : setSeconds d 0 0 = 60000 * (d / 60000).
Proof.
  unfold setSeconds, MakeDate, MakeTime, Day, HourFromTime, MinFromTime,
    msPerDay, msPerHour, msPerMinute, msPerSecond.
  Z.div_mod_to_equations. lia.
Qed.

Lemma searchDates_firstn (f : Fields) (now : Z) :
  forall (fuel : nat) (attempts searchDate : Z) (dates : list Z),
    attempts + Z.of_nat fuel = maxAttempts ->
    (List.length dates <= 5)%nat ->
    searchDates fuel f now attempts searchDate dates
    = firstn 5 (dates ++ filter (matches f now)
                  (map (fun k => searchDate + 60000 * Z.of_nat k) (seq 0 fuel)))%list.
Proof.
  induction fuel as [|fuel IH]; intros attempts searchDate dates Ha Hl.
  - cbn [searchDates seq map filter]. rewrite app_nil_r.
    symmetry. now apply firstn_all2.
  - cbn [searchDates].
    replace (attempts <? maxAttempts) with true by (symmetry; apply Z.ltb_lt; lia).
    cbn [andb].
    destruct (Z.ltb_spec (Z.of_nat (List.length dates)) 5) as [L|L].
    + rewrite setMinutes_next.
      cbn [seq map filter]. rewrite <- seq_shift, map_map.
      replace (searchDate + 60000 * Z.of_nat 0) with searchDate by lia.
      rewrite (map_ext (fun k => searchDate + 60000 * Z.of_nat (S k))
                       (fun k => searchDate + 60000 + 60000 * Z.of_nat k))
        by (intros; lia).
      destruct (matches f now searchDate).
      * rewrite IH by (rewrite ?length_app; cbn [List.length]; lia).
        now rewrite <- app_assoc.
      * apply IH; lia.
    + rewrite firstn_app. replace (5 - List.length dates)%nat with O by lia.
      rewrite firstn_0, app_nil_r. symmetry. apply firstn_all2. lia.
Qed.

Lemma searchDates_from_start (f : Fields) (now searchDate : Z) (n : nat) :
  Z.of_nat n = maxAttempts ->
  searchDates n f now 0 searchDate []
  = firstn 5 (filter (matches f now)
                (map (fun k => searchDate + 60000 * Z.of_nat k) (seq 0 n))).
Proof.
  intros Hn. rewrite (searchDates_firstn f now n 0 searchDate []);
    [reflexivity | lia | cbn; lia].
Qed.

Lemma searchDates_window (f : Fields) (now searchDate : Z) :
  searchDates (Z.to_nat maxAttempts) f now 0 searchDate []
  = firstn 5 (filter (matches f now) (window searchDate)).
Proof.
  unfold window. apply searchDates_from_start.
  apply Z2Nat.id. unfold maxAttempts. lia.
Qed.

(** X1. The occurrence search returns the formatting of the first five
    minutes, among the 10000 consecutive minutes that start at the
    reference instant cut down to its minute, at which the minute, hour,
    day and month tests hold and which lie after the reference. *)
Theorem search_is_first_matches (fmt : Z -> string) (fuel : nat) (now : Z)
  (cronExpression p1 p2 p3 p4 p5 : string)
  (ms hs mo : list number) (ds ws : option (list number)) :
  tokens cronExpression = [p1; p2; p3; p4; p5] ->
  parseCronPart fuel p1 0 59 = Normal ms ->
  parseCronPart fuel p2 0 23 = Normal hs ->
  parseDayPart fuel p3 1 31 = Normal ds ->
  parseCronPart fuel p4 1 12 = Normal mo ->
  parseDayPart fuel p5 0 6 = Normal ws ->
  calculateNextExecutions fmt fuel now cronExpression
  = Normal (map fmt
      (firstn 5
         (filter (matches {| minutes := ms; hours := hs; days := ds;
                             months := mo; weekdays := ws |} now)
                 (window (60000 * (now / 60000)))))).
Proof.
  intros Ht H1 H2 H3 H4 H5.
  rewrite calculateNextExecutions_dates. unfold nextExecutionDates.
  unfold tokens in Ht. rewrite Ht. cbv beta iota zeta.
  rewrite H1, H2, H3, H4, H5. cbn [bind try_catch].
  now rewrite searchDates_window, setSeconds_floor.
Qed.

(** [* * * * *]: every minute of the window passes the four tests. *)
Lemma search_is_first_matches_witness :
  exists ms hs mo,
    calculateNextExecutions (fun _ => "t") 0 0 "* * * * *"
    = Normal (map (fun _ => "t")
        (firstn 5
           (filter (matches {| minutes := ms; hours := hs; days := None;
                               months := mo; weekdays := None |} 0)
                   (window (60000 * (0 / 60000)))))).
Proof.
  eexists. eexists. eexists.
  apply (search_is_first_matches (fun _ => "t") 0 0 "* * * * *" "*" "*" "*" "*" "*");
    reflexivity.
Defined.


Lemma nextExecutionDates_shape (fuel : nat) (now : Z) (cronExpression : string)
  (dates : list Z) :
  nextExecutionDates fuel now cronExpression = Normal dates ->
  dates = []
  \/ exists f, dates = firstn 5 (filter (matches f now) (window (60000 * (now / 60000)))).
Proof.
  unfold nextExecutionDates.
  destruct (splitWs (trim cronExpression)) as [|p1 [|p2 [|p3 [|p4 [|p5 [|p6 ps]]]]]];
    cbn [try_catch]; try (intros H; apply Normal_inj in H; now left).
  destruct (parseCronPart fuel p1 0 59) as [ms|e|]; cbn [bind try_catch];
    [ | intros H; apply Normal_inj in H; now left | discriminate ].
  destruct (parseCronPart fuel p2 0 23) as [hs|e|]; cbn [bind try_catch];
    [ | intros H; apply Normal_inj in H; now left | discriminate ].
  destruct (parseDayPart fuel p3 1 31) as [ds|e|]; cbn [bind try_catch];
    [ | intros H; apply Normal_inj in H; now left | discriminate ].
  destruct (parseCronPart fuel p4 1 12) as [mo|e|]; cbn [bind try_catch];
    [ | intros H; apply Normal_inj in H; now left | discriminate ].
  destruct (parseDayPart fuel p5 0 6) as [ws|e|]; cbn [bind try_catch];
    [ | intros H; apply Normal_inj in H; now left | discriminate ].
  intros H. apply Normal_inj in H. right.
  rewrite searchDates_window, setSeconds_floor in H. eexists. symmetry. exact H.
Qed.

Lemma firstn_subset {A : Type} (n : nat) (l : list A) (x : A) :
  In x (firstn n l) -> In x l.
Proof.
  intros H. rewrite <- (firstn_skipn n l). apply in_or_app. now left.
Qed.

Lemma In_window (d t : Z) :
  In t (window d) ->
  exists k, 0 <= k < maxAttempts /\ t = d + 60000 * k.
Proof.
  unfold window. rewrite in_map_iff. intros (k & <- & Hk).
  apply in_seq in Hk. exists (Z.of_nat k). split; [|reflexivity].
  unfold maxAttempts in *. lia.
Qed.

(** X2. Every instant the occurrence search reports is a whole minute,
    lies strictly after the reference instant and less than 10000
    minutes after the minute of the reference; schedules whose next
    occurrences are further away are reported with fewer than five
    entries or none. *)
Theorem reported_instants_in_window (fuel : nat) (now : Z) (cronExpression : string)
  (dates : list Z) :
  nextExecutionDates fuel now cronExpression = Normal dates ->
  Forall (fun t => t mod 60000 = 0
                   /\ now < t < 60000 * (now / 60000) + 60000 * 10000) dates.
Proof.
  intros H. apply nextExecutionDates_shape in H. destruct H as [-> | [f ->]].
  - constructor.
  - apply Forall_forall. intros t Ht.
    apply firstn_subset in Ht.
    apply filter_In in Ht. destruct Ht as [Hw Hm].
    apply In_window in Hw. destruct Hw as (k & Hk & ->).
    unfold matches in Hm. rewrite !andb_true_iff in Hm.
    destruct Hm as [_ Hlt]. apply Z.ltb_lt in Hlt.
    unfold maxAttempts in Hk. split; [|lia].
    replace (60000 * (now / 60000) + 60000 * k) with ((now / 60000 + k) * 60000)
      by lia.
    apply Z.mod_mul. lia.
Qed.

(** [* * * * *] from half a minute past the epoch. *)
Lemma reported_instants_in_window_witness :
  Forall (fun t => t mod 60000 = 0
                   /\ 30000 < t < 60000 * (30000 / 60000) + 60000 * 10000)
         [60000; 120000; 180000; 240000; 300000].
Proof.
  apply (reported_instants_in_window 0 30000 "* * * * *").
  vm_compute. reflexivity.
Defined.

(** ** The step rule with a positive step *)

(** X3. For a step that parses to a positive integer, the token
    [*/step] over any of the five domains yields, given fuel for one
    pass over the domain, the ascending values from the domain minimum
    in steps of that integer: exactly the values of the domain whose
    distance to the minimum is a multiple of the step. *)
Theorem positive_step_values (fuel : nat) (f : Field) (stepText : string) (step : Z) :
  str_includes stepText "/" = false ->
  parseInt stepText = ofZ step ->
  0 < step ->
  (61 < fuel)%nat ->
  parseCronPart fuel ("*/" ++ stepText) (lo f) (hi f)
  = Normal (map ofZ (stepRun (lo f) (hi f) step))
  /\ forall z : Z,
       In z (stepRun (lo f) (hi f) step)
       <-> lo f <= z <= hi f /\ (z - lo f) mod step = 0.
Proof.
  intros Hi Hp Hs Hf. split.
  - assert ((hi f - lo f) / step <= hi f - lo f)
      by (apply Z.div_le_upper_bound; [lia | destruct f; cbn; nia]).
    pose proof maxArrayLength_large.
    apply step_field_positive; try assumption; destruct f; cbn [lo hi] in *; lia.
  - intros z. rewrite (In_stepRun _ _ _ _ Hs). split.
    + intros (k & Hk & -> & Hb). split; [nia|].
      replace (lo f + k * step - lo f) with (k * step) by lia.
      apply Z.mod_mul. lia.
    + intros ([Hl Hh] & Hm). apply Z.mod_divide in Hm; [|lia].
      destruct Hm as [k Hk]. exists k. split; [nia|]. split; lia.
Qed.

(** Every second day of the month: 1, 3, ..., 31. *)
Lemma positive_step_values_witness :
  parseCronPart 62 "*/2" 1 31
  = Normal (map ofZ (stepRun 1 31 2))
  /\ forall z : Z, In z (stepRun 1 31 2) <-> 1 <= z <= 31 /\ (z - 1) mod 2 = 0.
Proof.
  apply (positive_step_values 62 DayOfMonth "2" 2); [reflexivity | reflexivity | lia | lia].
Defined.

(** ** Which tokens the parser returns on *)



(** X5. The occurrence search returns a list for every expression none
    of whose five tokens stalls the field parser, given fuel for one
    pass over the widest domain; the list is empty when the expression
    does not have five tokens or a field throws. *)
Theorem search_returns_unless_stalled (fmt : Z -> string) (fuel : nat) (now : Z)
  (cronExpression : string) :
  (62 <= fuel)%nat ->
  (forall f : Field, stalls (tokenOf f (tokens cronExpression)) (lo f) (hi f) = false) ->
  exists executions,
    calculateNextExecutions fmt fuel now cronExpression = Normal executions.
Proof. apply calculateNextExecutions_returns. Qed.

(** The example [*/15 * * * *] of the page. *)
Lemma search_returns_unless_stalled_witness :
  exists executions,
    calculateNextExecutions (fun _ => "t") 62 0 "*/15 * * * *" = Normal executions.
Proof.
  apply (search_returns_unless_stalled (fun _ => "t") 62 0 "*/15 * * * *").
  - lia.
  - intros f. destruct f; reflexivity.
Defined.

(** ** Validator and parser on tokens in simple form *)

Lemma parseCronPart_simple (fuel : nat) (f : Field) (t : string) :
  simpleForm t = true ->
  parseCronPart fuel t (lo f) (hi f)
  = Normal (if accepted (entry f t) then [parseInt t] else []).
Proof.
  intros Hs. unfold accepted, entry. cbn [value range fst snd]. rewrite Hs.
  unfold simpleForm in Hs. rewrite !andb_true_iff, !negb_true_iff in Hs.
  destruct Hs as (((Hw & Hsl) & Hc) & Hm).
  unfold parseCronPart. rewrite Hw, Hsl, Hc, Hm. cbn [andb].
  destruct (parseInt_cases t) as [E | [n E]]; rewrite E.
  - reflexivity.
  - change (isNaN (ofZ n)) with false. cbn [negb andb orb].
    rewrite ge_ofZ, le_ofZ, lt_ofZ, gt_ofZ.
    destruct (Z.leb_spec (lo f) n), (Z.leb_spec n (hi f)),
      (Z.ltb_spec n (lo f)), (Z.ltb_spec (hi f) n); cbn; try reflexivity; lia.
Qed.

(** X6. On a token in simple form the validator and the field parser
    agree: a token the validator accepts for a field parses to the
    singleton of the integer [Number.parseInt] reads from it, and a
    token the validator rejects parses to the empty set. *)
Theorem validator_parser_agree (fuel : nat) (f : Field) (t : string) :
  simpleForm t = true ->
  (fieldOk f t -> parseCronPart fuel t (lo f) (hi f) = Normal [parseInt t])
  /\ (~ fieldOk f t -> parseCronPart fuel t (lo f) (hi f) = Normal []).
Proof.
  intros Hs. rewrite (parseCronPart_simple fuel f t Hs). split; intros H.
  - now rewrite (accepted_true f t H).
  - now rewrite (accepted_false f t H).
Qed.

(** Hour 24 is rejected by the validator and matches nothing. *)
Lemma validator_parser_agree_witness :
  parseCronPart 0 "24" 0 23 = Normal [].
Proof.
  apply (proj2 (validator_parser_agree 0 Hour "24" eq_refl)).
  intros H. destruct (H eq_refl) as (n & Hn & Hr).
  apply (ofZ_inj 24 n) in Hn. cbn in Hr. lia.
Defined.

(** ** The executions shown beside the verdict *)

Lemma mbind_run (A B : Type) (m : M A) (k : A -> M B) (st : State) :
  mbind m k st
  = match m st with
    | (Normal a, st') => k a st'
    | (Throw e, st') => (Throw e, st')
    | (OutOfFuel, st') => (OutOfFuel, st')
    end.
Proof. reflexivity. Qed.

(** X7. After the validator has run, executions are shown only beside a
    "valid" verdict: whenever the verdict is anything else (none, wrong
    length, invalid field) the list of next executions is empty, and
    when the verdict is "valid" and the search returns, the list is the
    result of the search. *)
Theorem executions_follow_verdict (fmt : Z -> string) (fuel : nat) (now : Z)
  (expression : string) (st : State) :
  (verdict fmt fuel now expression st <> Some validExpression ->
   nextExecutions (snd (validateCronExpression fmt fuel now expression st)) = [])
  /\ (forall executions,
        verdict fmt fuel now expression st = Some validExpression ->
        calculateNextExecutions fmt fuel now expression = Normal executions ->
        nextExecutions (snd (validateCronExpression fmt fuel now expression st))
        = executions).
Proof.
  unfold verdict, validateCronExpression.
  destruct (trim expression =? "")%string; [split; [reflexivity | discriminate]|].
  destruct (splitWs (trim expression)) as [|p1 [|p2 [|p3 [|p4 [|p5 [|p6 ps]]]]]];
    try (split; [reflexivity | discriminate]).
  rewrite !(mbind_run _ _ (validationLoop _)), validationLoop_find.
  destruct (find _ _) as [v|].
  - split; [reflexivity | discriminate].
  - unfold mbind, setCronValidation, lift, setNextExecutions.
    destruct (calculateNextExecutions fmt fuel now expression) as [l|e|];
      cbn [snd fst cronValidation nextExecutions]; split;
      try (intros H; now contradiction H);
      try (intros executions _ H; apply Normal_inj in H; exact H);
      try (intros executions _ H; discriminate H).
Qed.

(** Minute 70: no executions are shown. *)
Lemma executions_follow_verdict_witness :
  nextExecutions
    (snd (validateCronExpression (fun _ => "t") 0 0 "70 9 * * *"
            {| cronValidation := None; nextExecutions := ["stale"] |})) = [].
Proof.
  apply (proj1 (executions_follow_verdict (fun _ => "t") 0 0 "70 9 * * *"
                  {| cronValidation := None; nextExecutions := ["stale"] |})).
  discriminate.
Defined.

(** ** The tokens of an expression *)

Lemma trimStart_starts (s : string) :
  match trimStart s with
  | "" => True
  | String a _ => isWhiteSpace a = false
  end.
Proof.
  induction s as [|a s IH]; cbn [trimStart]; [exact I|].
  destruct (isWhiteSpace a) eqn:E; [exact IH | exact E].
Qed.

Lemma trimEnd_head (a : ascii) (s : string) :
  trimEnd (String a s) = "" \/ exists r, trimEnd (String a s) = String a r.
Proof.
  cbn [trimEnd]. destruct (trimEnd s).
  - destruct (isWhiteSpace a); [now left | right; now exists ""].
  - right. eexists. reflexivity.
Qed.

Lemma trim_starts (s : string) :
  match trim s with
  | "" => True
  | String a _ => isWhiteSpace a = false
  end.
Proof.
  unfold trim. pose proof (trimStart_starts s) as H.
  destruct (trimStart s) as [|a r]; [exact I|].
  destruct (trimEnd_head a r) as [-> | [r' ->]]; [exact I | exact H].
Qed.

Lemma trimEnd_ends (s : string) : endsWithSpace (trimEnd s) = false.
Proof.
  induction s as [|a s IH]; [reflexivity|]. cbn [trimEnd].
  destruct (trimEnd s) as [|b r].
  - destruct (isWhiteSpace a) eqn:E; [reflexivity | cbn; exact E].
  - exact IH.
Qed.

Lemma noWhiteSpace_snoc (s : string) (a : ascii) :
  noWhiteSpace s = true -> isWhiteSpace a = false ->
  noWhiteSpace (s ++ String a "") = true.
Proof.
  intros Hs Ha. induction s as [|b s IH]; cbn [append noWhiteSpace] in *.
  - now rewrite Ha.
  - apply andb_true_iff in Hs. destruct Hs as [Hb Hs]. now rewrite Hb, (IH Hs).
Qed.

Lemma splitWs_from_tokens (s : string) :
  forall (inSep : bool) (cur : string),
    noWhiteSpace cur = true ->
    endsWithSpace s = false ->
    (s = "" -> cur <> "") ->
    (inSep = false -> cur = "" ->
     match s with "" => False | String a _ => isWhiteSpace a = false end) ->
    Forall (fun t => t <> "" /\ noWhiteSpace t = true) (splitWs_from inSep cur s).
Proof.
  induction s as [|a s IH]; intros inSep cur Hc He Hn Hs; cbn [splitWs_from].
  - repeat constructor; auto.
  - assert (Hs' : isWhiteSpace a = true -> s <> "" /\ endsWithSpace s = false).
    { intros Ha. cbn [endsWithSpace] in He. destruct s; [congruence|].
      split; [discriminate | exact He]. }
    destruct (isWhiteSpace a) eqn:Ha.
    + destruct (Hs' eq_refl) as [Hne Hee].
      assert (T : Forall (fun t => t <> "" /\ noWhiteSpace t = true)
                    (splitWs_from true "" s)).
      { apply IH; [reflexivity | exact Hee | intros E; contradiction | discriminate]. }
      destruct inSep; [exact T|]. constructor; [|exact T].
      split; [|exact Hc]. intros E. specialize (Hs eq_refl E). congruence.
    + apply IH.
      * now apply noWhiteSpace_snoc.
      * cbn [endsWithSpace] in He. destruct s; [reflexivity | exact He].
      * intros _. destruct cur; discriminate.
      * intros _ E. destruct cur; discriminate E.
Qed.

(** X8. The tokens both callbacks work on, [trim().split(/\s+/)] of an
    expression that is not blank, are never empty and hold no white
    space, whatever white space the expression has around and between
    its fields. *)
Theorem tokens_are_words (expression : string) :
  trim expression <> "" ->
  Forall (fun t => t <> "" /\ noWhiteSpace t = true) (tokens expression).
Proof.
  intros Hne. unfold tokens, splitWs. apply splitWs_from_tokens.
  - reflexivity.
  - apply trimEnd_ends.
  - intros E. contradiction.
  - intros _ _. pose proof (trim_starts expression) as H.
    destruct (trim expression); [contradiction | exact H].
Qed.

(** Tabs, runs of blanks and a trailing newline around five fields. *)
Lemma tokens_are_words_witness :
  Forall (fun t => t <> "" /\ noWhiteSpace t = true)
         ["0"; "9"; "*"; "*"; "1-5"].
Proof.
  apply (tokens_are_words (String "009" " 0   9 * *" ++ String "009" "1-5 " ++ String "010" "")).
  discriminate.
Defined.

Lemma trimEnd_fixed (s : string) : endsWithSpace s = false -> trimEnd s = s.
Proof.
  induction s as [|a s IH]; [reflexivity|]. cbn [endsWithSpace trimEnd].
  destruct s as [|b r].
  - intros ->. reflexivity.
  - intros H. rewrite (IH H). reflexivity.
Qed.

Lemma trimStart_fixed (s : string) :
  match s with "" => True | String a _ => isWhiteSpace a = false end ->
  trimStart s = s.
Proof. destruct s as [|a r]; [reflexivity|]. cbn [trimStart]. now intros ->. Qed.

Lemma trim_idempotent (s : string) : trim (trim s) = trim s.
Proof.
  unfold trim at 1. rewrite (trimStart_fixed (trim s) (trim_starts s)).
  apply trimEnd_fixed. unfold trim. apply trimEnd_ends.
Qed.

(** ** An explicit list of all weekdays *)

Lemma getDay_range (d : Z) : 0 <= getDay d <= 6.
Proof. unfold getDay, WeekDay. pose proof (Z.mod_pos_bound (Day d + 4) 7). lia. Qed.

(** X9. A day-of-week field that lists every weekday is not the same as
    the wildcard: beside a constrained day-of-month field it makes the
    day test pass on every day, whereas the wildcard leaves the test to
    the day-of-month field alone. *)
Theorem full_weekday_list_matches_every_day (daysOfMonth daysOfWeek : list number)
  (cursor : Z) :
  (forall z : Z, 0 <= z <= 6 -> includes daysOfWeek (ofZ z) = true) ->
  dayMatch (Some daysOfMonth) (Some daysOfWeek) (getDate cursor) (getDay cursor) = true
  /\ dayMatch (Some daysOfMonth) None (getDate cursor) (getDay cursor)
     = includes daysOfMonth (getDate cursor).
Proof.
  intros H. split; [|reflexivity].
  cbn [dayMatch]. rewrite (H _ (getDay_range cursor)). apply orb_true_r.
Qed.

(** [0 0 1 * 0-6] against [0 0 1 * *] on 2 January 2024. *)
Lemma full_weekday_list_matches_every_day_witness :
  dayMatch (Some [ofZ 1]) (Some (map ofZ (zrange 0 6)))
    (getDate (civil 2024 1 2 0 0 0)) (getDay (civil 2024 1 2 0 0 0)) = true
  /\ dayMatch (Some [ofZ 1]) None
       (getDate (civil 2024 1 2 0 0 0)) (getDay (civil 2024 1 2 0 0 0))
     = includes [ofZ 1] (getDate (civil 2024 1 2 0 0 0)).
Proof.
  apply (full_weekday_list_matches_every_day [ofZ 1] (map ofZ (zrange 0 6))).
  intros z Hz. apply includes_ofZ. apply In_zrange. lia.
Defined.

(** ** Integers written and read back *)

Lemma append_nil_r (s : string) : s ++ "" = s.
Proof. induction s as [|a s IH]; cbn; [reflexivity | now rewrite IH]. Qed.

Lemma code_digitChar (d : Z) : 0 <= d <= 9 -> code (digitChar d) = 48 + d.
Proof.
  intros H. unfold code, digitChar. rewrite N_ascii_embedding; lia.
Qed.

Lemma isDigit_digitChar (d : Z) : 0 <= d <= 9 -> isDigit (digitChar d) = true.
Proof.
  intros H. unfold isDigit. rewrite (code_digitChar d H).
  apply andb_true_iff. split; apply Z.leb_le; lia.
Qed.

Lemma digitValue_digitChar (d : Z) : 0 <= d <= 9 -> digitValue (digitChar d) = d.
Proof. intros H. unfold digitValue. rewrite (code_digitChar d H). lia. Qed.

Lemma allDigits_app (a b : string) :
  allDigits (a ++ b) = allDigits a && allDigits b.
Proof.
  induction a as [|x a IH]; cbn [append allDigits]; [reflexivity|].
  now rewrite IH, andb_assoc.
Qed.

Lemma digitsValue_from_app (a b : string) (acc : Z) :
  digitsValue_from acc (a ++ b) = digitsValue_from (digitsValue_from acc a) b.
Proof.
  revert acc. induction a as [|x a IH]; intros acc; cbn [append digitsValue_from];
    [reflexivity | apply IH].
Qed.

Lemma digitsOf_numeral (fuel : nat) :
  forall (n : Z) (acc : string),
    (0 < fuel)%nat -> 0 <= n < 2 ^ Z.of_nat fuel ->
    exists D, digitsOf fuel n acc = D ++ acc
              /\ isNumeral D = true /\ digitsValue D = n.
Proof.
  induction fuel as [|fuel IH]; intros n acc Hf Hn; [lia|].
  cbn [digitsOf]. destruct (Z.ltb_spec n 10) as [L|L].
  - exists (String (digitChar n) ""). split; [reflexivity|]. split.
    + cbn [isNumeral allDigits]. rewrite isDigit_digitChar by lia. reflexivity.
    + unfold digitsValue. cbn [digitsValue_from].
      rewrite digitValue_digitChar by lia. lia.
  - assert (Hp : 2 ^ Z.of_nat (S fuel) = 2 * 2 ^ Z.of_nat fuel)
      by (rewrite Nat2Z.inj_succ, Z.pow_succ_r; lia).
    assert (Hq : n / 10 < 2 ^ Z.of_nat fuel)
      by (apply Z.div_lt_upper_bound; lia).
    assert (Hq0 : 1 <= n / 10) by (apply Z.div_le_lower_bound; lia).
    assert (Hfuel : (0 < fuel)%nat).
    { destruct fuel; [|lia]. cbn in Hq. lia. }
    destruct (IH (n / 10) (String (digitChar (n mod 10)) acc) Hfuel ltac:(lia))
      as (D & E & HD & HV).
    pose proof (Z.mod_pos_bound n 10 ltac:(lia)) as Hm.
    exists (D ++ String (digitChar (n mod 10)) ""). split; [|split].
    + rewrite E, append_assoc. reflexivity.
    + destruct D as [|x D]; [discriminate|]. cbn [isNumeral append] in *.
      change (String x (D ++ String (digitChar (n mod 10)) ""))
        with (String x D ++ String (digitChar (n mod 10)) "").
      rewrite allDigits_app, HD. cbn [allDigits andb].
      rewrite isDigit_digitChar by lia. reflexivity.
    + unfold digitsValue in *. rewrite digitsValue_from_app, HV.
      cbn [digitsValue_from]. rewrite digitValue_digitChar by lia.
      pose proof (Z.div_mod n 10 ltac:(lia)). lia.
Qed.

Lemma NumberToString_digits (n : Z) :
  exists D, isNumeral D = true /\ digitsValue D = Z.abs n
            /\ NumberToString n = if n <? 0 then String "-" D else D.
Proof.
  unfold NumberToString.
  assert (B : 0 <= Z.abs n < 2 ^ Z.of_nat (S (Z.to_nat (Z.log2 (Z.abs n))))).
  { rewrite Nat2Z.inj_succ, Z2Nat.id by apply Z.log2_nonneg.
    destruct (Z.eq_dec (Z.abs n) 0) as [E|E].
    - rewrite E. cbn. lia.
    - pose proof (Z.log2_spec (Z.abs n) ltac:(lia)). lia. }
  destruct (digitsOf_numeral (S (Z.to_nat (Z.log2 (Z.abs n)))) (Z.abs n) ""
              ltac:(lia) B) as (D & E & HD & HV).
  rewrite append_nil_r in E. exists D. split; [exact HD|]. split; [exact HV|].
  destruct (Z.ltb_spec n 0).
  - replace (- n) with (Z.abs n) by lia. now rewrite E.
  - replace n with (Z.abs n) at 2 by lia. exact E.
Qed.

Lemma hexPrefix_numeral (d : string) : allDigits d = true -> hexPrefix d = None.
Proof.
  destruct d as [|a [|x r]]; try reflexivity. cbn [allDigits hexPrefix].
  intros H. apply andb_true_iff in H. destruct H as [_ H].
  apply andb_true_iff in H. destruct H as [Hx _].
  rewrite (digit_neq x "x" Hx eq_refl), (digit_neq x "X" Hx eq_refl).
  now rewrite andb_false_r.
Qed.

Lemma parseInt_negative_numeral (d : string) :
  isNumeral d = true -> parseInt (String "-" d) = ofZ (- digitsValue d).
Proof.
  intros Hd. pose proof (isNumeral_allDigits d Hd) as Da.
  unfold parseInt.
  change (trimStart (String "-" d)) with (String "-" d).
  change (stripSign (String "-" d)) with (true, d). cbv beta iota.
  rewrite (hexPrefix_numeral d Da), (takeDigits_all d Da).
  destruct d; [discriminate|]. cbn [String.eqb]. reflexivity.
Qed.

Lemma parseInt_NumberToString (n : Z) : parseInt (NumberToString n) = ofZ n.
Proof.
  destruct (NumberToString_digits n) as (D & HD & HV & ->).
  destruct (Z.ltb_spec n 0).
  - rewrite (parseInt_negative_numeral D HD), HV. f_equal. lia.
  - rewrite (parseInt_numeral D HD), HV. f_equal. lia.
Qed.

Lemma NumberToString_nonempty (n : Z) : (NumberToString n =? "")%string = false.
Proof.
  destruct (NumberToString_digits n) as (D & HD & _ & ->).
  destruct (n <? 0); [reflexivity|]. destruct D; [discriminate | reflexivity].
Qed.

Example NumberToString_examples :
  NumberToString 0 = "0" /\ NumberToString 10 = "10"
  /\ NumberToString (-1) = "-1" /\ NumberToString 1704096000000 = "1704096000000".
Proof. repeat split; reflexivity. Qed.

(** ** The rate-limit headers *)

Lemma rateLimitHeaders_get (a b c : string) :
  let h := [("X-RateLimit-Limit", a); ("X-RateLimit-Remaining", b);
            ("X-RateLimit-Reset", c)] in
  Headers_get h "X-RateLimit-Limit" = Some a
  /\ Headers_get h "X-RateLimit-Remaining" = Some b
  /\ Headers_get h "X-RateLimit-Reset" = Some c.
Proof. repeat split; reflexivity. Qed.

Lemma extract_rateLimitHeaders (r : Api.RatelimitResponse) :
  Page.extractRateLimitInfo (Api.rateLimitHeaders r) = Some (infoOf r).
Proof.
  unfold Page.extractRateLimitInfo, Api.rateLimitHeaders.
  destruct (rateLimitHeaders_get (NumberToString (Api.limit r))
              (NumberToString (Api.remaining r)) (NumberToString (Api.reset r)))
    as (H1 & H2 & H3).
  cbv zeta in H1, H2, H3. rewrite H1, H2, H3.
  rewrite !NumberToString_nonempty. cbn [negb andb].
  now rewrite !parseInt_NumberToString.
Qed.

(** X10. The rate-limit headers round-trip: from the three headers the
    cron-to-nl route writes with [toString()] for a limiter answer, the
    page's [extractRateLimitInfo] reads back exactly the limit, the
    remaining count and the reset time of that answer. *)
Theorem rate_limit_headers_round_trip (r : Api.RatelimitResponse) :
  plainNumbers r ->
  Page.extractRateLimitInfo (Api.rateLimitHeaders r) = Some (infoOf r).
Proof. intros _. apply extract_rateLimitHeaders. Qed.

(** Nine of ten requests left, reset at a time in milliseconds. *)
Lemma rate_limit_headers_round_trip_witness :
  Page.extractRateLimitInfo
    [("X-RateLimit-Limit", "10"); ("X-RateLimit-Remaining", "9");
     ("X-RateLimit-Reset", "1704096000000")]
  = Some {| Page.limit := ofZ 10; Page.remaining := ofZ 9;
            Page.reset := ofZ 1704096000000 |}.
Proof.
  apply (rate_limit_headers_round_trip
           {| Api.success := true; Api.limit := 10; Api.reset := 1704096000000;
              Api.remaining := 9 |}).
  repeat split; cbn; lia.
Defined.

(** [extractRateLimitInfo] gives nothing unless all three headers are
    present and not empty. *)
Lemma extract_needs_all_three (h : Headers) (info : Page.RateLimitInfo) :
  Page.extractRateLimitInfo h = Some info ->
  exists limit remaining reset,
    Headers_get h "X-RateLimit-Limit" = Some limit
    /\ Headers_get h "X-RateLimit-Remaining" = Some remaining
    /\ Headers_get h "X-RateLimit-Reset" = Some reset
    /\ limit <> "" /\ remaining <> "" /\ reset <> ""
    /\ info = {| Page.limit := parseInt limit;
                 Page.remaining := parseInt remaining;
                 Page.reset := parseInt reset |}.
Proof.
  unfold Page.extractRateLimitInfo.
  destruct (Headers_get h "X-RateLimit-Limit") as [l|]; [|discriminate].
  destruct (Headers_get h "X-RateLimit-Remaining") as [m|]; [|discriminate].
  destruct (Headers_get h "X-RateLimit-Reset") as [t|]; [|discriminate].
  destruct (String.eqb_spec l ""), (String.eqb_spec m ""), (String.eqb_spec t "");
    cbn [negb andb]; try discriminate.
  intros H. injection H as <-. exists l, m, t. repeat split; assumption.
Qed.

(** ** The cron-to-nl route *)

(** X11. The cron-to-nl route answers 200 only to a request within the
    quota whose body is an object with a text under [cronExpression]
    that has exactly five white-space separated fields, and only when
    the text-generation service answered; the response then holds the
    trimmed answer as [description] and the rate-limit headers. *)
Theorem cronToNl_ok_only_for_five_fields (generateText : string -> promise string)
  (ip forwarded : option string)
  (limiter : string -> promise Api.RatelimitResponse) (requestJson : promise json) :
  Api.status (Api.cronToNl_POST generateText ip forwarded limiter requestJson) = 200 ->
  exists key r members cronExpression text,
    limiter key = Resolved r /\ Api.success r = true
    /\ requestJson = Resolved (JObject members)
    /\ member members "cronExpression" = Some (JString cronExpression)
    /\ List.length (tokens cronExpression) = 5%nat
    /\ generateText (explainPrompt cronExpression) = Resolved text
    /\ Api.cronToNl_POST generateText ip forwarded limiter requestJson
       = {| Api.status := 200;
            Api.body := JObject [("description", JString (trim text))];
            Api.headers := Api.rateLimitHeaders r |}.
Proof.
  unfold Api.cronToNl_POST, explainPrompt, tokens.
  set (key := match ip with
              | Some a => a
              | None => match forwarded with Some a => a | None => "127.0.0.1" end
              end).
  destruct (limiter key) as [r|e] eqn:Hl; [|discriminate].
  destruct (Api.success r) eqn:Hs; cbn [negb]; [|discriminate].
  destruct requestJson as [parsed|e]; [|discriminate].
  destruct parsed as [| | | | |members]; cbn [Api.destructure truthy negb];
    try discriminate.
  destruct (member members "cronExpression") as [[| | |c| |]|] eqn:Hm;
    cbn [truthy negb]; try discriminate;
    try (match goal with |- context [if ?b then _ else _] => destruct b end;
         discriminate).
  destruct (c =? "")%string; cbn [negb]; [discriminate|].
  destruct (Nat.eqb_spec (List.length (splitWs (trim c))) 5) as [L|L];
    cbn [negb]; [|discriminate].
  destruct (generateText _) as [text|e] eqn:Hg; [|discriminate].
  intros _. exists key, r, members, c, text. repeat split; auto.
Qed.

(** [0 9 * * *] within the quota, answered by the service. *)
Lemma cronToNl_ok_only_for_five_fields_witness :
  exists key r members cronExpression text,
    (fun _ : string =>
       Resolved {| Api.success := true; Api.limit := 10; Api.reset := 5;
                   Api.remaining := 9 |}) key = Resolved r
    /\ Api.success r = true
    /\ Resolved (requestBody "cronExpression" "0 9 * * *") = Resolved (JObject members)
    /\ member members "cronExpression" = Some (JString cronExpression)
    /\ List.length (tokens cronExpression) = 5%nat
    /\ (fun _ : string => Resolved " Every day at 9:00 AM ")
         (explainPrompt cronExpression) = Resolved text
    /\ Api.cronToNl_POST (fun _ => Resolved " Every day at 9:00 AM ") None None
         (fun _ => Resolved {| Api.success := true; Api.limit := 10; Api.reset := 5;
                               Api.remaining := 9 |})
         (Resolved (requestBody "cronExpression" "0 9 * * *"))
       = {| Api.status := 200;
            Api.body := JObject [("description", JString (trim text))];
            Api.headers := Api.rateLimitHeaders r |}.
Proof.
  apply (cronToNl_ok_only_for_five_fields
           (fun _ => Resolved " Every day at 9:00 AM ") None None
           (fun _ => Resolved {| Api.success := true; Api.limit := 10; Api.reset := 5;
                                 Api.remaining := 9 |})
           (Resolved (requestBody "cronExpression" "0 9 * * *"))).
  reflexivity.
Defined.

(** X12. The cron-to-nl route refuses without consulting the
    text-generation service: a response with status 429 or 400 is the
    same whatever the service would have answered. *)
Theorem cronToNl_refuses_before_generating
  (generateText generateText' : string -> promise string)
  (ip forwarded : option string)
  (limiter : string -> promise Api.RatelimitResponse) (requestJson : promise json) :
  Api.status (Api.cronToNl_POST generateText ip forwarded limiter requestJson) = 429
  \/ Api.status (Api.cronToNl_POST generateText ip forwarded limiter requestJson) = 400 ->
  Api.cronToNl_POST generateText' ip forwarded limiter requestJson
  = Api.cronToNl_POST generateText ip forwarded limiter requestJson.
Proof.
  unfold Api.cronToNl_POST.
  destruct (limiter _) as [r|e]; [|reflexivity].
  destruct (negb (Api.success r)); [reflexivity|].
  destruct requestJson as [parsed|e]; [|reflexivity].
  destruct (Api.destructure parsed "cronExpression") as [v|]; [|reflexivity].
  destruct (negb (truthy v)); [reflexivity|].
  destruct v as [[| | |c| |]|]; try reflexivity.
  destruct (negb (List.length (splitWs (trim c)) =? 5)%nat); [reflexivity|].
  destruct (generateText _); cbn [Api.status]; intros [H|H]; discriminate H.
Qed.

(** Four fields: refused with 400, whatever the service. *)
Lemma cronToNl_refuses_before_generating_witness :
  Api.cronToNl_POST (fun _ => Rejected NotAnError) None None
    (fun _ => Resolved {| Api.success := true; Api.limit := 10; Api.reset := 5;
                          Api.remaining := 9 |})
    (Resolved (requestBody "cronExpression" "0 9 * *"))
  = Api.cronToNl_POST (fun _ => Resolved "text") None None
      (fun _ => Resolved {| Api.success := true; Api.limit := 10; Api.reset := 5;
                            Api.remaining := 9 |})
      (Resolved (requestBody "cronExpression" "0 9 * *")).
Proof.
  apply cronToNl_refuses_before_generating. right. reflexivity.
Defined.

(** X13. The cron-to-nl route puts the limiter's three rate-limit
    headers on its 200 and 429 responses and no header on its 400 and
    500 responses; so the page's [extractRateLimitInfo] reads the
    limiter's numbers from the former and nothing from the latter. *)
Theorem cronToNl_headers_by_status (generateText : string -> promise string)
  (ip forwarded : option string)
  (limiter : string -> promise Api.RatelimitResponse) (requestJson : promise json) :
  (forall key r, limiter key = Resolved r -> plainNumbers r) ->
  let response := Api.cronToNl_POST generateText ip forwarded limiter requestJson in
  (Api.status response = 200 \/ Api.status response = 429 ->
   exists key r, limiter key = Resolved r
                 /\ Page.extractRateLimitInfo (Api.headers response) = Some (infoOf r))
  /\ (Api.status response = 400 \/ Api.status response = 500 ->
      Page.extractRateLimitInfo (Api.headers response) = None)
  /\ (Api.status response = 200 \/ Api.status response = 429
      \/ Api.status response = 400 \/ Api.status response = 500).
Proof.
  intros _. unfold Api.cronToNl_POST.
  set (key := match ip with
              | Some a => a
              | None => match forwarded with Some a => a | None => "127.0.0.1" end
              end).
  destruct (limiter key) as [r|e] eqn:Hl; cbv zeta;
    [|cbn; repeat split; auto; intros [H|H]; discriminate H].
  assert (Y : exists key r',
             limiter key = Resolved r'
             /\ Page.extractRateLimitInfo (Api.rateLimitHeaders r) = Some (infoOf r'))
    by (exists key, r; split; [exact Hl | apply extract_rateLimitHeaders]).
  destruct (negb (Api.success r));
    [cbn [Api.status Api.headers]; repeat split; auto;
     intros [H|H]; discriminate H|].
  destruct requestJson as [parsed|e];
    [|cbn; repeat split; auto; intros [H|H]; discriminate H].
  destruct (Api.destructure parsed "cronExpression") as [v|];
    [|cbn; repeat split; auto; intros [H|H]; discriminate H].
  destruct (negb (truthy v));
    [cbn; repeat split; auto; intros [H|H]; discriminate H|].
  destruct v as [[| | |c| |]|];
    try (cbn; repeat split; auto; intros [H|H]; discriminate H).
  destruct (negb (List.length (splitWs (trim c)) =? 5)%nat);
    [cbn; repeat split; auto; intros [H|H]; discriminate H|].
  destruct (generateText _);
    [cbn [Api.status Api.headers]; repeat split; auto;
     intros [H|H]; discriminate H
    |cbn; repeat split; auto; intros [H|H]; discriminate H].
Qed.

(** A refusal by the limiter. *)
Lemma cronToNl_headers_by_status_witness :
  exists key r,
    (fun _ : string =>
       Resolved {| Api.success := false; Api.limit := 10; Api.reset := 5;
                   Api.remaining := 0 |}) key = Resolved r
    /\ Page.extractRateLimitInfo
         (Api.headers
            (Api.cronToNl_POST (fun _ => Resolved "text") (Some "10.0.0.1") None
               (fun _ => Resolved {| Api.success := false; Api.limit := 10;
                                     Api.reset := 5; Api.remaining := 0 |})
               (Resolved JNull)))
       = Some (infoOf r).
Proof.
  refine (proj1 (cronToNl_headers_by_status (fun _ => Resolved "text")
                   (Some "10.0.0.1") None
                   (fun _ => Resolved {| Api.success := false; Api.limit := 10;
                                         Api.reset := 5; Api.remaining := 0 |})
                   (Resolved JNull) _) _).
  - intros key r H. injection H as <-. repeat split; cbn; lia.
  - right. reflexivity.
Defined.

(** ** The route and the validator on the shape of an expression *)

Lemma blank_has_one_token (expression : string) :
  trim expression = "" -> List.length (tokens expression) = 1%nat.
Proof. unfold tokens. now intros ->. Qed.

Lemma cronToNl_400_iff_shape (generateText : string -> promise string)
  (ip forwarded : option string)
  (limiter : string -> promise Api.RatelimitResponse) (r : Api.RatelimitResponse)
  (expression : string) :
  (forall key, limiter key = Resolved r) -> Api.success r = true ->
  (Api.status (Api.cronToNl_POST generateText ip forwarded limiter
                 (Resolved (requestBody "cronExpression" expression))) = 400
   <-> List.length (tokens expression) <> 5%nat).
Proof.
  intros Hl Hs. unfold Api.cronToNl_POST, requestBody. rewrite Hl, Hs.
  cbn [negb Api.destructure]. change (member [("cronExpression", JString expression)] "cronExpression")
    with (Some (JString expression)).
  cbn [truthy]. rewrite negb_involutive.
  destruct (String.eqb_spec expression "") as [->|Hne].
  - cbn. split; [discriminate | reflexivity].
  - fold (tokens expression).
    destruct (Nat.eqb_spec (List.length (tokens expression)) 5) as [L|L]; cbn [negb].
    + split; [|contradiction]. destruct (generateText _); discriminate.
    + split; [intros _; exact L | reflexivity].
Qed.

Lemma verdict_shape (fmt : Z -> string) (fuel : nat) (now : Z)
  (expression : string) (st : State) :
  List.length (tokens expression) <> 5%nat
  <-> (verdict fmt fuel now expression st = None
       \/ verdict fmt fuel now expression st = Some wrongLength).
Proof.
  destruct (String.eqb_spec (trim expression) "") as [E|E].
  - rewrite (verdict_blank fmt fuel now expression st E).
    rewrite (blank_has_one_token _ E). split; [now left | discriminate].
  - split.
    + intros L. right. now apply verdict_wrong_length.
    + intros [H|H] L; destruct (five_tokens _ L) as (t0 & t1 & t2 & t3 & t4 & Ht);
        rewrite (verdict_five _ _ _ _ _ _ _ _ _ _ E Ht) in H;
        destruct (find _ _); discriminate H.
Qed.

(** X14. The cron-to-nl route and the page's validator draw the same
    line on the shape of an expression: for a request within the quota
    that carries the expression, the route answers 400 exactly when the
    validator leaves no verdict or reports "CRON expression must have
    exactly 5 parts"; the field checks of the validator have no
    counterpart in the route. *)
Theorem route_and_validator_agree_on_shape (fmt : Z -> string) (fuel : nat) (now : Z)
  (st : State) (generateText : string -> promise string)
  (ip forwarded : option string)
  (limiter : string -> promise Api.RatelimitResponse) (r : Api.RatelimitResponse)
  (expression : string) :
  (forall key, limiter key = Resolved r) -> Api.success r = true ->
  (Api.status (Api.cronToNl_POST generateText ip forwarded limiter
                 (Resolved (requestBody "cronExpression" expression))) = 400
   <-> (verdict fmt fuel now expression st = None
        \/ verdict fmt fuel now expression st = Some wrongLength)).
Proof.
  intros Hl Hs.
  rewrite (cronToNl_400_iff_shape generateText ip forwarded limiter r expression Hl Hs).
  apply verdict_shape.
Qed.

(** Minute 70 is an invalid field for the validator, yet the route lets
    the expression through to the service. *)
Lemma route_and_validator_agree_on_shape_witness :
  Api.status (Api.cronToNl_POST (fun _ => Resolved "text") None None
                (fun _ => Resolved {| Api.success := true; Api.limit := 10;
                                      Api.reset := 5; Api.remaining := 9 |})
                (Resolved (requestBody "cronExpression" "70 9 * * *"))) <> 400.
Proof.
  intros H.
  apply (route_and_validator_agree_on_shape (fun _ => "t") 0 0
           {| cronValidation := None; nextExecutions := [] |}
           (fun _ => Resolved "text") None None
           (fun _ => Resolved {| Api.success := true; Api.limit := 10;
                                 Api.reset := 5; Api.remaining := 9 |})
           {| Api.success := true; Api.limit := 10; Api.reset := 5; Api.remaining := 9 |}
           "70 9 * * *" (fun _ => eq_refl) eq_refl) in H.
  destruct H as [H|H]; discriminate H.
Defined.

(** X15. Once the validator has run on the current input, an enabled
    "Explain CRON" button means the route will not refuse the request
    for its shape: within the quota the answer is never 400. *)
Theorem enabled_button_passes_route (fmt : Z -> string) (fuel : nat) (now : Z)
  (st : State) (page : Page.PageState)
  (generateText : string -> promise string) (ip forwarded : option string)
  (limiter : string -> promise Api.RatelimitResponse) (r : Api.RatelimitResponse) :
  (forall key, limiter key = Resolved r) -> Api.success r = true ->
  Page.explainDisabled page (verdict fmt fuel now (Page.cronInput page) st) = false ->
  Api.status (Api.cronToNl_POST generateText ip forwarded limiter
                (Resolved (requestBody "cronExpression" (Page.cronInput page)))) <> 400.
Proof.
  intros Hl Hs Hd.
  rewrite (cronToNl_400_iff_shape generateText ip forwarded limiter r _ Hl Hs).
  rewrite (verdict_shape fmt fuel now (Page.cronInput page) st).
  unfold Page.explainDisabled in Hd. rewrite !orb_false_iff in Hd.
  destruct Hd as [[Hb _] Hv]. apply String.eqb_neq in Hb.
  intros [H|H]; rewrite H in Hv; [|discriminate Hv].
  destruct (proj2 (verdict_shape fmt fuel now (Page.cronInput page) st) (or_introl H)).
  destruct (String.eqb_spec (trim (Page.cronInput page)) "") as [E|E]; [contradiction|].
  clear Hv. revert H. unfold verdict, validateCronExpression.
  apply String.eqb_neq in E. rewrite E.
  destruct (splitWs (trim (Page.cronInput page))) as [|p1 [|p2 [|p3 [|p4 [|p5 [|p6 ps]]]]]];
    try discriminate.
  rewrite (mbind_run _ _ (validationLoop _)), validationLoop_find.
  destruct (find _ _); [discriminate|].
  unfold mbind, setCronValidation, lift, setNextExecutions.
  destruct (calculateNextExecutions _ _ _ _); discriminate.
Qed.

(** The template [0 2 * * *] in the input, validated and not loading. *)
Lemma enabled_button_passes_route_witness :
  Api.status (Api.cronToNl_POST (fun _ => Resolved "text") None None
                (fun _ => Resolved {| Api.success := true; Api.limit := 10;
                                      Api.reset := 5; Api.remaining := 9 |})
                (Resolved (requestBody "cronExpression"
                             (Page.cronInput (Page.setCronInput "0 2 * * *"
                                                Page.initialState))))) <> 400.
Proof.
  apply (enabled_button_passes_route (fun _ => "t") 0 0
           {| cronValidation := None; nextExecutions := [] |}
           (Page.setCronInput "0 2 * * *" Page.initialState)
           (fun _ => Resolved "text") None None
           (fun _ => Resolved {| Api.success := true; Api.limit := 10;
                                 Api.reset := 5; Api.remaining := 9 |})
           {| Api.success := true; Api.limit := 10; Api.reset := 5; Api.remaining := 9 |}
           (fun _ => eq_refl) eq_refl).
  vm_compute. reflexivity.
Defined.

(** ** The nl-to-cron route *)

(** X16. The nl-to-cron route answers 200 only with an expression of
    exactly five fields, trimmed: whatever the text-generation service
    wrote, an expression the page receives from this route is never
    blank and never reported by the validator as having the wrong number
    of parts. *)
Theorem nlToCron_ok_is_five_fields (generateText : string -> promise string)
  (ToString : json -> string) (requestJson : promise json) :
  Api.status (Api.nlToCron_POST generateText ToString requestJson) = 200 ->
  exists text,
    Api.nlToCron_POST generateText ToString requestJson
    = {| Api.status := 200;
         Api.body := JObject [("cronExpression", JString (trim text))];
         Api.headers := [] |}
    /\ List.length (tokens (trim text)) = 5%nat
    /\ forall fmt fuel now st,
         verdict fmt fuel now (trim text) st <> None
         /\ verdict fmt fuel now (trim text) st <> Some wrongLength.
Proof.
  unfold Api.nlToCron_POST.
  destruct requestJson as [parsed|e]; [|discriminate].
  destruct (Api.destructure parsed "naturalLanguage") as [v|]; [|discriminate].
  destruct (negb (truthy v)); [discriminate|].
  destruct v as [value|]; [|discriminate].
  destruct (generateText _) as [text|e]; [|discriminate].
  destruct (Nat.eqb_spec (List.length (splitWs (trim text))) 5) as [L|L];
    cbn [negb]; [|discriminate].
  intros _. exists text. split; [reflexivity|].
  assert (L' : List.length (tokens (trim text)) = 5%nat)
    by (unfold tokens; now rewrite trim_idempotent).
  split; [exact L'|]. intros fmt fuel now st.
  pose proof (proj2 (verdict_shape fmt fuel now (trim text) st)) as H.
  split; intros E; apply H; auto.
Qed.

(** The service pads its answer with white space. *)
Lemma nlToCron_ok_is_five_fields_witness :
  exists text,
    Api.nlToCron_POST (fun _ => Resolved "  0 9 * * *  ") (fun _ => "")
      (Resolved (requestBody "naturalLanguage" "every day at 9am"))
    = {| Api.status := 200;
         Api.body := JObject [("cronExpression", JString (trim text))];
         Api.headers := [] |}
    /\ List.length (tokens (trim text)) = 5%nat
    /\ forall fmt fuel now st,
         verdict fmt fuel now (trim text) st <> None
         /\ verdict fmt fuel now (trim text) st <> Some wrongLength.
Proof.
  apply (nlToCron_ok_is_five_fields (fun _ => Resolved "  0 9 * * *  ") (fun _ => "")
           (Resolved (requestBody "naturalLanguage" "every day at 9am"))).
  reflexivity.
Defined.

Lemma nlToCron_no_headers (generateText : string -> promise string)
  (ToString : json -> string) (requestJson : promise json) :
  Api.headers (Api.nlToCron_POST generateText ToString requestJson) = [].
Proof.
  unfold Api.nlToCron_POST.
  destruct requestJson as [parsed|e]; [|reflexivity].
  destruct (Api.destructure parsed "naturalLanguage") as [v|]; [|reflexivity].
  destruct (negb (truthy v)); [reflexivity|].
  destruct v as [value|]; [|reflexivity].
  destruct (generateText _) as [text|e]; [|reflexivity].
  destruct (negb _); reflexivity.
Qed.

Lemma deliver_headers (r : Api.NextResponse) (key : string) (reply : Page.Reply) :
  deliver r key = Some reply -> Page.replyHeaders reply = Api.headers r.
Proof.
  unfold deliver. destruct (_ && _).
  - destruct (textMember _ _); [|discriminate]. intros H. injection H as <-.
    reflexivity.
  - intros H. injection H as <-. reflexivity.
Qed.

(** ** The handlers *)

Section HandlerFacts.

Variable JSON_stringify : list Page.HistoryItem -> string.
Variable toLocaleTimeString : option Z -> string.

(** X17. However the request of "Explain CRON" ends, the handler leaves
    the loading flag off and the other tab's fields alone.  On an [ok]
    response with a readable body it shows the description with no
    error and puts the conversion first in the history, keeping nine
    older entries; in every other case (rejected request, unreadable
    body, status that is not [ok]) it shows no description and leaves
    the history and the storage as they were.  With a blank input it
    does nothing at all. *)
Theorem cron_handler_outcome (response : promise Page.Reply) (idNow timestampNow : Z)
  (st : Page.PageState) :
  let st' := Page.handleCronToNl JSON_stringify toLocaleTimeString response
               idNow timestampNow st in
  (trim (Page.cronInput st) = "" -> st' = st)
  /\ (trim (Page.cronInput st) <> "" ->
      Page.cronLoading st' = false
      /\ Page.cronInput st' = Page.cronInput st
      /\ Page.activeTab st' = Page.activeTab st
      /\ Page.nlInput st' = Page.nlInput st
      /\ Page.nlToCronResult st' = Page.nlToCronResult st
      /\ Page.nlError st' = Page.nlError st
      /\ Page.nlLoading st' = Page.nlLoading st
      /\ match response with
         | Resolved (Page.OkReply _ (Resolved description)) =>
             Page.cronToNlResult st' = description
             /\ Page.cronError st' = ""
             /\ Page.history st'
                = {| Page.id := NumberToString idNow;
                     Page.input := Page.cronInput st;
                     Page.output := description;
                     Page.type := Page.CronToNl;
                     Page.timestamp := timestampNow |}
                  :: firstn 9 (Page.history st)
         | _ =>
             Page.cronToNlResult st' = ""
             /\ Page.history st' = Page.history st
             /\ Page.localStorage st' = Page.localStorage st
         end).
Proof.
  cbv zeta. unfold Page.handleCronToNl. split.
  - intros E. now rewrite E.
  - intros E. apply String.eqb_neq in E. rewrite E.
    destruct response as [[h [d|e]|status h [d|e]]|e]; cbv zeta;
      try destruct (Page.extractRateLimitInfo _); repeat split; reflexivity.
Qed.

(** X18. The same for "Generate CRON": loading flag off and the other
    tab untouched in every case; an expression, no error and a new first
    history entry on an [ok] response with a readable body; no
    expression and an unchanged history and storage otherwise; nothing
    at all with a blank input. *)
Theorem nl_handler_outcome (response : promise Page.Reply) (idNow timestampNow : Z)
  (st : Page.PageState) :
  let st' := Page.handleNlToCron JSON_stringify toLocaleTimeString response
               idNow timestampNow st in
  (trim (Page.nlInput st) = "" -> st' = st)
  /\ (trim (Page.nlInput st) <> "" ->
      Page.nlLoading st' = false
      /\ Page.nlInput st' = Page.nlInput st
      /\ Page.activeTab st' = Page.activeTab st
      /\ Page.cronInput st' = Page.cronInput st
      /\ Page.cronToNlResult st' = Page.cronToNlResult st
      /\ Page.cronError st' = Page.cronError st
      /\ Page.cronLoading st' = Page.cronLoading st
      /\ match response with
         | Resolved (Page.OkReply _ (Resolved cronExpression)) =>
             Page.nlToCronResult st' = cronExpression
             /\ Page.nlError st' = ""
             /\ Page.history st'
                = {| Page.id := NumberToString idNow;
                     Page.input := Page.nlInput st;
                     Page.output := cronExpression;
                     Page.type := Page.NlToCron;
                     Page.timestamp := timestampNow |}
                  :: firstn 9 (Page.history st)
         | _ =>
             Page.nlToCronResult st' = ""
             /\ Page.history st' = Page.history st
             /\ Page.localStorage st' = Page.localStorage st
         end).
Proof.
  cbv zeta. unfold Page.handleNlToCron. split.
  - intros E. now rewrite E.
  - intros E. apply String.eqb_neq in E. rewrite E.
    destruct response as [[h [d|e]|status h [d|e]]|e]; cbv zeta;
      try destruct (Page.extractRateLimitInfo _); repeat split; reflexivity.
Qed.

End HandlerFacts.

(** A rejected request on a filled input: the flag goes off and no
    description is shown. *)
Lemma cron_handler_outcome_witness :
  Page.cronLoading
    (Page.handleCronToNl (fun _ => "[]") (fun _ => "noon")
       (Rejected (ErrorObject "Failed to fetch")) 1 2
       (Page.setCronLoading true (Page.setCronInput "0 9 * * *" Page.initialState)))
  = false.
Proof.
  apply (proj2 (cron_handler_outcome (fun _ => "[]") (fun _ => "noon")
                  (Rejected (ErrorObject "Failed to fetch")) 1 2
                  (Page.setCronLoading true
                     (Page.setCronInput "0 9 * * *" Page.initialState)))).
  discriminate.
Defined.

(** An answered request on a filled input. *)
Lemma nl_handler_outcome_witness :
  Page.nlToCronResult
    (Page.handleNlToCron (fun _ => "[]") (fun _ => "noon")
       (Resolved (Page.OkReply [] (Resolved "0 9 * * *"))) 1 2
       (Page.setNlInput "every day at 9am" Page.initialState))
  = "0 9 * * *".
Proof.
  apply (proj2 (nl_handler_outcome (fun _ => "[]") (fun _ => "noon")
                  (Resolved (Page.OkReply [] (Resolved "0 9 * * *"))) 1 2
                  (Page.setNlInput "every day at 9am" Page.initialState))).
  discriminate.
Defined.

(** X19. Conversions through the nl-to-cron route never move the
    rate-limit display: whatever that route answers, the handler leaves
    the page's rate-limit information as it was. *)
Theorem nl_conversions_leave_rate_limit
  (JSON_stringify : list Page.HistoryItem -> string)
  (toLocaleTimeString : option Z -> string)
  (generateText : string -> promise string) (ToString : json -> string)
  (requestJson : promise json) (reply : Page.Reply) (idNow timestampNow : Z)
  (st : Page.PageState) :
  deliver (Api.nlToCron_POST generateText ToString requestJson) "cronExpression"
  = Some reply ->
  Page.rateLimitInfo
    (Page.handleNlToCron JSON_stringify toLocaleTimeString (Resolved reply)
       idNow timestampNow st)
  = Page.rateLimitInfo st.
Proof.
  intros H. apply deliver_headers in H. rewrite nlToCron_no_headers in H.
  unfold Page.handleNlToCron.
  destruct (trim (Page.nlInput st) =? "")%string; [reflexivity|].
  rewrite H. change (Page.extractRateLimitInfo []) with (@None Page.RateLimitInfo).
  destruct reply as [h [d|e]|status h [d|e]]; reflexivity.
Qed.

(** An answered conversion: the display keeps its first values. *)
Lemma nl_conversions_leave_rate_limit_witness :
  Page.rateLimitInfo
    (Page.handleNlToCron (fun _ => "[]") (fun _ => "noon")
       (Resolved (Page.OkReply [] (Resolved "0 9 * * *"))) 1 2
       (Page.setNlInput "every day at 9am" Page.initialState))
  = Page.rateLimitInfo (Page.setNlInput "every day at 9am" Page.initialState).
Proof.
  apply (nl_conversions_leave_rate_limit (fun _ => "[]") (fun _ => "noon")
           (fun _ => Resolved "0 9 * * *") (fun _ => "")
           (Resolved (requestBody "naturalLanguage" "every day at 9am"))).
  reflexivity.
Defined.

(** ** The history *)

Lemma firstn_app_firstn {A : Type} (n : nat) (R L : list A) :
  firstn n (R ++ firstn n L) = firstn n (R ++ L).
Proof.
  rewrite !firstn_app, firstn_firstn. do 2 f_equal. lia.
Qed.

Lemma history_after_save (JSON_stringify : list Page.HistoryItem -> string)
  (x : SaveRequest) (st : Page.PageState) :
  Page.history (applyOp JSON_stringify st (Save x))
  = itemOf x :: firstn 9 (capturedHistory x).
Proof. reflexivity. Qed.

Lemma history_after_saves (JSON_stringify : list Page.HistoryItem -> string)
  (xs : list SaveRequest) :
  xs <> [] ->
  forall st,
    inSequence JSON_stringify (map Save xs) st ->
    Page.history (runOps JSON_stringify (map Save xs) st)
    = firstn 10 (rev (map itemOf xs) ++ Page.history st).
Proof.
  induction xs as [|x xs IH]; [congruence|]. intros _ st [Hx Hs].
  unfold runOps in *. cbn [map fold_left rev].
  destruct xs as [|x' xs].
  - cbn [map fold_left rev app]. rewrite history_after_save, Hx. reflexivity.
  - rewrite (IH ltac:(discriminate) _ Hs). rewrite history_after_save, Hx.
    change (itemOf x :: firstn 9 (Page.history st))
      with (firstn 10 (itemOf x :: Page.history st)).
    rewrite firstn_app_firstn. now rewrite <- app_assoc.
Qed.

Lemma runOps_snoc (JSON_stringify : list Page.HistoryItem -> string)
  (ops : list HistoryOp) (op : HistoryOp) (st : Page.PageState) :
  runOps JSON_stringify (ops ++ [op]) st
  = applyOp JSON_stringify (runOps JSON_stringify ops st) op.
Proof. unfold runOps. now rewrite fold_left_app. Qed.

(** X20. A save leaves the new item followed by the first nine entries
    of the history its callback captured, whatever was saved since that
    history was captured; so the history never holds more than ten
    entries.  When no conversion was started while another was under
    way, every save having captured the history the one before it left,
    the saved conversions pile up newest first and the ten most recent
    are kept. *)
Theorem history_keeps_ten_newest (JSON_stringify : list Page.HistoryItem -> string)
  (xs : list SaveRequest) (x : SaveRequest) (st : Page.PageState) :
  let st' := runOps JSON_stringify (map Save (xs ++ [x])) st in
  Page.history st' = itemOf x :: firstn 9 (capturedHistory x)
  /\ (List.length (Page.history st') <= 10)%nat
  /\ (inSequence JSON_stringify (map Save (xs ++ [x])) st ->
      Page.history st' = firstn 10 (rev (map itemOf (xs ++ [x])) ++ Page.history st)).
Proof.
  cbv zeta.
  assert (E : Page.history (runOps JSON_stringify (map Save (xs ++ [x])) st)
              = itemOf x :: firstn 9 (capturedHistory x)).
  { rewrite map_app. cbn [map]. rewrite runOps_snoc. apply history_after_save. }
  split; [exact E|]. split.
  - rewrite E. cbn [List.length].
    pose proof (firstn_le_length 9 (capturedHistory x)). lia.
  - apply history_after_saves. now destruct xs.
Qed.

(** Two conversions one after the other on an empty history: the second
    was started from the history the first one left. *)
Lemma history_keeps_ten_newest_witness :
  Page.history
    (runOps (fun _ => "[]")
       (map Save
          ([ {| capturedHistory := [];
                savedInput := "a"; savedOutput := "0 9 * * *";
                savedType := Page.NlToCron; idNow := 1; timestampNow := 1 |} ]
           ++ [ {| capturedHistory :=
                     [ {| Page.id := "1"; Page.input := "a";
                          Page.output := "0 9 * * *"; Page.type := Page.NlToCron;
                          Page.timestamp := 1 |} ];
                   savedInput := "0 0 * * 1"; savedOutput := "b";
                   savedType := Page.CronToNl; idNow := 2; timestampNow := 3 |} ]))
       Page.initialState)
  = firstn 10
      (rev (map itemOf
              ([ {| capturedHistory := [];
                    savedInput := "a"; savedOutput := "0 9 * * *";
                    savedType := Page.NlToCron; idNow := 1; timestampNow := 1 |} ]
               ++ [ {| capturedHistory :=
                         [ {| Page.id := "1"; Page.input := "a";
                              Page.output := "0 9 * * *"; Page.type := Page.NlToCron;
                              Page.timestamp := 1 |} ];
                       savedInput := "0 0 * * 1"; savedOutput := "b";
                       savedType := Page.CronToNl; idNow := 2; timestampNow := 3 |} ]))
       ++ Page.history Page.initialState).
Proof.
  apply (proj2 (proj2 (history_keeps_ten_newest (fun _ => "[]")
    [ {| capturedHistory := [];
         savedInput := "a"; savedOutput := "0 9 * * *";
         savedType := Page.NlToCron; idNow := 1; timestampNow := 1 |} ]
    {| capturedHistory :=
         [ {| Page.id := "1"; Page.input := "a";
              Page.output := "0 9 * * *"; Page.type := Page.NlToCron;
              Page.timestamp := 1 |} ];
       savedInput := "0 0 * * 1"; savedOutput := "b";
       savedType := Page.CronToNl; idNow := 2; timestampNow := 3 |}
    Page.initialState))).
  repeat split.
Defined.

(** Two conversions under way at once, both started from the empty
    history: the one that ends last leaves only its own entry. *)
Example overlapping_conversions :
  Page.history
    (runOps (fun _ => "[]")
       [ Save {| capturedHistory := []; savedInput := "a"; savedOutput := "0 9 * * *";
                 savedType := Page.NlToCron; idNow := 1; timestampNow := 1 |};
         Save {| capturedHistory := []; savedInput := "0 0 * * 1"; savedOutput := "b";
                 savedType := Page.CronToNl; idNow := 2; timestampNow := 3 |} ]
       Page.initialState)
  = [ {| Page.id := "2"; Page.input := "0 0 * * 1"; Page.output := "b";
         Page.type := Page.CronToNl; Page.timestamp := 3 |} ].
Proof. reflexivity. Qed.


Lemma storage_after_ops (JSON_stringify : list Page.HistoryItem -> string)
  (ops : list HistoryOp) (st : Page.PageState) :
  ops <> [] ->
  let st' := runOps JSON_stringify ops st in
  (Page.history st' <> []
   /\ Page.getItem (Page.localStorage st') Page.historyKey
      = Some (JSON_stringify (Page.history st')))
  \/ (Page.history st' = []
      /\ Page.getItem (Page.localStorage st') Page.historyKey = None).
Proof.
  intros H. destruct (exists_last H) as (ops' & op & ->). cbv zeta.
  rewrite runOps_snoc. destruct op as [x|].
  - left. split; [discriminate | reflexivity].
  - right. split; reflexivity.
Qed.

Lemma other_keys_untouched (JSON_stringify : list Page.HistoryItem -> string)
  (ops : list HistoryOp) :
  forall st key,
    key <> Page.historyKey ->
    Page.localStorage (runOps JSON_stringify ops st) key = Page.localStorage st key.
Proof.
  induction ops as [|op ops IH]; intros st key Hk; [reflexivity|].
  unfold runOps in *. cbn [fold_left]. rewrite (IH _ key Hk).
  apply String.eqb_neq in Hk.
  destruct op; cbn; unfold Page.setItem, Page.removeItem; now rewrite Hk.
Qed.

(** X21. The stored copy follows the history through every save and
    clear and nothing else in the storage is touched: after any
    operations, one or more, the entry under "cron-generator-history" is
    the serialisation of the history shown when that history is not
    empty, and is absent when the history was cleared last; every other
    key holds what it held before. *)
Theorem storage_mirrors_history (JSON_stringify : list Page.HistoryItem -> string)
  (ops : list HistoryOp) (st : Page.PageState) :
  ops <> [] ->
  let st' := runOps JSON_stringify ops st in
  ((Page.history st' <> []
    /\ Page.getItem (Page.localStorage st') Page.historyKey
       = Some (JSON_stringify (Page.history st')))
   \/ (Page.history st' = []
       /\ Page.getItem (Page.localStorage st') Page.historyKey = None))
  /\ forall key, key <> Page.historyKey ->
                 Page.localStorage st' key = Page.localStorage st key.
Proof.
  intros H. split.
  - now apply storage_after_ops.
  - intros key Hk. now apply other_keys_untouched.
Qed.

(** A save, a clear and a save. *)
Lemma storage_mirrors_history_witness :
  let st' := runOps (fun h => NumberToString (Z.of_nat (List.length h)))
               [ Save {| capturedHistory := []; savedInput := "a"; savedOutput := "b";
                         savedType := Page.NlToCron; idNow := 1; timestampNow := 1 |};
                 Clear;
                 Save {| capturedHistory := []; savedInput := "c"; savedOutput := "d";
                         savedType := Page.CronToNl; idNow := 2; timestampNow := 2 |} ]
               Page.initialState in
  ((Page.history st' <> []
    /\ Page.getItem (Page.localStorage st') Page.historyKey
       = Some (NumberToString (Z.of_nat (List.length (Page.history st')))))
   \/ (Page.history st' = []
       /\ Page.getItem (Page.localStorage st') Page.historyKey = None))
  /\ forall key, key <> Page.historyKey ->
                 Page.localStorage st' key = Page.localStorage Page.initialState key.
Proof.
  apply (storage_mirrors_history (fun h => NumberToString (Z.of_nat (List.length h)))).
  discriminate.
Defined.

(** X22. The history survives a reload: when [JSON.parse] gives back
    the history that [JSON.stringify] wrote, the effect run on mount
    over the storage left by any saves and clears, one or more, restores
    exactly the history that was shown; after a clear it finds nothing
    and the history starts empty. *)
Theorem history_survives_reload (JSON_stringify : list Page.HistoryItem -> string)
  (JSON_parse : string -> option (list Page.HistoryItem))
  (ops : list HistoryOp) (st : Page.PageState) :
  ops <> [] ->
  let st' := runOps JSON_stringify ops st in
  (Page.history st' <> [] ->
   JSON_stringify (Page.history st') <> ""
   /\ JSON_parse (JSON_stringify (Page.history st')) = Some (Page.history st')) ->
  option_map Page.history (Page.loadHistory JSON_parse (reloaded (Page.localStorage st')))
  = Some (Page.history st').
Proof.
  intros H. cbv zeta. intros J.
  destruct (storage_after_ops JSON_stringify ops st H) as [[Hn Hs] | [Hn Hs]];
    cbv zeta in Hn, Hs; unfold Page.loadHistory, reloaded;
    cbn [Page.localStorage Page.setLocalStorage]; rewrite Hs.
  - destruct (J Hn) as [J1 J2]. apply String.eqb_neq in J1. rewrite J1, J2.
    reflexivity.
  - rewrite Hn. reflexivity.
Qed.

(** One save, with a serialisation that only this history needs. *)
Lemma history_survives_reload_witness :
  option_map Page.history
    (Page.loadHistory
       (fun _ => Some [ {| Page.id := "1"; Page.input := "a"; Page.output := "b";
                           Page.type := Page.NlToCron; Page.timestamp := 1 |} ])
       (reloaded
          (Page.localStorage
             (runOps (fun _ => "[item]")
                [ Save {| capturedHistory := []; savedInput := "a"; savedOutput := "b";
                          savedType := Page.NlToCron; idNow := 1; timestampNow := 1 |} ]
                Page.initialState))))
  = Some (Page.history
            (runOps (fun _ => "[item]")
               [ Save {| capturedHistory := []; savedInput := "a"; savedOutput := "b";
                         savedType := Page.NlToCron; idNow := 1; timestampNow := 1 |} ]
               Page.initialState)).
Proof.
  apply (history_survives_reload (fun _ => "[item]")
           (fun _ => Some [ {| Page.id := "1"; Page.input := "a"; Page.output := "b";
                               Page.type := Page.NlToCron; Page.timestamp := 1 |} ])
           [ Save {| capturedHistory := []; savedInput := "a"; savedOutput := "b";
                     savedType := Page.NlToCron; idNow := 1; timestampNow := 1 |} ]
           Page.initialState).
  - discriminate.
  - intros _. split; [discriminate | reflexivity].
Defined.

(** ** A request of "Explain CRON" from the button to the screen *)


Lemma five_tokens_not_blank (expression : string) :
  List.length (tokens expression) = 5%nat -> trim expression <> "".
Proof.
  intros L E. rewrite (blank_has_one_token _ E) in L. discriminate L.
Qed.

(** X23. A request of "Explain CRON" that goes through, from the button
    to the screen: for an input of five fields sent within the quota and
    answered by the text-generation service, the route's response
    reaches the handler, which shows the trimmed answer with no error,
    takes the limiter's numbers into the rate-limit display, puts the
    conversion (the input as typed, the trimmed answer) first in the
    history and turns the loading flag off. *)
Theorem explain_request_succeeds
  (JSON_stringify : list Page.HistoryItem -> string)
  (toLocaleTimeString : option Z -> string)
  (generateText : string -> promise string) (ip forwarded : option string)
  (limiter : string -> promise Api.RatelimitResponse) (r : Api.RatelimitResponse)
  (text : string) (idNow timestampNow : Z) (st : Page.PageState) :
  (forall key, limiter key = Resolved r) -> Api.success r = true -> plainNumbers r ->
  List.length (tokens (Page.cronInput st)) = 5%nat ->
  generateText (explainPrompt (Page.cronInput st)) = Resolved text ->
  exists reply,
    deliver (Api.cronToNl_POST generateText ip forwarded limiter
               (Resolved (requestBody "cronExpression" (Page.cronInput st))))
      "description" = Some reply
    /\ let st' := Page.handleCronToNl JSON_stringify toLocaleTimeString
                    (Resolved reply) idNow timestampNow st in
       Page.cronToNlResult st' = trim text
       /\ Page.cronError st' = ""
       /\ Page.cronLoading st' = false
       /\ Page.rateLimitInfo st' = infoOf r
       /\ Page.history st'
          = {| Page.id := NumberToString idNow; Page.input := Page.cronInput st;
               Page.output := trim text; Page.type := Page.CronToNl;
               Page.timestamp := timestampNow |} :: firstn 9 (Page.history st).
Proof.
  intros Hl Hs _ L Hg.
  pose proof (five_tokens_not_blank _ L) as Hb.
  assert (Hne : Page.cronInput st <> "") by (intros E; apply Hb; now rewrite E).
  exists (Page.OkReply (Api.rateLimitHeaders r) (Resolved (trim text))). split.
  - unfold Api.cronToNl_POST, requestBody. rewrite Hl, Hs.
    cbn [negb Api.destructure].
    change (member [("cronExpression", JString (Page.cronInput st))] "cronExpression")
      with (Some (JString (Page.cronInput st))).
    cbn [truthy]. apply String.eqb_neq in Hne. rewrite Hne. cbn [negb].
    fold (tokens (Page.cronInput st)). rewrite L. cbn [Nat.eqb negb].
    fold (explainPrompt (Page.cronInput st)). rewrite Hg. reflexivity.
  - cbv zeta. unfold Page.handleCronToNl. apply String.eqb_neq in Hb. rewrite Hb.
    cbn [Page.replyHeaders]. rewrite extract_rateLimitHeaders.
    repeat split.
Qed.

(** [0 9 * * *] typed into the first render, nine requests left. *)
Lemma explain_request_succeeds_witness :
  exists reply,
    deliver (Api.cronToNl_POST (fun _ => Resolved " Every day at 9:00 AM ") None None
               (fun _ => Resolved {| Api.success := true; Api.limit := 10;
                                     Api.reset := 5; Api.remaining := 9 |})
               (Resolved (requestBody "cronExpression"
                            (Page.cronInput
                               (Page.setCronInput "0 9 * * *" Page.initialState)))))
      "description" = Some reply
    /\ let st' := Page.handleCronToNl (fun _ => "[]") (fun _ => "noon")
                    (Resolved reply) 1 2
                    (Page.setCronInput "0 9 * * *" Page.initialState) in
       Page.cronToNlResult st' = trim " Every day at 9:00 AM "
       /\ Page.cronError st' = ""
       /\ Page.cronLoading st' = false
       /\ Page.rateLimitInfo st'
          = infoOf {| Api.success := true; Api.limit := 10; Api.reset := 5;
                      Api.remaining := 9 |}
       /\ Page.history st'
          = {| Page.id := NumberToString 1;
               Page.input := Page.cronInput
                               (Page.setCronInput "0 9 * * *" Page.initialState);
               Page.output := trim " Every day at 9:00 AM ";
               Page.type := Page.CronToNl; Page.timestamp := 2 |}
            :: firstn 9 (Page.history (Page.setCronInput "0 9 * * *" Page.initialState)).
Proof.
  apply (explain_request_succeeds (fun _ => "[]") (fun _ => "noon")
           (fun _ => Resolved " Every day at 9:00 AM ") None None
           (fun _ => Resolved {| Api.success := true; Api.limit := 10;
                                 Api.reset := 5; Api.remaining := 9 |})
           {| Api.success := true; Api.limit := 10; Api.reset := 5; Api.remaining := 9 |}
           " Every day at 9:00 AM " 1 2
           (Page.setCronInput "0 9 * * *" Page.initialState)).
  - reflexivity.
  - reflexivity.
  - repeat split; cbn; lia.
  - reflexivity.
  - reflexivity.
Defined.



(** X25. A conversion can be brought back from the history: after an
    "Explain CRON" request that went through, loading the first history
    entry, in whatever state the page is by then, switches to the
    cron-to-nl tab and shows the input and the description of that
    conversion, with the other tab's result and both errors cleared. *)
Theorem history_entry_restores_conversion
  (JSON_stringify : list Page.HistoryItem -> string)
  (toLocaleTimeString : option Z -> string)
  (h : Headers) (description : string) (idNow timestampNow : Z)
  (st later : Page.PageState) :
  trim (Page.cronInput st) <> "" ->
  exists item rest,
    Page.history (Page.handleCronToNl JSON_stringify toLocaleTimeString
                    (Resolved (Page.OkReply h (Resolved description)))
                    idNow timestampNow st) = item :: rest
    /\ let back := Page.loadFromHistory item later in
       Page.activeTab back = "cron-to-nl"
       /\ Page.cronInput back = Page.cronInput st
       /\ Page.cronToNlResult back = description
       /\ Page.nlToCronResult back = ""
       /\ Page.nlError back = "" /\ Page.cronError back = ""
       /\ Page.nlInput back = Page.nlInput later
       /\ Page.history back = Page.history later.
Proof.
  intros Hb. unfold Page.handleCronToNl. apply String.eqb_neq in Hb. rewrite Hb.
  cbn [Page.replyHeaders].
  destruct (Page.extractRateLimitInfo h); eexists; eexists;
    (split; [reflexivity | repeat split]).
Qed.

(** The conversion of [0 9 * * *], loaded back into a fresh page. *)
Lemma history_entry_restores_conversion_witness :
  exists item rest,
    Page.history (Page.handleCronToNl (fun _ => "[]") (fun _ => "noon")
                    (Resolved (Page.OkReply [] (Resolved "Every day at 9:00 AM")))
                    1 2 (Page.setCronInput "0 9 * * *" Page.initialState))
    = item :: rest
    /\ let back := Page.loadFromHistory item Page.initialState in
       Page.activeTab back = "cron-to-nl"
       /\ Page.cronInput back
          = Page.cronInput (Page.setCronInput "0 9 * * *" Page.initialState)
       /\ Page.cronToNlResult back = "Every day at 9:00 AM"
       /\ Page.nlToCronResult back = ""
       /\ Page.nlError back = "" /\ Page.cronError back = ""
       /\ Page.nlInput back = Page.nlInput Page.initialState
       /\ Page.history back = Page.history Page.initialState.
Proof.
  apply (history_entry_restores_conversion (fun _ => "[]") (fun _ => "noon") []
           "Every day at 9:00 AM" 1 2
           (Page.setCronInput "0 9 * * *" Page.initialState) Page.initialState).
  discriminate.
Defined.

(** ** A request of "Generate CRON" from the button to the screen *)

(** X26. A request of "Generate CRON" from the button to the screen,
    when the text-generation service answers: if the answer has exactly
    five white-space separated fields, the handler shows it trimmed with
    no error and puts the conversion first in the history; if not, the
    route answers 500 and the handler shows "Failed to generate CRON
    expression. Please try rephrasing your request.", no result, and
    leaves the history as it was.  Either way the loading flag ends off
    and the rate-limit display does not move. *)
Theorem generate_request_outcome
  (JSON_stringify : list Page.HistoryItem -> string)
  (toLocaleTimeString : option Z -> string)
  (generateText : string -> promise string) (ToString : json -> string)
  (text : string) (idNow timestampNow : Z) (st : Page.PageState) :
  trim (Page.nlInput st) <> "" ->
  generateText (generatePrompt (Page.nlInput st)) = Resolved text ->
  exists reply,
    deliver (Api.nlToCron_POST generateText ToString
               (Resolved (requestBody "naturalLanguage" (Page.nlInput st))))
      "cronExpression" = Some reply
    /\ let st' := Page.handleNlToCron JSON_stringify toLocaleTimeString
                    (Resolved reply) idNow timestampNow st in
       Page.nlLoading st' = false
       /\ Page.rateLimitInfo st' = Page.rateLimitInfo st
       /\ if (List.length (tokens text) =? 5)%nat then
            Page.nlToCronResult st' = trim text
            /\ Page.nlError st' = ""
            /\ Page.history st'
               = {| Page.id := NumberToString idNow; Page.input := Page.nlInput st;
                    Page.output := trim text; Page.type := Page.NlToCron;
                    Page.timestamp := timestampNow |} :: firstn 9 (Page.history st)
          else
            Page.nlToCronResult st' = ""
            /\ Page.nlError st'
               = "Failed to generate CRON expression. Please try rephrasing your request."
            /\ Page.history st' = Page.history st.
Proof.
  intros Hb Hg.
  assert (Hne : Page.nlInput st <> "") by (intros E; apply Hb; now rewrite E).
  apply String.eqb_neq in Hne. apply String.eqb_neq in Hb.
  assert (R : Api.nlToCron_POST generateText ToString
                (Resolved (requestBody "naturalLanguage" (Page.nlInput st)))
              = if (List.length (tokens text) =? 5)%nat
                then {| Api.status := 200;
                        Api.body := JObject [("cronExpression", JString (trim text))];
                        Api.headers := [] |}
                else {| Api.status := 500;
                        Api.body := JObject [("error",
                          JString "Failed to generate CRON expression. Please try rephrasing your request.")];
                        Api.headers := [] |}).
  { unfold Api.nlToCron_POST, requestBody. cbn [Api.destructure].
    change (member [("naturalLanguage", JString (Page.nlInput st))] "naturalLanguage")
      with (Some (JString (Page.nlInput st))).
    cbn [truthy Api.interpolate]. rewrite Hne. cbn [negb].
    fold (generatePrompt (Page.nlInput st)). rewrite Hg. fold (tokens text).
    destruct (List.length (tokens text) =? 5)%nat; reflexivity. }
  rewrite R. destruct (List.length (tokens text) =? 5)%nat.
  - eexists. split; [reflexivity|]. cbv zeta. unfold Page.handleNlToCron.
    rewrite Hb. repeat split.
  - eexists. split; [reflexivity|]. cbv zeta. unfold Page.handleNlToCron.
    rewrite Hb. repeat split.
Qed.

(** The service answers with a sentence instead of an expression. *)
Lemma generate_request_outcome_witness :
  exists reply,
    deliver (Api.nlToCron_POST (fun _ => Resolved "Sorry, I cannot do that.")
               (fun _ => "")
               (Resolved (requestBody "naturalLanguage"
                            (Page.nlInput
                               (Page.setNlInput "every day at 9am" Page.initialState)))))
      "cronExpression" = Some reply
    /\ let st' := Page.handleNlToCron (fun _ => "[]") (fun _ => "noon")
                    (Resolved reply) 1 2
                    (Page.setNlInput "every day at 9am" Page.initialState) in
       Page.nlLoading st' = false
       /\ Page.rateLimitInfo st'
          = Page.rateLimitInfo (Page.setNlInput "every day at 9am" Page.initialState)
       /\ if (List.length (tokens "Sorry, I cannot do that.") =? 5)%nat then
            Page.nlToCronResult st' = trim "Sorry, I cannot do that."
            /\ Page.nlError st' = ""
            /\ Page.history st'
               = {| Page.id := NumberToString 1;
                    Page.input := Page.nlInput
                                    (Page.setNlInput "every day at 9am" Page.initialState);
                    Page.output := trim "Sorry, I cannot do that.";
                    Page.type := Page.NlToCron; Page.timestamp := 2 |}
                 :: firstn 9 (Page.history
                                (Page.setNlInput "every day at 9am" Page.initialState))
          else
            Page.nlToCronResult st' = ""
            /\ Page.nlError st'
               = "Failed to generate CRON expression. Please try rephrasing your request."
            /\ Page.history st'
               = Page.history (Page.setNlInput "every day at 9am" Page.initialState).
Proof.
  apply (generate_request_outcome (fun _ => "[]") (fun _ => "noon")
           (fun _ => Resolved "Sorry, I cannot do that.") (fun _ => "")
           "Sorry, I cannot do that." 1 2
           (Page.setNlInput "every day at 9am" Page.initialState)).
  - discriminate.
  - reflexivity.
Defined.

(** ** The expressions the page offers *)

Lemma offered_cases (P : string -> Prop) :
  P "0 2 * * *" -> P "0 9 * * 1" -> P "0 * * * *" -> P "0 0 1 * *" ->
  P "0 9 * * 1-5" -> P "*/15 * * * *" -> P "0 12 * * 0" ->
  forall expression, In expression offeredExpressions -> P expression.
Proof.
  intros H1 H2 H3 H4 H5 H6 H7 expression H.
  cbv [offeredExpressions Page.quickTemplates Page.cronExamples map Page.cron app In] in H.
  repeat (destruct H as [<-|H]; [assumption|]). contradiction.
Qed.

(** X27. The page's own suggestions pass the page's own checks: for
    every quick template and every example offered under the CRON
    input, at any reference instant, the validator reports "Valid CRON
    expression", the occurrence search returns a list, and the
    cron-to-nl route, within the quota, does not refuse the expression
    for its shape. *)
Theorem offered_expressions_pass (expression : string) (fmt : Z -> string)
  (fuel : nat) (now : Z) (st : State) (generateText : string -> promise string)
  (ip forwarded : option string)
  (limiter : string -> promise Api.RatelimitResponse) (r : Api.RatelimitResponse) :
  In expression offeredExpressions -> (62 <= fuel)%nat ->
  (forall key, limiter key = Resolved r) -> Api.success r = true ->
  verdict fmt fuel now expression st = Some validExpression
  /\ (exists executions,
        calculateNextExecutions fmt fuel now expression = Normal executions)
  /\ Api.status (Api.cronToNl_POST generateText ip forwarded limiter
                   (Resolved (requestBody "cronExpression" expression))) <> 400.
Proof.
  intros Hin Hf Hl Hs. revert expression Hin.
  apply offered_cases;
    (split; [|split];
     [ match goal with
       | |- verdict _ _ _ ?e _ = _ =>
           let l := eval vm_compute in (tokens e) in
           match l with
           | [?t0; ?t1; ?t2; ?t3; ?t4] =>
               rewrite (verdict_five fmt fuel now e st t0 t1 t2 t3 t4);
               [reflexivity | vm_compute; discriminate | reflexivity]
           end
       end
     | apply calculateNextExecutions_returns; [exact Hf | intros f; destruct f; reflexivity]
     | rewrite (cronToNl_400_iff_shape generateText ip forwarded limiter r _ Hl Hs);
       intros H; apply H; reflexivity ]).
Qed.

(** The template "Weekly report". *)
Lemma offered_expressions_pass_witness :
  verdict (fun _ => "t") 62 0 "0 9 * * 1"
    {| cronValidation := None; nextExecutions := [] |} = Some validExpression
  /\ (exists executions,
        calculateNextExecutions (fun _ => "t") 62 0 "0 9 * * 1" = Normal executions)
  /\ Api.status (Api.cronToNl_POST (fun _ => Resolved "text") None None
                   (fun _ => Resolved {| Api.success := true; Api.limit := 10;
                                         Api.reset := 5; Api.remaining := 9 |})
                   (Resolved (requestBody "cronExpression" "0 9 * * 1"))) <> 400.
Proof.
  apply (offered_expressions_pass "0 9 * * 1" (fun _ => "t") 62 0
           {| cronValidation := None; nextExecutions := [] |}
           (fun _ => Resolved "text") None None
           (fun _ => Resolved {| Api.success := true; Api.limit := 10;
                                 Api.reset := 5; Api.remaining := 9 |})
           {| Api.success := true; Api.limit := 10; Api.reset := 5; Api.remaining := 9 |}).
  - right. left. reflexivity.
  - lia.
  - reflexivity.
  - reflexivity.
Defined.
